(** * heads-up-ubc-tennis: the scraper, the aggregation views and the notification matcher

    A shallow embedding of [src/scraper.py] and [src/app.py], and of the
    upload script [src/upload_json_to_supabase.py].

    Conventions of the embedding.
    - Python [str] values are Rocq strings; the texts that occur (court
      labels, clock times, ISO dates) are ASCII, and the character classes
      [\s] and [\d] and the case folding of [re.IGNORECASE] are the ASCII
      ones.
    - A call that can raise is a function into [result]; a [try/except] that
      swallows the exception is a [match] on the result.
    - Dictionaries with a fixed key set (a slot, a Supabase row, a
      subscription, a calendar event) are records; [set()] objects are
      [gset]s; a [defaultdict(list)] whose iteration order is observable is
      an association list in insertion order.
    - [list.sort] and [sorted] are stable; they are embedded as a stable
      insertion sort. *)

From Stdlib Require Import ZArith Ascii String List Bool Lia.
From stdpp Require Import base tactics option list gmap strings sorting.

(** ** Exceptions *)

Inductive exn : Type :=
  | ValueError
  | OverflowError
  | AttributeError
  | IndexError.

Inductive result (A : Type) : Type :=
  | Ok (a : A)
  | Raise (e : exn).
Arguments Ok {A} a.
Arguments Raise {A} e.

Definition rbind {A B} (r : result A) (f : A -> result B) : result B :=
  match r with
  | Ok a => f a
  | Raise e => Raise e
  end.

Notation "'let*' x ':=' r 'in' k" := (rbind r (fun x => k))
  (at level 10, x name, r at level 100, k at level 200, only parsing).

(** [for x in l: acc = body(acc, x)] where the body can raise. *)
Fixpoint rfold {A S} (body : S -> A -> result S) (l : list A) (s : S) : result S :=
  match l with
  | [] => Ok s
  | x :: l' => let* s' := body s x in rfold body l' s'
  end.

(** [[f(x) for x in l]] where [f] can raise. *)
Fixpoint rmap {A B} (f : A -> result B) (l : list A) : result (list B) :=
  match l with
  | [] => Ok []
  | x :: l' => let* y := f x in let* ys := rmap f l' in Ok (y :: ys)
  end.

(** ** Characters and strings *)

Module PyStr.

Definition code (c : ascii) : nat := nat_of_ascii c.

(** [\d] *)
Definition is_digit (c : ascii) : bool :=
  (48 <=? code c)%nat && (code c <=? 57)%nat.

(** [\s], [str.isspace]: tab, LF, VT, FF, CR, FS, GS, RS, US and space. *)
Definition is_space (c : ascii) : bool :=
  ((9 <=? code c)%nat && (code c <=? 13)%nat)
  || ((28 <=? code c)%nat && (code c <=? 32)%nat).

Definition is_upper (c : ascii) : bool :=
  (65 <=? code c)%nat && (code c <=? 90)%nat.

Definition lower_char (c : ascii) : ascii :=
  if is_upper c then ascii_of_nat (code c + 32) else c.

Definition eq_char (a b : ascii) : bool := Ascii.eqb a b.

(** equality of characters under [re.IGNORECASE] *)
Definition eq_char_ci (a b : ascii) : bool :=
  Ascii.eqb (lower_char a) (lower_char b).

(** [str.lower] *)
Fixpoint lower (s : string) : string :=
  match s with
  | EmptyString => EmptyString
  | String c r => String (lower_char c) (lower r)
  end.

(** [str.upper] (only applied to the AM/PM group) *)
Definition upper_char (c : ascii) : ascii :=
  if (97 <=? code c)%nat && (code c <=? 122)%nat
  then ascii_of_nat (code c - 32) else c.

Fixpoint upper (s : string) : string :=
  match s with
  | EmptyString => EmptyString
  | String c r => String (upper_char c) (upper r)
  end.

Fixpoint lstrip (s : string) : string :=
  match s with
  | String c r => if is_space c then lstrip r else s
  | EmptyString => EmptyString
  end.

Fixpoint rstrip (s : string) : string :=
  match s with
  | EmptyString => EmptyString
  | String c r =>
      match rstrip r with
      | EmptyString => if is_space c then EmptyString else String c EmptyString
      | r' => String c r'
      end
  end.

(** [str.strip()] *)
Definition strip (s : string) : string := rstrip (lstrip s).

(** [s.startswith(p)] with a chosen character equality *)
Fixpoint starts_with (eq : ascii -> ascii -> bool) (p s : string) : bool :=
  match p, s with
  | EmptyString, _ => true
  | String a p', String b s' => eq a b && starts_with eq p' s'
  | String _ _, EmptyString => false
  end.

(** [p in s] *)
Fixpoint contains (p s : string) : bool :=
  starts_with eq_char p s ||
  match s with
  | EmptyString => false
  | String _ r => contains p r
  end.

(** [str.split()]: the maximal runs of non-space characters. *)
Fixpoint split_go (cur : string) (s : string) : list string :=
  match s with
  | EmptyString =>
      match cur with EmptyString => [] | _ => [cur] end
  | String c r =>
      if is_space c
      then match cur with
           | EmptyString => split_go EmptyString r
           | _ => cur :: split_go EmptyString r
           end
      else split_go (cur +:+ String c EmptyString) r
  end.

Definition split (s : string) : list string := split_go EmptyString s.

(** [', '.join(l)] *)
Fixpoint join (sep : string) (l : list string) : string :=
  match l with
  | [] => EmptyString
  | [x] => x
  | x :: l' => x +:+ sep +:+ join sep l'
  end.

Definition digit_val (c : ascii) : Z := Z.of_nat (code c) - 48.

(** [int(s)] on a string of decimal digits *)
Definition int_of_digits (s : string) : Z :=
  fold_left (fun acc c => 10 * acc + digit_val c)%Z (list_ascii_of_string s) 0%Z.

Definition digit_char (d : Z) : ascii := ascii_of_nat (Z.to_nat d + 48).

Fixpoint digits_go (fuel : nat) (n : Z) (acc : string) : string :=
  match fuel with
  | O => acc
  | S fuel' =>
      let acc' := String (digit_char (n mod 10)) acc in
      if (n <? 10)%Z then acc' else digits_go fuel' (n / 10) acc'
  end.

(** [str(n)] for [n >= 0] *)
Definition str_of_Z (n : Z) : string :=
  digits_go (S (Z.to_nat (Z.log2 n))) n EmptyString.

(** [f"{n:0{w}d}"] for [n >= 0]: zero padding on the left up to width [w] *)
Definition zero_pad (w : nat) (n : Z) : string :=
  let s := str_of_Z n in
  string_of_list_ascii (replicate (w - String.length s) "0"%char) +:+ s.

End PyStr.

(** ** Regular expressions as prioritised backtracking parsers

    A parser lists the ways a pattern matches at the head of the text, in the
    order in which Python's backtracking matcher tries them (greedy
    quantifiers longest first, alternatives left to right). [re_search]
    takes the first way at the leftmost position that has one. *)

Module Re.

Definition parser (A : Type) : Type := string -> list (A * string).

Definition ret {A} (a : A) : parser A := fun s => [(a, s)].

Definition bind {A B} (p : parser A) (f : A -> parser B) : parser B :=
  fun s => flat_map (fun ar => f (fst ar) (snd ar)) (p s).

Definition alt {A} (p q : parser A) : parser A := fun s => p s ++ q s.

Definition fail {A} : parser A := fun _ => [].

Notation "'let+' x ':=' p 'in' k" := (bind p (fun x => k))
  (at level 10, x name, p at level 100, k at level 200, only parsing).

(** one character of a class *)
Definition chr (f : ascii -> bool) : parser ascii :=
  fun s => match s with
           | String c r => if f c then [(c, r)] else []
           | EmptyString => []
           end.

(** a literal, compared with [eq]; the result is the text it matched *)
Definition lit (eq : ascii -> ascii -> bool) (p : string) : parser string :=
  fun s => if PyStr.starts_with eq p s
           then [(String.substring 0 (String.length p) s,
                  String.substring (String.length p) (String.length s - String.length p) s)]
           else [].

(** [[class]*], greedy: the longest run first, then shorter ones *)
Fixpoint star (f : ascii -> bool) (s : string) : list (string * string) :=
  match s with
  | String c r =>
      if f c
      then map (fun mr => (String c (fst mr), snd mr)) (star f r) ++ [(EmptyString, s)]
      else [(EmptyString, s)]
  | EmptyString => [(EmptyString, EmptyString)]
  end.

(** [[class]+] *)
Definition plus (f : ascii -> bool) : parser string :=
  let+ c := chr f in let+ m := star f in ret (String c m).

(** [[class]{2}] *)
Definition two (f g : ascii -> bool) : parser string :=
  let+ a := chr f in let+ b := chr g in ret (String a (String b EmptyString)).

(** [[class]] as a one-character string *)
Definition one (f : ascii -> bool) : parser string :=
  let+ a := chr f in ret (String a EmptyString).

(** [p?], greedy *)
Definition opt {A} (p : parser A) : parser (option A) :=
  alt (let+ a := p in ret (Some a)) (ret None).

(** [re.search]: the first match at the leftmost position *)
Fixpoint search {A} (p : parser A) (s : string) : option A :=
  match p s with
  | (a, _) :: _ => Some a
  | [] =>
      match s with
      | String _ r => search p r
      | EmptyString => None
      end
  end.

(** [len(re.findall(...))]: the number of non-overlapping matches, scanning
    left to right; [skip] counts the characters of the current match that
    are still to be passed over (every pattern used consumes at least one
    character). *)
Fixpoint count_from {A} (p : parser A) (skip : nat) (s : string) : nat :=
  match skip with
  | S k =>
      match s with
      | String _ r => count_from p k r
      | EmptyString => 0
      end
  | O =>
      match p s, s with
      | (_, rest) :: _, String _ r =>
          S (count_from p (String.length s - String.length rest - 1) r)
      | _, String _ r => count_from p 0 r
      | _, EmptyString => 0
      end
  end.

Definition findall_count {A} (p : parser A) (s : string) : nat := count_from p 0 s.

(** [re.match] followed by the check that the match reaches the end of the
    text (as [_strptime] does): only the first match is looked at. *)
Definition match_to_end {A} (p : parser A) (s : string) : option A :=
  match p s with
  | (a, EmptyString) :: _ => Some a
  | _ => None
  end.

End Re.

(** ** Dates and times ([datetime.date], [datetime.datetime], naive) *)

Module Cal.

Local Open Scope Z_scope.

Record date : Type := Date { year : Z; month : Z; day : Z }.

Record datetime : Type := DateTime {
  dt_date : date;
  hour : Z;
  minute : Z;
  second : Z;
  microsecond : Z
}.

#[global] Instance date_eq_dec : EqDecision date.
Proof. solve_decision. Defined.

#[global] Instance datetime_eq_dec : EqDecision datetime.
Proof. solve_decision. Defined.

#[global] Instance date_countable : Countable date :=
  inj_countable' (fun d => (year d, month d, day d))
                 (fun t => Date t.1.1 t.1.2 t.2) (fun d => match d with Date _ _ _ => eq_refl end).

#[global] Instance datetime_countable : Countable datetime :=
  inj_countable' (fun t => (dt_date t, hour t, minute t, second t, microsecond t))
                 (fun t => DateTime t.1.1.1.1 t.1.1.1.2 t.1.1.2 t.1.2 t.2)
                 (fun t => match t with DateTime _ _ _ _ _ => eq_refl end).

Definition MINYEAR : Z := 1.
Definition MAXYEAR : Z := 9999.

Definition is_leap (y : Z) : bool :=
  (y mod 4 =? 0) && (negb (y mod 100 =? 0) || (y mod 400 =? 0)).

Definition days_in_month (y m : Z) : Z :=
  if m =? 2 then (if is_leap y then 29 else 28)
  else if (m =? 4) || (m =? 6) || (m =? 9) || (m =? 11) then 30
  else 31.

(** [date(y, m, d)]: [ValueError] outside the calendar *)
Definition mk_date (y m d : Z) : result date :=
  if (MINYEAR <=? y) && (y <=? MAXYEAR) && (1 <=? m) && (m <=? 12)
     && (1 <=? d) && (d <=? days_in_month y m)
  then Ok (Date y m d) else Raise ValueError.

Definition valid_time (h mi : Z) : bool :=
  (0 <=? h) && (h <=? 23) && (0 <=? mi) && (mi <=? 59).

(** [datetime(y, m, d, h, mi)] *)
Definition mk_datetime (y m d h mi : Z) : result datetime :=
  let* dd := mk_date y m d in
  if valid_time h mi then Ok (DateTime dd h mi 0 0) else Raise ValueError.

(** [dt.replace(hour=h, minute=mi, second=0, microsecond=0)] *)
Definition replace_time (dt : datetime) (h mi : Z) : result datetime :=
  if valid_time h mi then Ok (DateTime (dt_date dt) h mi 0 0) else Raise ValueError.

(** [d + timedelta(days=1)] *)
Definition next_day (d : date) : result date :=
  if day d <? days_in_month (year d) (month d) then Ok (Date (year d) (month d) (day d + 1))
  else if month d <? 12 then Ok (Date (year d) (month d + 1) 1)
  else if year d <? MAXYEAR then Ok (Date (year d + 1) 1 1)
  else Raise OverflowError.

(** [d + timedelta(days=n)] for [n >= 0] *)
Fixpoint add_days (d : date) (n : nat) : result date :=
  match n with
  | O => Ok d
  | S n' => let* d' := next_day d in add_days d' n'
  end.

(** [dt + timedelta(hours=1)] *)
Definition add_hour (dt : datetime) : result datetime :=
  if hour dt <? 23
  then Ok (DateTime (dt_date dt) (hour dt + 1) (minute dt) (second dt) (microsecond dt))
  else let* d' := next_day (dt_date dt) in
       Ok (DateTime d' 0 (minute dt) (second dt) (microsecond dt)).

Definition days_before_year (y : Z) : Z :=
  (y - 1) * 365 + (y - 1) / 4 - (y - 1) / 100 + (y - 1) / 400.

Definition days_before_month (y m : Z) : Z :=
  fold_right Z.add 0 (map (days_in_month y) (map Z.of_nat (seq 1 (Z.to_nat (m - 1))))).

(** [d.toordinal()]: 0001-01-01 is day 1 *)
Definition toordinal (d : date) : Z :=
  days_before_year (year d) + days_before_month (year d) (month d) + day d.

(** [d.weekday()]: Monday is 0 *)
Definition weekday (d : date) : Z := (toordinal d + 6) mod 7.

(** [strftime("%A")] *)
Definition day_name (d : date) : string :=
  nth (Z.to_nat (weekday d))
      ["Monday"; "Tuesday"; "Wednesday"; "Thursday"; "Friday"; "Saturday"; "Sunday"] "".

(** the fields in the order in which two datetimes are compared *)
Definition fields (dt : datetime) : list Z :=
  [year (dt_date dt); month (dt_date dt); day (dt_date dt);
   hour dt; minute dt; second dt; microsecond dt].

Fixpoint lex_compare (a b : list Z) : comparison :=
  match a, b with
  | x :: a', y :: b' =>
      match x ?= y with
      | Eq => lex_compare a' b'
      | c => c
      end
  | [], [] => Eq
  | [], _ :: _ => Lt
  | _ :: _, [] => Gt
  end.

Definition dt_compare (a b : datetime) : comparison := lex_compare (fields a) (fields b).

(** [a <= b] *)
Definition dt_leb (a b : datetime) : bool :=
  match dt_compare a b with Gt => false | _ => true end.

(** [a < b] *)
Definition dt_ltb (a b : datetime) : bool :=
  match dt_compare a b with Lt => true | _ => false end.

(** microseconds from 0001-01-01 00:00 to the wall-clock reading [dt] *)
Definition wall_micros (dt : datetime) : Z :=
  ((((toordinal (dt_date dt) - 1) * 24 + hour dt) * 60 + minute dt) * 60 + second dt)
  * 1000000 + microsecond dt.

(** [strftime("%Y-%m-%d")] *)
Definition iso_date (d : date) : string :=
  PyStr.zero_pad 4 (year d) +:+ "-" +:+ PyStr.zero_pad 2 (month d) +:+ "-"
  +:+ PyStr.zero_pad 2 (day d).

End Cal.

(** ** [datetime.strptime] for the directives the repository uses

    The standard library turns the format into a regular expression (a run
    of white space becomes [\s+], a directive becomes its group), matches it
    case-insensitively at the start of the text, raises [ValueError] when
    nothing matches or when text is left over after the match, and then
    builds the datetime (raising [ValueError] for a date that is not in the
    calendar). *)

Module Strptime.

Import PyStr.

Inductive item : Type :=
  | Lit (c : ascii)
  | Space
  | Dir (c : ascii).

Fixpoint compile_go (in_space : bool) (fmt : string) : list item :=
  match fmt with
  | EmptyString => []
  | String c r =>
      if is_space c then
        if in_space then compile_go true r else Space :: compile_go true r
      else if Ascii.eqb c "%" then
        match r with
        | String d r' => Dir d :: compile_go false r'
        | EmptyString => []
        end
      else Lit c :: compile_go false r
  end.

Definition compile (fmt : string) : list item := compile_go false fmt.

Definition digit_in (lo hi : nat) (c : ascii) : bool :=
  (48 + lo <=? code c)%nat && (code c <=? 48 + hi)%nat.

Definition is_char (a : ascii) (c : ascii) : bool := Ascii.eqb a c.

(** the group of a directive, alternatives in the library's order *)
Definition directive (d : ascii) : Re.parser string :=
  if Ascii.eqb d "Y" then
    Re.bind (Re.two is_digit is_digit) (fun a =>
    Re.bind (Re.two is_digit is_digit) (fun b => Re.ret (a +:+ b)))
  else if Ascii.eqb d "m" || Ascii.eqb d "I" then
    Re.alt (Re.two (digit_in 1 1) (digit_in 0 2))
   (Re.alt (Re.two (digit_in 0 0) (digit_in 1 9))
           (Re.one (digit_in 1 9)))
  else if Ascii.eqb d "d" then
    Re.alt (Re.two (digit_in 3 3) (digit_in 0 1))
   (Re.alt (Re.two (digit_in 1 2) is_digit)
   (Re.alt (Re.two (digit_in 0 0) (digit_in 1 9))
   (Re.alt (Re.one (digit_in 1 9))
           (Re.two (is_char " ") (digit_in 1 9)))))
  else if Ascii.eqb d "H" then
    Re.alt (Re.two (digit_in 2 2) (digit_in 0 3))
   (Re.alt (Re.two (digit_in 0 1) is_digit)
           (Re.one is_digit))
  else if Ascii.eqb d "M" then
    Re.alt (Re.two (digit_in 0 5) is_digit) (Re.one is_digit)
  else if Ascii.eqb d "p" then
    Re.alt (Re.lit eq_char_ci "am") (Re.lit eq_char_ci "pm")
  else Re.fail.

(** the compiled format as a parser of the found groups *)
Fixpoint pattern (items : list item) : Re.parser (list (ascii * string)) :=
  match items with
  | [] => Re.ret []
  | Lit c :: rest =>
      Re.bind (Re.chr (eq_char_ci c)) (fun _ => pattern rest)
  | Space :: rest =>
      Re.bind (Re.plus is_space) (fun _ => pattern rest)
  | Dir d :: rest =>
      Re.bind (directive d) (fun v =>
      Re.bind (pattern rest) (fun found => Re.ret ((d, v) :: found)))
  end.

Fixpoint found_get (d : ascii) (found : list (ascii * string)) : option string :=
  match found with
  | [] => None
  | (k, v) :: rest => if Ascii.eqb k d then Some v else found_get d rest
  end.

Definition found_int (d : ascii) (default : Z) (found : list (ascii * string)) : Z :=
  match found_get d found with
  | Some v => int_of_digits (strip v)
  | None => default
  end.

Definition found_hour (found : list (ascii * string)) : Z :=
  match found_get "H" found, found_get "I" found with
  | Some v, _ => int_of_digits v
  | None, Some v =>
      let h := int_of_digits v in
      let ampm := match found_get "p" found with Some p => lower p | None => "" end in
      if String.eqb ampm "" || String.eqb ampm "am"
      then (if (h =? 12)%Z then 0%Z else h)
      else if String.eqb ampm "pm"
      then (if (h =? 12)%Z then h else (h + 12)%Z)
      else h
  | None, None => 0%Z
  end.

(** [datetime.strptime(text, fmt)] *)
Definition strptime (text fmt : string) : result Cal.datetime :=
  match Re.match_to_end (pattern (compile fmt)) text with
  | None => Raise ValueError
  | Some found =>
      Cal.mk_datetime (found_int "Y" 1900 found) (found_int "m" 1 found)
                      (found_int "d" 1 found) (found_hour found) (found_int "M" 0 found)
  end.

(** [for fmt in formats: try: return strptime(text, fmt)
    except ValueError: continue]; [None] when every format failed *)
Fixpoint first_format (text : string) (formats : list string)
  : result (option Cal.datetime) :=
  match formats with
  | [] => Ok None
  | fmt :: formats' =>
      match strptime text fmt with
      | Ok dt => Ok (Some dt)
      | Raise ValueError => first_format text formats'
      | Raise e => Raise e
      end
  end.

End Strptime.

(** ** Slot records and sorting *)

(** One availability record, the dictionary written by the scraper and read
    back by [load_cache]: the five keys are always present. *)
Record Slot : Type := {
  court : string;
  time : string;
  status : string;
  link : string;
  raw_text : string
}.

#[global] Instance Slot_eq_dec : EqDecision Slot.
Proof. solve_decision. Defined.

Section StableSort.
Context {A : Type} (leb : A -> A -> bool).

Fixpoint insert_sorted (x : A) (l : list A) : list A :=
  match l with
  | [] => [x]
  | y :: l' => if leb x y then x :: l else y :: insert_sorted x l'
  end.

(** [x] stood in front of [l'] and goes in front of the first element it
    does not exceed, hence in front of its equals: the sort is stable. *)
Fixpoint stable_sort (l : list A) : list A :=
  match l with
  | [] => []
  | x :: l' => insert_sorted x (stable_sort l')
  end.
End StableSort.

(** [enumerate(l)] *)
Fixpoint enumerate_from {A} (n : nat) (l : list A) : list (nat * A) :=
  match l with
  | [] => []
  | x :: l' => (n, x) :: enumerate_from (S n) l'
  end.

Definition enumerate {A} (l : list A) : list (nat * A) := enumerate_from 0 l.

(** [d[k].append(v)] on a [defaultdict(list)], keys kept in insertion order *)
Fixpoint group_add {K V} `{EqDecision K} (k : K) (v : V) (m : list (K * list V))
  : list (K * list V) :=
  match m with
  | [] => [(k, [v])]
  | (k', vs) :: m' =>
      if decide (k = k') then (k', vs ++ [v]) :: m' else (k', vs) :: group_add k v m'
  end.

(** ** [app.py]: parsing and the aggregation views *)

Module App.

Import PyStr Cal.

Definition patterns : list string :=
  [ "%Y-%m-%d %H:%M";
    "%Y-%m-%d %I:%M %p";
    "%m/%d/%Y %I:%M %p";
    "%m-%d-%Y %I:%M %p";
    "%d/%m/%Y %I:%M %p";
    "%d-%m-%Y %I:%M %p" ].

(** [(\d{1,2}):(\d{2})\s*(AM|PM|am|pm)] with its three groups *)
Definition clock_re : Re.parser (string * string * string) :=
  Re.bind (Re.alt (Re.two is_digit is_digit) (Re.one is_digit)) (fun h =>
  Re.bind (Re.chr (Strptime.is_char ":")) (fun _ =>
  Re.bind (Re.two is_digit is_digit) (fun m =>
  Re.bind (Re.star is_space) (fun _ =>
  Re.bind (Re.alt (Re.lit eq_char "AM") (Re.alt (Re.lit eq_char "PM")
          (Re.alt (Re.lit eq_char "am") (Re.lit eq_char "pm")))) (fun ap =>
  Re.ret (h, m, ap)))))).

(** the 24-hour value computed from the first and third group *)
Definition clock_hour (h : Z) (am_pm : string) : Z :=
  if String.eqb am_pm "PM" && negb (h =? 12)%Z then (h + 12)%Z
  else if String.eqb am_pm "AM" && (h =? 12)%Z then 0%Z
  else h.

(** [_parse_time(value)]; [now] is the reading of [datetime.now()] *)
Definition _parse_time (now : datetime) (value : string) : result (option datetime) :=
  if String.eqb value "" then Ok None
  else
    let* parsed := Strptime.first_format (strip value) patterns in
    match parsed with
    | Some dt => Ok (Some dt)
    | None =>
        match Re.search clock_re value with
        | Some (h, m, ap) =>
            let hour := clock_hour (int_of_digits h) (upper ap) in
            let minute := int_of_digits m in
            let* today := replace_time now hour minute in
            Ok (Some today)
        | None => Ok None
        end
    end.

(** [parsed = [(item, _parse_time(item.get("time", ""))) for item in data]],
    without the [None]s, sorted by the datetime *)
Definition attach_time (now : datetime) (item : Slot) : result (Slot * option datetime) :=
  let* dt := _parse_time now (time item) in Ok (item, dt).

Definition keep_parsed (l : list (Slot * option datetime)) : list (Slot * datetime) :=
  omap (fun x => match snd x with Some dt => Some (fst x, dt) | None => None end) l.

Definition by_time (a b : Slot * datetime) : bool := dt_leb (snd a) (snd b).

Definition parse_and_sort (now : datetime) (data : list Slot)
  : result (list (Slot * datetime)) :=
  let* parsed := rmap (attach_time now) data in
  Ok (stable_sort by_time (keep_parsed parsed)).

(** [group_by_day] *)
Definition group_by_day (now : datetime) (data : list Slot)
  : result (list (string * list Slot)) :=
  rfold (fun grouped entry =>
           let* dt := _parse_time now (time entry) in
           let label := match dt with
                        | Some d => day_name (dt_date d)
                        | None => "Unknown Day"
                        end in
           Ok (group_add label entry grouped))
        data [].

(** [render_hero]: the record shown as the next slot, if any *)
Definition render_hero (now : datetime) (data : list Slot) : result (option Slot) :=
  let* parsed := parse_and_sort now data in
  Ok (match parsed with
      | x :: _ => Some (fst x)
      | [] => None
      end).

(** *** Display strings *)

Definition day_abbr (d : date) : string :=
  nth (Z.to_nat (weekday d)) ["Mon"; "Tue"; "Wed"; "Thu"; "Fri"; "Sat"; "Sun"] "".

Definition day_suffix (d : Z) : string :=
  if (10 <=? d mod 100)%Z && (d mod 100 <=? 20)%Z then "th"
  else if (d mod 10 =? 1)%Z then "st"
  else if (d mod 10 =? 2)%Z then "nd"
  else if (d mod 10 =? 3)%Z then "rd"
  else "th".

(** [_format_readable_date] *)
Definition _format_readable_date (dt : datetime) : string :=
  let d := dt_date dt in
  day_abbr d +:+ " " +:+ str_of_Z (day d) +:+ day_suffix (day d) +:+ " "
  +:+ zero_pad 4 (year d).

(** [strftime("%I:%M%p")] *)
Definition clock_12 (dt : datetime) : string :=
  let h := (hour dt mod 12)%Z in
  zero_pad 2 (if (h =? 0)%Z then 12%Z else h) +:+ ":" +:+ zero_pad 2 (minute dt)
  +:+ (if (hour dt <? 12)%Z then "AM" else "PM").

(** [_format_single_time] *)
Definition _format_single_time (dt : datetime) : string :=
  _format_readable_date dt +:+ " " +:+ clock_12 dt.

(** [_format_time_range] *)
Definition _format_time_range (start_dt end_dt : datetime) : string :=
  if decide (dt_date start_dt = dt_date end_dt)
  then _format_readable_date start_dt +:+ " " +:+ clock_12 start_dt +:+ " - "
       +:+ clock_12 end_dt
  else _format_readable_date start_dt +:+ " " +:+ clock_12 start_dt +:+ " - "
       +:+ _format_readable_date end_dt +:+ " " +:+ clock_12 end_dt.

(** [other_dt.date() == next_hour.date() and other_dt.hour == next_hour.hour] *)
Definition same_date_hour (other_dt next_hour : datetime) : bool :=
  bool_decide (dt_date other_dt = dt_date next_hour) && (hour other_dt =? hour next_hour)%Z.

(** *** [find_one_hour_slots] *)

Record OneHourSlot : Type := {
  oh_item : Slot;
  oh_formatted_time : string
}.

Definition one_hour_step (parsed : list (Slot * datetime))
    (st : list OneHourSlot * gset (date * Z)) (x : Slot * datetime)
  : result (list OneHourSlot * gset (date * Z)) :=
  let '(one_hour_slots, seen_times) := st in
  let '(item, dt) := x in
  if decide ((dt_date dt, hour dt) ∈ seen_times) then Ok st
  else
    let* next_hour := add_hour dt in
    if existsb (fun o => same_date_hour (snd o) next_hour
                         && String.eqb (court item) (court (fst o))) parsed
    then Ok (one_hour_slots, seen_times ∪ {[ (dt_date next_hour, hour next_hour) ]})
    else Ok (one_hour_slots ++ [ {| oh_item := item;
                                    oh_formatted_time := _format_single_time dt |} ],
             seen_times).

Definition find_one_hour_slots (now : datetime) (data : list Slot)
  : result (list OneHourSlot) :=
  let* parsed := parse_and_sort now data in
  let* st := rfold (one_hour_step parsed) parsed ([], ∅) in
  Ok (take 3 (fst st)).

(** *** [find_two_hour_slots] *)

Record TwoHourSlot : Type := {
  th_court : string;
  th_start_time : string;
  th_end_time : string;
  th_formatted_time : string;
  th_status : string;
  th_link : string
}.

(** The loop of [find_two_hour_slots]. Each block is kept together with
    the positions [(i, j)] in [parsed] of the two records it was built
    from; the positions are bookkeeping of the model and are dropped by
    [find_two_hour_slots]. *)
Fixpoint two_hour_loop (parsed : list (Slot * datetime))
    (todo : list (nat * (Slot * datetime)))
    (two_hour_slots : list (nat * nat * TwoHourSlot))
    (seen_pairs : gset (datetime * datetime * string))
  : result (list (nat * nat * TwoHourSlot)) :=
  match todo with
  | [] => Ok two_hour_slots
  | (i, (item, dt)) :: rest =>
      let* next_hour := add_hour dt in
      let* st :=
        match find (fun o : nat * (Slot * datetime) =>
                      negb (i =? fst o)%nat
                      && String.eqb (court item) (court (fst (snd o)))
                      && same_date_hour (snd (snd o)) next_hour
                      && negb (bool_decide ((dt, snd (snd o), court item) ∈ seen_pairs)))
                   (enumerate parsed) with
        | Some (j, (other_item, other_dt)) =>
            let* end_time := add_hour other_dt in
            Ok (two_hour_slots ++
                  [ (i, j, {| th_court := court item;
                              th_start_time := time item;
                              th_end_time := time other_item;
                              th_formatted_time := _format_time_range dt end_time;
                              th_status := "Open (2 hours)";
                              th_link := link item |}) ],
                seen_pairs ∪ {[ (dt, other_dt, court item) ]})
        | None => Ok (two_hour_slots, seen_pairs)
        end in
      if (3 <=? length (fst st))%nat then Ok (fst st)
      else two_hour_loop parsed rest (fst st) (snd st)
  end.

Definition find_two_hour_pairs (now : datetime) (data : list Slot)
  : result (list (nat * nat * TwoHourSlot)) :=
  let* parsed := parse_and_sort now data in
  let* two_hour_slots := two_hour_loop parsed (enumerate parsed) [] ∅ in
  Ok (take 3 two_hour_slots).

Definition find_two_hour_slots (now : datetime) (data : list Slot)
  : result (list TwoHourSlot) :=
  let* l := find_two_hour_pairs now data in Ok (map snd l).

(** *** [group_slots_by_time_block] *)

(** an entry of [two_hour_slots_list] *)
Record Block : Type := {
  b_start : datetime;
  b_end : datetime;
  b_court : string;
  b_start_time_str : string;
  b_end_time_str : string;
  b_link : string
}.

#[global] Instance Block_eq_dec : EqDecision Block.
Proof. solve_decision. Defined.

(** A calendar event. [ev_start] and [ev_end] are the datetimes the source
    renders with [strftime('%Y-%m-%dT%H:%M:%S')]. [ev_sources] is
    bookkeeping of the model: the positions in [parsed] of the records
    merged into the event. *)
Record Event : Type := {
  ev_title : string;
  ev_start : datetime;
  ev_end : datetime;
  ev_resourceId : string;
  ev_courts : list string;
  ev_isTwoHour : bool;
  ev_link : string;
  ev_sources : list nat
}.

(** the test of the inner loop of the pairing phase at position [j] *)
Definition partner_of (i : nat) (item : Slot) (next_hour : datetime)
    (processed_indices : gset nat) (o : nat * (Slot * datetime)) : bool :=
  negb (i =? fst o)%nat
  && negb (bool_decide (fst o ∈ processed_indices))
  && String.eqb (court item) (court (fst (snd o)))
  && same_date_hour (snd (snd o)) next_hour.

(** one turn of the outer loop of the pairing phase; [indexed] is
    [enumerate(parsed)], which the inner loop walks from its start; every
    block carries the positions [(i, j)] it was built from *)
Definition pairing_step (indexed : list (nat * (Slot * datetime)))
    (st : list (nat * nat * Block) * gset nat) (x : nat * (Slot * datetime))
  : result (list (nat * nat * Block) * gset nat) :=
  let '(two_hour_slots_list, processed_indices) := st in
  let '(i, (item, dt)) := x in
  if decide (i ∈ processed_indices) then Ok st
  else
    let* next_hour := add_hour dt in
    match find (partner_of i item next_hour processed_indices) indexed with
    | Some (j, (other_item, other_dt)) =>
        let* end_ := add_hour other_dt in
        Ok (two_hour_slots_list ++
              [ (i, j, {| b_start := dt;
                          b_end := end_;
                          b_court := court item;
                          b_start_time_str := time item;
                          b_end_time_str := time other_item;
                          b_link := link item |}) ],
            processed_indices ∪ {[ i ]} ∪ {[ j ]})
    | None => Ok st
    end.

(** the two nested loops over an indexed list *)
Definition pairing_on (indexed : list (nat * (Slot * datetime)))
  : result (list (nat * nat * Block) * gset nat) :=
  rfold (pairing_step indexed) indexed ([], ∅).

Definition pairing (parsed : list (Slot * datetime))
  : result (list (nat * nat * Block) * gset nat) :=
  pairing_on (enumerate parsed).

(** [two_hour_time_blocks[(start.date(), start.hour)].append(slot)] *)
Definition group_blocks (two_hour_slots_list : list (nat * nat * Block))
  : list (date * Z * list (nat * nat * Block)) :=
  fold_left (fun m slot =>
               group_add (dt_date (b_start (snd slot)), hour (b_start (snd slot))) slot m)
            two_hour_slots_list [].

(** [time_blocks[(dt.date(), dt.hour)].append(item)] for the positions that
    are not in [processed_indices] *)
Definition group_singles (parsed : list (Slot * datetime)) (processed_indices : gset nat)
  : list (date * Z * list (nat * Slot)) :=
  fold_left (fun m x =>
               let '(i, (item, dt)) := x in
               if decide (i ∈ processed_indices) then m
               else group_add (dt_date dt, hour dt) (i, item) m)
            (enumerate parsed) [].

(** [int(re.search(r'\d+', x).group())] *)
Definition court_number (x : string) : result Z :=
  match Re.search (Re.plus is_digit) x with
  | Some digits => Ok (int_of_digits digits)
  | None => Raise AttributeError
  end.

(** [sorted(courts, key=lambda x: int(re.search(r'\d+', x).group()))] *)
Definition sorted_courts (courts : list string) : result (list string) :=
  let* keyed := rmap (fun c => let* k := court_number c in Ok (k, c)) courts in
  Ok (map snd (stable_sort (fun a b => (fst a <=? fst b)%Z) keyed)).

(** [c.split()[-1]] *)
Definition last_word (c : string) : result string :=
  match last (split c) with
  | Some w => Ok w
  | None => Raise IndexError
  end.

Definition event_title (court_nums : list string) : string :=
  match court_nums with
  | [n] => "Court " +:+ n
  | _ => "Courts " +:+ join ", " court_nums
  end.

Definition event_resource (courts : list string) : string :=
  match courts with
  | [c] => c
  | _ => "Multiple"
  end.

Definition two_hour_event (group : date * Z * list (nat * nat * Block)) : result Event :=
  let slots := snd group in
  let* courts := sorted_courts (map (fun s => b_court (snd s)) slots) in
  let* court_nums := rmap last_word courts in
  match slots with
  | [] => Raise IndexError
  | first_slot :: _ =>
      Ok {| ev_title := event_title court_nums;
            ev_start := b_start (snd first_slot);
            ev_end := b_end (snd first_slot);
            ev_resourceId := event_resource courts;
            ev_courts := courts;
            ev_isTwoHour := true;
            ev_link := b_link (snd first_slot);
            ev_sources := flat_map (fun s => [fst (fst s); snd (fst s)]) slots |}
  end.

(** [None] stands for the [continue] of the one-hour loop *)
Definition one_hour_event (now : datetime) (group : date * Z * list (nat * Slot))
  : result (option Event) :=
  let items := snd group in
  let* courts := sorted_courts (map (fun s => court (snd s)) items) in
  let* court_nums := rmap last_word courts in
  match items with
  | [] => Raise IndexError
  | first_item :: _ =>
      let* start_dt := _parse_time now (time (snd first_item)) in
      match start_dt with
      | None => Ok None
      | Some start_dt =>
          let* end_dt := add_hour start_dt in
          Ok (Some {| ev_title := event_title court_nums;
                      ev_start := start_dt;
                      ev_end := end_dt;
                      ev_resourceId := event_resource courts;
                      ev_courts := courts;
                      ev_isTwoHour := false;
                      ev_link := link (snd first_item);
                      ev_sources := map fst items |})
      end
  end.

Definition events_of (now : datetime) (parsed : list (Slot * datetime))
    (st : list (nat * nat * Block) * gset nat) : result (list Event) :=
  let* two := rmap two_hour_event (group_blocks (fst st)) in
  let* one := rmap (one_hour_event now) (group_singles parsed (snd st)) in
  Ok (two ++ omap id one).

Definition group_slots_by_time_block (now : datetime) (data : list Slot)
  : result (list Event) :=
  let* parsed := parse_and_sort now data in
  let* st := pairing parsed in
  events_of now parsed st.

(** *** [render_calendar_view]: the colours of the events *)

Definition get_pastel_colors : list (string * string) :=
  [ ("Court 01", "#FFB3BA");
    ("Court 02", "#BAFFC9");
    ("Court 03", "#BAE1FF");
    ("Court 04", "#B4C6E7");
    ("Court 05", "#FFDFBA");
    ("Court 06", "#E0BBE4");
    ("Court 07", "#FEC8C1");
    ("Court 08", "#B5EAD7");
    ("Court 09", "#C7CEEA");
    ("Court 10", "#FFD3A5");
    ("Court 11", "#A8E6CF");
    ("Court 12", "#FFAAA5");
    ("Court 13", "#DDA0DD") ].

(** [color_map.get(c, "#CCCCCC")] *)
Definition color_get (color_map : list (string * string)) (c : string) : string :=
  match find (fun kv => String.eqb (fst kv) c) color_map with
  | Some kv => snd kv
  | None => "#CCCCCC"
  end.

Definition multi_court_color : string := "#D3D3D3".
Definition two_hour_multi_color : string := "#FFA500".

(** an event with the two colour keys the loop adds to it *)
Record ColoredEvent : Type := {
  ce_event : Event;
  backgroundColor : string;
  borderColor : string
}.

Definition color_event (color_map : list (string * string)) (event : Event) : ColoredEvent :=
  let courts := ev_courts event in
  if ev_isTwoHour event then
    match courts with
    | [c] => {| ce_event := event;
                backgroundColor := color_get color_map c;
                borderColor := color_get color_map c |}
    | _ => {| ce_event := event;
              backgroundColor := two_hour_multi_color;
              borderColor := two_hour_multi_color |}
    end
  else
    match courts with
    | [c] => {| ce_event := event;
                backgroundColor := color_get color_map c;
                borderColor := color_get color_map c |}
    | _ => {| ce_event := event;
              backgroundColor := multi_court_color;
              borderColor := multi_court_color |}
    end.

(** [render_calendar_view]: the events handed to the calendar widget;
    [None] stands for the notice that there is nothing to display *)
Definition render_calendar_view (now : datetime) (data : list Slot)
  : result (option (list ColoredEvent)) :=
  let* events := group_slots_by_time_block now data in
  match events with
  | [] => Ok None
  | _ => Ok (Some (map (color_event get_pastel_colors) events))
  end.

End App.

(** ** [scraper.py]: verification, extraction, persistence, notifications *)

Module Scraper.

Import PyStr Cal.

(** *** The page as the browser shows it

    A snapshot of what the Playwright calls of the two functions return.
    [None] in an optional field stands for a call that raised. *)

Record Span : Type := {
  span_title_attr : option string;      (* get_attribute("title") *)
  span_inner_text : string              (* inner_text() *)
}.

Record GridCell : Type := {
  gc_spans : list Span;                 (* locator("span[title]") *)
  gc_left : option Z;                   (* computed style [left], in whole pixels *)
  gc_anchor_href : option string;       (* query_selector("a[href]") and its href *)
  gc_onclick : option string            (* get_attribute("onclick") *)
}.

Record Page : Type := {
  page_title : option string;                    (* page.title() *)
  page_headings : option (list (option string)); (* h1..h6 and their inner_text() *)
  page_body : option string;                     (* inner_text("body") *)
  page_url : string;                             (* page.url *)
  page_scheduler : option (list GridCell)
    (* the [role='gridcell'] elements of #scheduler; [None] when the
       container does not appear or the inspection before the cell loop
       raises, in which case the function returns with no entries *)
}.

(** *** [_verify_court_on_page] *)

(** [Court\s+0?(\d+)] under IGNORECASE, group 1 *)
Definition court_num_re : Re.parser string :=
  Re.bind (Re.lit eq_char_ci "Court") (fun _ =>
  Re.bind (Re.plus is_space) (fun _ =>
  Re.bind (Re.opt (Re.chr (Strptime.is_char "0"))) (fun _ =>
  Re.bind (Re.plus is_digit) (fun d => Re.ret d)))).

Inductive court_pattern : Type :=
  | CourtDigits (digits : string)   (* f"Court\s+{digits}" *)
  | Escaped (name : string).        (* re.escape(court_name) *)

Definition court_patterns (court_name : string) : list court_pattern :=
  match Re.search court_num_re court_name with
  | Some d =>
      let court_num := int_of_digits d in
      [ CourtDigits (zero_pad 2 court_num);
        CourtDigits (str_of_Z court_num);
        CourtDigits ("0" +:+ str_of_Z court_num) ]
  | None => [ Escaped court_name ]
  end.

Definition pattern_re (p : court_pattern) : Re.parser string :=
  match p with
  | CourtDigits digits =>
      Re.bind (Re.lit eq_char_ci "Court") (fun _ =>
      Re.bind (Re.plus is_space) (fun _ => Re.lit eq_char_ci digits))
  | Escaped name => Re.lit eq_char_ci name
  end.

(** [re.search(pattern, text, re.IGNORECASE)] is not [None] *)
Definition found (p : court_pattern) (text : string) : bool :=
  bool_decide (is_Some (Re.search (pattern_re p) text)).

(** [Court\s+\d+] under IGNORECASE *)
Definition any_court_re : Re.parser string :=
  Re.bind (Re.lit eq_char_ci "Court") (fun _ =>
  Re.bind (Re.plus is_space) (fun _ => Re.plus is_digit)).

Definition title_check (ps : list court_pattern) (page : Page) : bool :=
  match page_title page with
  | Some title => existsb (fun p => found p title) ps
  | None => false
  end.

Definition heading_check (ps : list court_pattern) (page : Page) : bool :=
  match page_headings page with
  | Some headings =>
      existsb (fun h => match h with
                        | Some heading_text => existsb (fun p => found p heading_text) ps
                        | None => false
                        end) headings
  | None => false
  end.

Definition body_check (ps : list court_pattern) (page : Page) : bool :=
  match page_body page with
  | Some body_text =>
      existsb (fun p => found p body_text
                        && (Re.findall_count any_court_re body_text <=? 2)%nat) ps
  | None => false
  end.

Definition url_check (ps : list court_pattern) (page : Page) : bool :=
  existsb (fun p => found p (page_url page)) ps.

Definition _verify_court_on_page (page : Page) (court_name : string) : bool :=
  let ps := court_patterns court_name in
  if title_check ps page then true
  else if heading_check ps page then true
  else if body_check ps page then true
  else if url_check ps page then true
  else false.

(** *** [_scrape_court_schedule] *)

(** a timezone-aware datetime: the wall-clock reading and its UTC offset
    in minutes; two of them compare by the instants they denote *)
Record aware : Type := {
  local : datetime;
  utcoffset : Z
}.

(** microseconds since 0001-01-01 00:00 UTC *)
Definition instant (a : aware) : Z :=
  (wall_micros (local a) - utcoffset a * 60000000)%Z.

Definition HORIZON : Z := (72 * 3600 * 1000000)%Z.

(** the status of a label, [None] when it is not bookable *)
Definition classify (span_text : string) : option string :=
  if contains "bookable 24hrs in advance" span_text
     || contains "bookable 24 hours in advance" span_text
  then Some "Bookable in 24h"
  else if contains "book now" span_text
          || (contains "book" span_text && (String.length span_text <? 50)%nat)
  then Some "Open"
  else None.

(** [(\d{1,2}):00\s*(AM|PM)] with its two groups *)
Definition slot_time_re : Re.parser (string * string) :=
  Re.bind (Re.alt (Re.two is_digit is_digit) (Re.one is_digit)) (fun h =>
  Re.bind (Re.lit eq_char ":00") (fun _ =>
  Re.bind (Re.star is_space) (fun _ =>
  Re.bind (Re.alt (Re.lit eq_char "AM") (Re.lit eq_char "PM")) (fun ap =>
  Re.ret (h, ap))))).

(** [round(n / 208)] for an integer [n >= 0], halves to the even side *)
Definition round_div_208 (n : Z) : Z :=
  let q := (n / 208)%Z in
  let r := (n mod 208)%Z in
  if (r <? 104)%Z then q
  else if (104 <? r)%Z then (q + 1)%Z
  else if Z.even q then q else (q + 1)%Z.

(** the day offset of a cell from its left position; reading the position
    can fail, and then the offset is 0 *)
Definition day_offset_of (left_pos : option Z) : nat :=
  match left_pos with
  | Some px =>
      if (px <=? 10)%Z then O else Z.to_nat (round_div_208 (px - 2))
  | None => O
  end.

(** the 24-hour value of the parsed clock time *)
Definition to_24h (h : Z) (period : string) : Z :=
  if String.eqb period "PM" && negb (h =? 12)%Z then (h + 12)%Z
  else if String.eqb period "AM" && (h =? 12)%Z then 0%Z
  else h.

Definition is_quote (c : ascii) : bool := (code c =? 34)%nat || (code c =? 39)%nat.

(** the group of the pattern that finds a quoted perfectmind URL in an
    [onclick] attribute *)
Definition onclick_re : Re.parser string :=
  Re.bind (Re.chr is_quote) (fun _ =>
  Re.bind (Re.star (fun c => negb (is_quote c))) (fun a =>
  Re.bind (Re.lit eq_char "perfectmind") (fun b =>
  Re.bind (Re.star (fun c => negb (is_quote c))) (fun c =>
  Re.bind (Re.chr is_quote) (fun _ => Re.ret (a +:+ b +:+ c)))))).

Definition resolve_link (url : string) (gc : GridCell) : string :=
  match gc_anchor_href gc with
  | Some href => href
  | None =>
      match gc_onclick gc with
      | Some onclick =>
          match Re.search onclick_re onclick with
          | Some u => u
          | None => url
          end
      | None => url
      end
  end.

Section Extraction.

(** [pytz]'s America/Vancouver zone: the UTC offset, in minutes, that
    [localize] attaches to a wall-clock reading *)
Variable vancouver_offset : datetime -> Z.

Definition localize (dt : datetime) : aware :=
  {| local := dt; utcoffset := vancouver_offset dt |}.

(** What one [span[title]] label contributes. The entry is returned with
    the [slot_datetime] that was computed for it, [None] when building
    it raised and the entry was included anyway. *)
Definition scrape_span (now_vancouver : aware) (url court_name : string)
    (gc : GridCell) (span : Span) : option (Slot * option aware) :=
  let span_title := default "" (span_title_attr span) in
  let span_text := lower (strip (span_inner_text span)) in
  if String.eqb span_title ""
     || (negb (contains "AM" span_title) && negb (contains "PM" span_title))
  then None
  else
    match classify span_text with
    | None => None
    | Some status =>
        match Re.search slot_time_re span_title with
        | None => None
        | Some (h, period) =>
            let time_slot_str := h +:+ ":00 " +:+ period in
            let today := dt_date (local now_vancouver) in
            match add_days today (day_offset_of (gc_left gc)) with
            | Raise _ => None
            | Ok slot_date =>
                let datetime_str := iso_date slot_date +:+ " " +:+ time_slot_str in
                let entry := {| court := court_name;
                                time := datetime_str;
                                status := status;
                                link := resolve_link url gc;
                                raw_text := span_inner_text span |} in
                match mk_datetime (year slot_date) (month slot_date) (day slot_date)
                                  (to_24h (int_of_digits h) period) 0 with
                | Ok naive =>
                    let slot_datetime := localize naive in
                    if (instant slot_datetime >? instant now_vancouver + HORIZON)%Z
                    then None
                    else if (instant slot_datetime <? instant now_vancouver)%Z
                    then None
                    else Some (entry, Some slot_datetime)
                | Raise _ => Some (entry, None)
                end
            end
        end
    end.

Definition scrape_cells (now_vancouver : aware) (url court_name : string)
    (cells : list GridCell) : list (Slot * option aware) :=
  flat_map (fun gc => omap (scrape_span now_vancouver url court_name gc) (gc_spans gc))
           cells.

Definition scrape_timed (now_vancouver : aware) (page : Page) (court_name : string)
  : list (Slot * option aware) :=
  if negb (_verify_court_on_page page court_name) then []
  else
    match page_scheduler page with
    | None => []
    | Some cells => scrape_cells now_vancouver (page_url page) court_name cells
    end.

Definition _scrape_court_schedule (now_vancouver : aware) (page : Page)
    (court_name : string) : list Slot :=
  map fst (scrape_timed now_vancouver page court_name).

End Extraction.

(** *** The Supabase tables *)

(** a row of [court_slots]; [start_time] is stored as the ISO rendering of
    the datetime kept here *)
Record Row : Type := {
  court_name : string;
  start_time : datetime;
  row_status : string;
  booking_link : string;
  row_raw_text : string;
  updated_at : string
}.

Record Subscription : Type := {
  sub_id : Z;
  chat_id : string;
  day_of_week : string;
  start_hour : Z;
  end_hour : Z
}.

Definition time_formats : list string :=
  [ "%Y-%m-%d %I:%M %p"; "%Y-%m-%d %H:%M" ].

(** the [dt_object] of an item, [None] when the item is skipped: an empty
    time string, or one that neither format parses *)
Definition parse_slot_time (time_str : string) : option datetime :=
  if String.eqb time_str "" then None
  else match Strptime.first_format time_str time_formats with
       | Ok (Some dt_object) => Some dt_object
       | _ => None
       end.

(** the cleaning loop of [clean_and_upload_to_supabase]; [utc_now k] is the
    reading of the UTC clock, already rendered, when the item at position
    [k] is turned into a row *)
Definition clean_step (utc_now : nat -> string) (clean_rows : list Row) (x : nat * Slot)
  : list Row :=
  let '(k, item) := x in
  match parse_slot_time (time item) with
  | None => clean_rows
  | Some dt_object =>
      clean_rows ++ [ {| court_name := court item;
                         start_time := dt_object;
                         row_status := status item;
                         booking_link := link item;
                         row_raw_text := raw_text item;
                         updated_at := utc_now k |} ]
  end.

Definition clean (utc_now : nat -> string) (json_data : list Slot) : list Row :=
  fold_left (clean_step utc_now) (enumerate json_data) [].

Definition EPOCH : datetime := DateTime (Date 1970 1 1) 0 0 0 0.

(** [table.delete().gte('start_time', old_date)]: the rows that stay *)
Definition delete_gte (old_date : datetime) (table : list Row) : list Row :=
  filter (fun r => dt_ltb (start_time r) old_date = true) table.

(** How the remote store answers during one call. *)
Record Remote : Type := {
  client_available : bool;      (* get_supabase_client() is not None *)
  delete_succeeds : bool;       (* the delete request does not raise *)
  insert_succeeds : bool        (* the insert request does not raise *)
}.

(** [clean_and_upload_to_supabase]: the returned flag and the table
    [court_slots] after the call *)
Definition clean_and_upload_to_supabase (remote : Remote) (utc_now : nat -> string)
    (table : list Row) (json_data : list Slot) : bool * list Row :=
  if negb (client_available remote) then (false, table)
  else
    let clean_rows := clean utc_now json_data in
    let table1 := if delete_succeeds remote then delete_gte EPOCH table else table in
    match clean_rows with
    | [] => (false, table1)
    | _ =>
        if insert_succeeds remote then (true, table1 ++ clean_rows)
        else (false, table1)
    end.

(** *** [process_notifications] *)

(** the JSON body and the URL of one [requests.post] *)
Record Request : Type := {
  req_url : string;
  req_chat_id : string;
  req_text : string;
  req_parse_mode : string
}.

Definition newline : string := String (ascii_of_nat 10) EmptyString.

Definition notification (bot_token : string) (slot : Slot) (day : string) (sub : Subscription)
  : Request :=
  {| req_url := "https://api.telegram.org/bot" +:+ bot_token +:+ "/sendMessage";
     req_chat_id := chat_id sub;
     req_text := "🎾 *Match Found!*" +:+ newline +:+ newline +:+ court slot
                 +:+ " is available " +:+ day +:+ " at " +:+ time slot +:+ "."
                 +:+ newline +:+ link slot;
     req_parse_mode := "Markdown" |}.

(** [day_name == sub_day and start_hour <= hour <= end_hour] *)
Definition sub_matches (day : string) (h : Z) (sub : Subscription) : bool :=
  String.eqb day (day_of_week sub) && (start_hour sub <=? h)%Z && (h <=? end_hour sub)%Z.

(** the inner loop: one subscription against the slot at hand; [sent] is
    the list of requests posted so far (a failing post is logged and the
    loop goes on, so the outcome of a post does not matter here) *)
Definition notify_sub (bot_token : string) (slot : Slot) (day : string) (h : Z)
    (sent : list Request) (sub : Subscription) : list Request :=
  if sub_matches day h sub then sent ++ [ notification bot_token slot day sub ] else sent.

(** the outer loop body *)
Definition notify_slot (bot_token : string) (subscriptions : list Subscription)
    (sent : list Request) (slot : Slot) : list Request :=
  match parse_slot_time (time slot) with
  | None => sent
  | Some dt_object =>
      fold_left (notify_sub bot_token slot (day_name (dt_date dt_object)) (hour dt_object))
                subscriptions sent
  end.

(** [process_notifications]: the requests posted, in order. [bot_token] is
    the environment variable; [fetched] is the answer of the subscriptions
    query, [None] when it raises. *)
Definition process_notifications (client : bool) (bot_token : option string)
    (fetched : option (list Subscription)) (new_slots : list Slot) : list Request :=
  if negb client then []
  else
    match bot_token with
    | None => []
    | Some token =>
        if String.eqb token "" then []
        else
          match fetched with
          | None => []
          | Some subscriptions =>
              match subscriptions with
              | [] => []
              | _ => fold_left (notify_slot token subscriptions) new_slots []
              end
          end
    end.

(** *** [save_cache] *)

Record Stores : Type := {
  json_file : list Slot;
  court_slots : list Row
}.

(** [save_cache] when writing the JSON file succeeds: the two stores after
    the call and the notifications posted *)
Definition save_cache (remote : Remote) (utc_now : nat -> string)
    (bot_token : option string) (fetched : option (list Subscription))
    (stores : Stores) (data : list Slot) : Stores * list Request :=
  let uploaded := clean_and_upload_to_supabase remote utc_now (court_slots stores) data in
  ({| json_file := data; court_slots := snd uploaded |},
   process_notifications (client_available remote) bot_token fetched data).

(** *** Court discovery in [scrape_courts] *)

(** [f"{s:>02}"] for a string [s]: right-aligned in width 2, filled with
    zeros *)
Definition rjust2 (s : string) : string :=
  string_of_list_ascii (replicate (2 - String.length s) "0"%char) +:+ s.

(** the label built from the text of a list element,
    [f"Court {str(int(match.group(1))):>02}"]; [None] when the text names
    no court *)
Definition court_label (text : string) : option string :=
  match Re.search court_num_re (strip text) with
  | Some d => Some ("Court " +:+ rjust2 (str_of_Z (int_of_digits d)))
  | None => None
  end.

(** one element of the court list; [None] is an element whose
    [inner_text()] raises *)
Definition add_court (all_courts : list string) (el : option string) : list string :=
  match el with
  | Some text =>
      match court_label text with
      | Some court_label =>
          if bool_decide (court_label ∈ all_courts) then all_courts
          else all_courts ++ [court_label]
      | None => all_courts
      end
  | None => all_courts
  end.

(** the attempts of the discovery loop, each with the elements the page
    shows at that moment *)
Fixpoint discover_attempts (attempts : list (list (option string)))
    (all_courts : list string) : list string :=
  match attempts with
  | [] => all_courts
  | court_elements :: rest =>
      match court_elements with
      | [] => discover_attempts rest all_courts
      | _ =>
          let all_courts' := fold_left add_court court_elements all_courts in
          if (10 <=? length all_courts')%nat then all_courts'
          else discover_attempts rest all_courts'
      end
  end.

(** the court names [scrape_courts] works with when the caller gives none:
    the labels found in at most three attempts, sorted by court number *)
Definition discover_courts (first second third : list (option string))
  : result (list string) :=
  App.sorted_courts (discover_attempts [first; second; third] []).

(** *** [load_cache] *)

(** [strftime("%Y-%m-%d %I:%M %p")] *)
Definition strftime_12h (dt : datetime) : string :=
  let h := (hour dt mod 12)%Z in
  iso_date (dt_date dt) +:+ " " +:+ zero_pad 2 (if (h =? 0)%Z then 12%Z else h)
  +:+ ":" +:+ zero_pad 2 (minute dt) +:+ " "
  +:+ (if (hour dt <? 12)%Z then "AM" else "PM").

(** a row of [court_slots] turned back into a slot record; [start_time] is
    what [datetime.fromisoformat] reads from the stored text *)
Definition row_to_slot (row : Row) : Slot :=
  {| court := court_name row;
     time := strftime_12h (start_time row);
     status := row_status row;
     link := booking_link row;
     raw_text := row_raw_text row |}.

(** [load_cache]: the data and where it came from. [selected] is the
    answer of the query on [court_slots], [None] when the query or the
    conversion of a row raises; [file] is the JSON file, [None] when it does
    not exist and [Some None] when what it holds is not JSON. *)
Definition load_cache (client : bool) (selected : option (list Row))
    (file : option (option (list Slot))) : list Slot * string :=
  let fallback := match file with
                  | Some (Some data) => (data, "json")
                  | _ => ([], "none")
                  end in
  if client then
    match selected with
    | Some (row :: rows) => (map row_to_slot (row :: rows), "supabase")
    | _ => fallback
    end
  else fallback.

End Scraper.
(** ** [upload_json_to_supabase.py] *)

Module Upload.

Import Cal.

(** [datetime.now(datetime.timezone.utc).isoformat()]. The module imports
    the class with [from datetime import datetime], and the class has no
    attribute [timezone]: evaluating the expression raises. *)
Definition utc_now_isoformat : result string := Raise AttributeError.

(** the body of the cleaning loop; the time string is read as in
    [clean_and_upload_to_supabase], with the same two formats *)
Definition clean_step (clean_rows : list Scraper.Row) (item : Slot)
  : result (list Scraper.Row) :=
  match Scraper.parse_slot_time (time item) with
  | None => Ok clean_rows
  | Some dt_object =>
      let* updated := utc_now_isoformat in
      Ok (clean_rows ++ [ {| Scraper.court_name := court item;
                             Scraper.start_time := dt_object;
                             Scraper.row_status := status item;
                             Scraper.booking_link := link item;
                             Scraper.row_raw_text := raw_text item;
                             Scraper.updated_at := updated |} ])
  end.


End Upload.

(** * Statements

    The definitions used to state the properties: the matching rule and the
    cleaned rows in the words of the specification, the bookkeeping of the
    pairing proofs, and the concrete inputs of the examples. *)

(** ** Notification matching, as specified *)





(** ** Persistence *)

(** the row built from the item at position [k], if its time parses *)
Definition row_of (utc_now : nat -> string) (x : nat * Slot) : option Scraper.Row :=
  match Scraper.parse_slot_time (time (snd x)) with
  | Some dt_object =>
      Some {| Scraper.court_name := court (snd x);
              Scraper.start_time := dt_object;
              Scraper.row_status := status (snd x);
              Scraper.booking_link := link (snd x);
              Scraper.row_raw_text := raw_text (snd x);
              Scraper.updated_at := utc_now (fst x) |}
  | None => None
  end.

(** every stored row is dated 1970 or later, so the delete matches it *)
Definition all_since_epoch (table : list Scraper.Row) : Prop :=
  Forall (fun row => Cal.dt_leb Scraper.EPOCH (Scraper.start_time row) = true) table.

(** ** Extraction *)

(** the cell [gc] with other labels *)
Definition with_spans (gc : Scraper.GridCell) (spans : list Scraper.Span) : Scraper.GridCell :=
  {| Scraper.gc_spans := spans;
     Scraper.gc_left := Scraper.gc_left gc;
     Scraper.gc_anchor_href := Scraper.gc_anchor_href gc;
     Scraper.gc_onclick := Scraper.gc_onclick gc |}.

(** ** Pairing *)

(** the positions of the records a list of blocks was built from *)
Definition block_sources {B} (blocks : list (nat * nat * B)) : list nat :=
  flat_map (fun b => [fst (fst b); snd (fst b)]) blocks.

(** what the pairing loop maintains: the positions used by the blocks are
    pairwise different, they are the processed positions, and they are
    positions of the list *)
Definition pairing_inv (labels : list nat) (st : list (nat * nat * App.Block) * gset nat)
  : Prop :=
  NoDup (block_sources (fst st))
  /\ (forall k, In k (block_sources (fst st)) <-> k ∈ snd st)
  /\ (forall k, k ∈ snd st -> In k labels).

(** a record dated before the last year of the calendar: adding an hour to
    it cannot overflow *)
Definition before_last_year (x : Slot * Cal.datetime) : Prop :=
  (Cal.year (Cal.dt_date (snd x)) < Cal.MAXYEAR)%Z.

(** the values held by the groups of a [defaultdict(list)] *)
Definition grouped_values {K V} (m : list (K * list V)) : list V := flat_map snd m.

(** the order the records are sorted by *)
Definition time_le (a b : Slot * Cal.datetime) : Prop := App.by_time a b = true.


(** the records of court [c] in an indexed list *)
Definition on_court (c : string) (x : nat * (Slot * Cal.datetime)) : Prop :=
  court (fst (snd x)) = c.

#[global] Instance on_court_dec c x : Decision (on_court c x).
Proof. unfold on_court. apply _. Defined.









(** ** Concrete inputs *)

(** the reading of [datetime.now()]: Wednesday 2025-12-17, 09:30:12.000345 *)
Definition sample_now : Cal.datetime := Cal.DateTime (Cal.Date 2025 12 17) 9 30 12 345.

Definition slot_at (c t l : string) : Slot :=
  {| court := c; time := t; status := "Open"; link := l; raw_text := "Book Now" |}.


Definition stored_row : Scraper.Row :=
  {| Scraper.court_name := "Court 01";
     Scraper.start_time := Cal.DateTime (Cal.Date 2025 12 16) 15 0 0 0;
     Scraper.row_status := "Open";
     Scraper.booking_link := "#";
     Scraper.row_raw_text := "Book Now";
     Scraper.updated_at := "2025-12-16T08:00:00+00:00" |}.

Definition remote_up : Scraper.Remote :=
  {| Scraper.client_available := true;
     Scraper.delete_succeeds := true;
     Scraper.insert_succeeds := true |}.

Definition remote_insert_down : Scraper.Remote :=
  {| Scraper.client_available := true;
     Scraper.delete_succeeds := true;
     Scraper.insert_succeeds := false |}.

Definition sample_clock (k : nat) : string := "2025-12-17T17:00:00+00:00".

(** Pacific Standard Time *)
Definition pst (dt : Cal.datetime) : Z := (-480)%Z.

(** Wednesday 2025-12-17, 09:00:00.000000 in Vancouver *)
Definition now_0900 : Scraper.aware :=
  {| Scraper.local := Cal.DateTime (Cal.Date 2025 12 17) 9 0 0 0;
     Scraper.utcoffset := (-480)%Z |}.

Definition label (title text : string) : Scraper.Span :=
  {| Scraper.span_title_attr := Some title; Scraper.span_inner_text := text |}.

Definition label_cell (left_px : Z) (title text : string) : Scraper.GridCell :=
  {| Scraper.gc_spans := [ label title text ];
     Scraper.gc_left := Some left_px;
     Scraper.gc_anchor_href := None;
     Scraper.gc_onclick := None |}.

Definition facility_url : string :=
  "https://ubc.perfectmind.com/Clients/BookMe4FacilityList/Facility".

Definition detail_page (shown_court : string) (cells : list Scraper.GridCell) : Scraper.Page :=
  {| Scraper.page_title := Some (shown_court +:+ " - UBC Recreation");
     Scraper.page_headings := Some [Some shown_court];
     Scraper.page_body := Some (shown_court +:+ " Weekly schedule");
     Scraper.page_url := facility_url;
     Scraper.page_scheduler := Some cells |}.

(** the detail page of Court 12, one label today at 3 PM *)
Definition page_court_12 : Scraper.Page :=
  detail_page "Court 12" [ label_cell 2 "03:00 PM-04:00 PM" "Book Now" ].

(** the detail page of Court 02 *)
Definition page_court_02 : Scraper.Page :=
  detail_page "Court 02" [ label_cell 2 "03:00 PM-04:00 PM" "Book Now" ].

(** the detail page of Court 01: a label in the column three days ahead at
    09:00 AM, and one today at 09:00 AM *)
Definition page_horizon : Scraper.Page :=
  detail_page "Court 01"
    [ label_cell 626 "09:00 AM-10:00 AM" "Bookable 24hrs in advance";
      label_cell 2 "09:00 AM-10:00 AM" "Book Now" ].

(** the detail page of Court 01 with a label whose title reads 13:00 PM *)
Definition page_bad_time : Scraper.Page :=
  detail_page "Court 01" [ label_cell 2 "13:00 PM-14:00 PM" "Book Now" ].

Definition three_in_a_row : list Slot :=
  [ slot_at "Court 01" "2025-12-17 3:00 PM" "a";
    slot_at "Court 01" "2025-12-17 4:00 PM" "b";
    slot_at "Court 01" "2025-12-17 5:00 PM" "c" ].

Definition pair_and_neighbour : list Slot :=
  [ slot_at "Court 01" "2025-12-17 3:00 PM" "a";
    slot_at "Court 01" "2025-12-17 4:00 PM" "b";
    slot_at "Court 02" "2025-12-17 4:00 PM" "c" ].

(** the example of the specification: Court 01 at 15:00 and 16:00, Court 02
    at 15:00 *)
Definition pair_and_single : list Slot :=
  [ slot_at "Court 01" "2025-12-17 3:00 PM" "a";
    slot_at "Court 01" "2025-12-17 4:00 PM" "b";
    slot_at "Court 02" "2025-12-17 3:00 PM" "c" ].

Definition pair_and_single_shuffled : list Slot :=
  [ slot_at "Court 02" "2025-12-17 3:00 PM" "c";
    slot_at "Court 01" "2025-12-17 4:00 PM" "b";
    slot_at "Court 01" "2025-12-17 3:00 PM" "a" ].

Definition sample_parsed : list (Slot * Cal.datetime) :=
  [ (slot_at "Court 01" "2025-12-17 3:00 PM" "a", Cal.DateTime (Cal.Date 2025 12 17) 15 0 0 0);
    (slot_at "Court 01" "2025-12-17 4:00 PM" "b", Cal.DateTime (Cal.Date 2025 12 17) 16 0 0 0);
    (slot_at "Court 01" "2025-12-17 5:00 PM" "c", Cal.DateTime (Cal.Date 2025 12 17) 17 0 0 0) ].




Definition two_courts_same_hour_swapped : list Slot :=
  [ slot_at "Court 02" "2025-12-17 3:00 PM" "c";
    slot_at "Court 01" "2025-12-17 3:00 PM" "a" ].



(** ** Reading back what was rendered *)

(** a numeral of four digits with value [y] *)
Definition four_digits_of (y : Z) (s : string) : bool :=
  match s with
  | String a (String b (String c (String d EmptyString))) =>
      PyStr.is_digit a && PyStr.is_digit b && PyStr.is_digit c && PyStr.is_digit d
      && (PyStr.int_of_digits s =? y)%Z
  | _ => false
  end.

(** the clock part of [strftime("%Y-%m-%d %I:%M %p")]: what follows the
    date *)
Definition clock_text (h mi : Z) : string :=
  " " +:+ PyStr.zero_pad 2 (if (h mod 12 =? 0)%Z then 12%Z else (h mod 12)%Z)
  +:+ ":" +:+ PyStr.zero_pad 2 mi +:+ " " +:+ (if (h <? 12)%Z then "AM" else "PM").

(** the formats [%Y-%m-%d %I:%M %p] and [%Y-%m-%d %H:%M] after the date *)
Definition clock_items_12 : list Strptime.item := Strptime.compile " %I:%M %p".
Definition clock_items_24 : list Strptime.item := Strptime.compile " %H:%M".

(** [tail] read alone: the 12-hour format reads the hour [h] and the minute
    [mi] and reaches the end of the text, the 24-hour format stops short of
    the end *)
Definition clock_text_reads (tail : string) (h mi : Z) : bool :=
  match head (Strptime.pattern clock_items_12 tail),
        head (Strptime.pattern clock_items_24 tail) with
  | Some (found, EmptyString), Some (_, String _ _) =>
      (Strptime.found_hour found =? h)%Z && (Strptime.found_int "M" 0 found =? mi)%Z
  | _, _ => false
  end.

(** a datetime as [strptime] builds it: in the calendar, with seconds and
    microseconds zero *)
Definition whole_minute (dt : Cal.datetime) : Prop :=
  Cal.mk_datetime (Cal.year (Cal.dt_date dt)) (Cal.month (Cal.dt_date dt))
                  (Cal.day (Cal.dt_date dt)) (Cal.hour dt) (Cal.minute dt) = Ok dt.

(** a date of the calendar *)
Definition in_calendar (d : Cal.date) : Prop :=
  Cal.mk_date (Cal.year d) (Cal.month d) (Cal.day d) = Ok d.

(** the time labels of the schedule are written on the 12-hour clock: the
    hour that the pattern of the scraper finds in a title is between 1 and
    12 *)
Definition twelve_hour_labels (page : Scraper.Page) : Prop :=
  forall cells gc span h period,
    Scraper.page_scheduler page = Some cells -> In gc cells ->
    In span (Scraper.gc_spans gc) ->
    Re.search Scraper.slot_time_re (default "" (Scraper.span_title_attr span))
      = Some (h, period) ->
    (1 <= PyStr.int_of_digits h <= 12)%Z.

(** ** The cache *)

(** a slot as it comes back from the table [court_slots]: the time is
    rendered anew from the stored start time; a slot whose time is not
    parsed is not stored and does not come back *)
Definition reloaded (slot : Slot) : option Slot :=
  match Scraper.parse_slot_time (time slot) with
  | Some dt_object =>
      Some {| court := court slot;
              time := Scraper.strftime_12h dt_object;
              status := status slot;
              link := link slot;
              raw_text := raw_text slot |}
  | None => None
  end.

(** the slots whose time is read are dated 1970 or later *)
Definition dated_since_1970 (data : list Slot) : Prop :=
  forall slot dt, In slot data -> Scraper.parse_slot_time (time slot) = Some dt ->
                  (1970 <= Cal.year (Cal.dt_date dt))%Z.

(** ** The views *)

(** the heading under which [group_by_day] files an entry *)
Definition day_label (now : Cal.datetime) (entry : Slot) : string :=
  match App._parse_time now (time entry) with
  | Ok (Some dt) => Cal.day_name (Cal.dt_date dt)
  | _ => "Unknown Day"
  end.

(** the list filed under [k] in a [defaultdict(list)], empty when the key is
    absent *)
Fixpoint filed_under {K V} `{EqDecision K} (k : K) (m : list (K * list V)) : list V :=
  match m with
  | [] => []
  | (k', vs) :: m' => if decide (k = k') then vs else filed_under k m'
  end.

(** [b] is the two-hour slot made of the entries [item] and [other]: the
    same court, [other] in the hour after [item] *)
Definition two_hour_slot_of (now : Cal.datetime) (item other : Slot) (b : App.TwoHourSlot)
  : Prop :=
  exists dt other_dt next_hour end_time,
    App._parse_time now (time item) = Ok (Some dt)
    /\ App._parse_time now (time other) = Ok (Some other_dt)
    /\ court item = court other
    /\ Cal.add_hour dt = Ok next_hour
    /\ App.same_date_hour other_dt next_hour = true
    /\ Cal.add_hour other_dt = Ok end_time
    /\ b = {| App.th_court := court item;
              App.th_start_time := time item;
              App.th_end_time := time other;
              App.th_formatted_time := App._format_time_range dt end_time;
              App.th_status := "Open (2 hours)";
              App.th_link := link item |}.

(** no entry of the court of [item] is in the hour after [item] *)
Definition no_next_hour (now : Cal.datetime) (data : list Slot) (item : Slot) : Prop :=
  forall dt next_hour other other_dt,
    App._parse_time now (time item) = Ok (Some dt) ->
    Cal.add_hour dt = Ok next_hour ->
    In other data ->
    App._parse_time now (time other) = Ok (Some other_dt) ->
    court item = court other ->
    App.same_date_hour other_dt next_hour = false.

(** the day and the hour of a datetime, the key of the groups of the
    calendar *)
Definition hour_key (dt : Cal.datetime) : Cal.date * Z := (Cal.dt_date dt, Cal.hour dt).

(** the name of a court has a digit *)
Definition has_digit (s : string) : bool := existsb PyStr.is_digit (list_ascii_of_string s).

(** courts in the order of their numbers *)
Definition court_le (c c' : string) : Prop :=
  exists n n', App.court_number c = Ok n /\ App.court_number c' = Ok n' /\ (n <= n')%Z.

(** the place of an event on the calendar: its kind, the day and the hour
    it starts in *)
Definition event_place (e : App.Event) : bool * (Cal.date * Z) :=
  (App.ev_isTwoHour e, hour_key (App.ev_start e)).

(** ** The courts *)

(** the label of the court with number [n], as court discovery writes it *)
Definition numbered_label (n : Z) : string :=
  "Court " +:+ Scraper.rjust2 (PyStr.str_of_Z n).

(** [c] is the label of an element of the court list shown in one of the
    attempts *)
Definition label_seen (attempts : list (list (option string))) (c : string) : Prop :=
  exists court_elements text,
    In court_elements attempts /\ In (Some text) court_elements
    /\ Scraper.court_label text = Some c.

(** the numerals of [s] are within the limit of [int] and [str]: CPython
    since 3.11 refuses to convert a numeral of more than 4300 digits *)
Definition within_int_limit (s : string) : bool := (String.length s <=? 4300)%nat.

(** the elements of a court list shown while the courts are discovered:
    three texts that name a court and an element whose text cannot be
    read *)
Definition sample_court_elements : list (option string) :=
  [ Some "Court 2"; Some " Court 01 - Indoor "; None; Some "court 002" ].
(** * Properties *)

(** ** The library models on known values *)

Example strptime_twelve_hour_clock :
  Strptime.strptime "2025-12-17 3:00 PM" "%Y-%m-%d %I:%M %p"
  = Ok (Cal.DateTime (Cal.Date 2025 12 17) 15 0 0 0).
Proof. vm_compute. reflexivity. Qed.

Example strptime_midnight_is_12_am :
  Strptime.strptime "12/17/2025 12:05 am" "%m/%d/%Y %I:%M %p"
  = Ok (Cal.DateTime (Cal.Date 2025 12 17) 0 5 0 0).
Proof. vm_compute. reflexivity. Qed.

Example strptime_unconverted_data_remains :
  Strptime.strptime "2025-12-17 3:00 PM" "%Y-%m-%d %H:%M" = Raise ValueError.
Proof. vm_compute. reflexivity. Qed.

Example strptime_day_out_of_range :
  Strptime.strptime "2025-02-29 13:00" "%Y-%m-%d %H:%M" = Raise ValueError.
Proof. vm_compute. reflexivity. Qed.

Example toordinal_2025_12_17 :
  Cal.toordinal (Cal.Date 2025 12 17) = 739602%Z
  /\ Cal.day_name (Cal.Date 2025 12 17) = "Wednesday".
Proof. split; vm_compute; reflexivity. Qed.

Example add_hour_over_new_year :
  Cal.add_hour (Cal.DateTime (Cal.Date 2025 12 31) 23 0 0 0)
    = Ok (Cal.DateTime (Cal.Date 2026 1 1) 0 0 0 0)
  /\ Cal.add_hour (Cal.DateTime (Cal.Date 2024 2 28) 23 30 0 0)
     = Ok (Cal.DateTime (Cal.Date 2024 2 29) 0 30 0 0)
  /\ Cal.add_hour (Cal.DateTime (Cal.Date 9999 12 31) 23 0 0 0) = Raise OverflowError.
Proof. repeat split; vm_compute; reflexivity. Qed.

Example search_is_leftmost_and_greedy :
  Re.search App.clock_re "from 9:30 am to 10:45 PM" = Some ("9", "30", "am")
  /\ Re.search App.clock_re "113:00 PM" = Some ("13", "00", "PM")
  /\ Re.search App.clock_re "3:00 Pm" = None
  /\ Re.search Scraper.court_num_re "UBC court  007" = Some "07".
Proof. repeat split; vm_compute; reflexivity. Qed.

Example findall_counts_court_mentions :
  Re.findall_count Scraper.any_court_re "Court 1 court  22 Courts 3 Court4 COURT 5" = 3.
Proof. vm_compute. reflexivity. Qed.

Example round_half_to_even :
  Scraper.round_div_208 103 = 0%Z /\ Scraper.round_div_208 104 = 0%Z
  /\ Scraper.round_div_208 105 = 1%Z /\ Scraper.round_div_208 312 = 2%Z
  /\ Scraper.day_offset_of (Some 626%Z) = 3 /\ Scraper.day_offset_of (Some 2%Z) = 0
  /\ Scraper.day_offset_of None = 0.
Proof. repeat split; vm_compute; reflexivity. Qed.

(** the example of the specification: one block for Court 01 from 15:00 to
    17:00, and Court 02 alone in the one-hour group of 15:00 *)
Example pair_and_single_events :
  App.group_slots_by_time_block sample_now pair_and_single
  = Ok [ {| App.ev_title := "Court 01";
            App.ev_start := Cal.DateTime (Cal.Date 2025 12 17) 15 0 0 0;
            App.ev_end := Cal.DateTime (Cal.Date 2025 12 17) 17 0 0 0;
            App.ev_resourceId := "Court 01";
            App.ev_courts := ["Court 01"];
            App.ev_isTwoHour := true;
            App.ev_link := "a";
            App.ev_sources := [0; 2] |};
         {| App.ev_title := "Court 02";
            App.ev_start := Cal.DateTime (Cal.Date 2025 12 17) 15 0 0 0;
            App.ev_end := Cal.DateTime (Cal.Date 2025 12 17) 16 0 0 0;
            App.ev_resourceId := "Court 02";
            App.ev_courts := ["Court 02"];
            App.ev_isTwoHour := false;
            App.ev_link := "c";
            App.ev_sources := [1] |} ].
Proof. vm_compute. reflexivity. Qed.

(** ** Parsing of time strings *)

Lemma mk_datetime_raises_value_error y m d h mi e :
  Cal.mk_datetime y m d h mi = Raise e -> e = ValueError.
Proof.
  unfold Cal.mk_datetime, Cal.mk_date.
  destruct (_ && _); simpl; [destruct (Cal.valid_time h mi)|]; congruence.
Qed.

Lemma strptime_raises_value_error text fmt e :
  Strptime.strptime text fmt = Raise e -> e = ValueError.
Proof.
  unfold Strptime.strptime.
  destruct (Re.match_to_end _ text); [apply mk_datetime_raises_value_error | congruence].
Qed.

(** Trying formats in turn never raises: every failure is a [ValueError],
    which the loop catches. *)
Lemma first_format_total text formats :
  exists r, Strptime.first_format text formats = Ok r.
Proof.
  induction formats as [|fmt formats IH]; simpl; [eauto|].
  destruct (Strptime.strptime text fmt) as [dt|e] eqn:E; [eauto|].
  apply strptime_raises_value_error in E as ->. exact IH.
Qed.

Lemma first_format_some_in text formats dt :
  Strptime.first_format text formats = Ok (Some dt) ->
  exists fmt, In fmt formats /\ Strptime.strptime text fmt = Ok dt.
Proof.
  induction formats as [|fmt formats IH]; simpl; [congruence|].
  destruct (Strptime.strptime text fmt) as [dt'|e] eqn:E.
  - intros [= ->]. eauto.
  - destruct e; try congruence. intros H. destruct (IH H) as (f & ? & ?). eauto.
Qed.

Lemma first_format_none_all text formats :
  Strptime.first_format text formats = Ok None ->
  forall fmt, In fmt formats -> Strptime.strptime text fmt = Raise ValueError.
Proof.
  induction formats as [|fmt formats IH]; simpl; [tauto|].
  destruct (Strptime.strptime text fmt) as [dt'|e] eqn:E; [congruence|].
  destruct e; try congruence. intros H f [<-|Hin]; auto.
Qed.





(** ** Notification matching *)







(** ** Comparison of datetimes *)

Lemma lex_compare_antisym a b :
  Cal.lex_compare b a = CompOpp (Cal.lex_compare a b).
Proof.
  revert b. induction a as [|x a IH]; intros [|y b]; simpl; try reflexivity.
  rewrite (Z.compare_antisym x y). destruct (x ?= y)%Z; simpl; auto.
Qed.

Lemma lex_compare_refl a : Cal.lex_compare a a = Eq.
Proof. induction a as [|x a IH]; simpl; [done|]. by rewrite Z.compare_refl. Qed.

Lemma lex_compare_eq a b : Cal.lex_compare a b = Eq -> a = b.
Proof.
  revert b. induction a as [|x a IH]; intros [|y b]; simpl; try congruence.
  destruct (x ?= y)%Z eqn:E; try congruence.
  apply Z.compare_eq in E as ->. intros H. f_equal. auto.
Qed.

Lemma lex_compare_lt_trans a b c :
  Cal.lex_compare a b = Lt -> Cal.lex_compare b c = Lt -> Cal.lex_compare a c = Lt.
Proof.
  revert b c. induction a as [|x a IH]; intros [|y b] [|z c]; simpl; try congruence.
  destruct (x ?= y)%Z eqn:E1, (y ?= z)%Z eqn:E2; try congruence;
    try apply Z.compare_eq in E1 as ->; try apply Z.compare_eq in E2 as ->;
    rewrite ?E1, ?E2; try congruence.
  - rewrite Z.compare_refl. apply IH.
  - intros _ _. rewrite Z.compare_lt_iff in E1, E2.
    assert (H : (x < z)%Z) by lia. apply Z.compare_lt_iff in H. by rewrite H.
Qed.


Lemma dt_leb_ltb a b : Cal.dt_leb a b = true -> Cal.dt_ltb b a = false.
Proof.
  unfold Cal.dt_leb, Cal.dt_ltb, Cal.dt_compare.
  rewrite (lex_compare_antisym (Cal.fields a) (Cal.fields b)).
  destruct (Cal.lex_compare (Cal.fields a) (Cal.fields b)); simpl; congruence.
Qed.

(** ** Persistence *)

Lemma clean_fold utc_now xs acc :
  fold_left (Scraper.clean_step utc_now) xs acc = acc ++ omap (row_of utc_now) xs.
Proof.
  revert acc. induction xs as [|[k item] xs IH]; intros acc; simpl.
  - by rewrite app_nil_r.
  - rewrite IH. unfold row_of at 2. simpl.
    destruct (Scraper.parse_slot_time (time item)); simpl; [by rewrite <- app_assoc | done].
Qed.

(** the cleaned rows are the rows of the items whose time parses, in order *)
Lemma clean_rows_of utc_now json_data :
  Scraper.clean utc_now json_data = omap (row_of utc_now) (enumerate json_data).
Proof. unfold Scraper.clean. by rewrite clean_fold. Qed.

Lemma delete_gte_all old_date table :
  Forall (fun r => Cal.dt_leb old_date (Scraper.start_time r) = true) table ->
  Scraper.delete_gte old_date table = [].
Proof.
  unfold Scraper.delete_gte. induction 1 as [|r table Hr _ IH]; [done|].
  rewrite filter_cons_False; [exact IH|].
  rewrite (dt_leb_ltb _ _ Hr). discriminate.
Qed.

(** C3, amended. [clean_and_upload_to_supabase] deletes first and inserts
    afterwards, in two requests. It returns [True] exactly when the client
    is available, at least one row was cleaned and the insert succeeded.
    When it returns [True] and the delete went through, the table holds
    exactly the rows of the new snapshot (the stored rows all dated 1970 or
    later, which is what the delete matches); when the delete failed, the
    new rows are appended to the old ones. When it returns [False], the
    stored rows are untouched only if the client was unavailable or the
    delete failed; after a delete that went through (no cleaned rows, or a
    failed insert) the table is left empty. *)
Theorem upload_replaces_after_delete (remote : Scraper.Remote) (utc_now : nat -> string)
    (table : list Scraper.Row) (json_data : list Slot) :
  let r := Scraper.clean_and_upload_to_supabase remote utc_now table json_data in
  let recent := all_since_epoch table in
  (fst r = true <->
     Scraper.client_available remote = true /\ Scraper.insert_succeeds remote = true
     /\ omap (row_of utc_now) (enumerate json_data) <> [])
  /\ (fst r = true -> Scraper.delete_succeeds remote = true -> recent ->
      snd r = omap (row_of utc_now) (enumerate json_data))
  /\ (fst r = true -> Scraper.delete_succeeds remote = false ->
      snd r = table ++ omap (row_of utc_now) (enumerate json_data))
  /\ (fst r = false ->
      Scraper.client_available remote = false \/ Scraper.delete_succeeds remote = false ->
      snd r = table)
  /\ (fst r = false -> Scraper.client_available remote = true ->
      Scraper.delete_succeeds remote = true -> recent -> snd r = []).
Proof.
  intros r recent. subst r recent. unfold all_since_epoch.
  unfold Scraper.clean_and_upload_to_supabase. rewrite clean_rows_of.
  destruct remote as [c d i]. simpl.
  destruct c, d, i, (omap (row_of utc_now) (enumerate json_data)) as [|row rows] eqn:E;
    simpl; repeat split; try congruence; try tauto;
    try (intros; rewrite delete_gte_all by assumption; reflexivity);
    try (intros (? & ? & ?); congruence);
    try (intros _ [?|?]; congruence).
Qed.

Lemma upload_replaces_after_delete_witness :
  snd (Scraper.clean_and_upload_to_supabase remote_up sample_clock [stored_row]
         [slot_at "Court 02" "2025-12-17 09:00 AM" "#"])
  = omap (row_of sample_clock) (enumerate [slot_at "Court 02" "2025-12-17 09:00 AM" "#"]).
Proof.
  apply (proj1 (proj2 (upload_replaces_after_delete remote_up sample_clock [stored_row]
                         [slot_at "Court 02" "2025-12-17 09:00 AM" "#"]))).
  - reflexivity.
  - reflexivity.
  - repeat constructor.
Defined.

(** C3 as stated fails: a run with nothing to upload, and a run whose
    insert fails, both return [False] and both have emptied the table. *)
Lemma failed_upload_empties_table :
  Scraper.clean_and_upload_to_supabase remote_up sample_clock [stored_row] [] = (false, [])
  /\ Scraper.clean_and_upload_to_supabase remote_insert_down sample_clock [stored_row]
       [slot_at "Court 02" "2025-12-17 09:00 AM" "#"] = (false, [])
  /\ [stored_row] <> [].
Proof. repeat split; try reflexivity. discriminate. Qed.

(** [save_cache] rewrites the JSON file with the new data whatever becomes
    of the upload, whose returned flag it does not look at. *)
Lemma save_cache_writes_json remote utc_now bot_token fetched stores data :
  Scraper.json_file (fst (Scraper.save_cache remote utc_now bot_token fetched stores data))
    = data
  /\ Scraper.court_slots (fst (Scraper.save_cache remote utc_now bot_token fetched stores data))
     = snd (Scraper.clean_and_upload_to_supabase remote utc_now
              (Scraper.court_slots stores) data).
Proof. split; reflexivity. Qed.

(** ** Extraction *)

Section ExtractionFacts.

Variable tz : Cal.datetime -> Z.

Lemma scrape_span_timed now url court_name gc span e t :
  Scraper.scrape_span tz now url court_name gc span = Some (e, Some t) ->
  (Scraper.instant now <= Scraper.instant t <= Scraper.instant now + Scraper.HORIZON)%Z.
Proof.
  unfold Scraper.scrape_span.
  destruct (_ || _); [congruence|].
  destruct (Scraper.classify _); [|congruence].
  destruct (Re.search Scraper.slot_time_re _) as [[h period]|]; [|congruence].
  destruct (Cal.add_days _ _) as [slot_date|]; [|congruence].
  destruct (Cal.mk_datetime _ _ _ _ _) as [naive|]; [|congruence].
  destruct (Z.gtb_spec (Scraper.instant (Scraper.localize tz naive))
                       (Scraper.instant now + Scraper.HORIZON)); [congruence|].
  destruct (Z.ltb_spec (Scraper.instant (Scraper.localize tz naive)) (Scraper.instant now));
    [congruence|].
  intros [= _ <-]. lia.
Qed.

Lemma scrape_span_court now url court_name gc span e t :
  Scraper.scrape_span tz now url court_name gc span = Some (e, t) -> court e = court_name.
Proof.
  unfold Scraper.scrape_span.
  destruct (_ || _); [congruence|].
  destruct (Scraper.classify _); [|congruence].
  destruct (Re.search Scraper.slot_time_re _) as [[h period]|]; [|congruence].
  destruct (Cal.add_days _ _) as [slot_date|]; [|congruence].
  destruct (Cal.mk_datetime _ _ _ _ _) as [naive|].
  - destruct (_ >? _)%Z; [congruence|]. destruct (_ <? _)%Z; [congruence|].
    by intros [= <- _].
  - by intros [= <- _].
Qed.

Lemma in_scrape_cells now url court_name cells x :
  In x (Scraper.scrape_cells tz now url court_name cells) ->
  exists gc span, In gc cells /\ In span (Scraper.gc_spans gc)
                  /\ Scraper.scrape_span tz now url court_name gc span = Some x.
Proof.
  unfold Scraper.scrape_cells. rewrite in_flat_map. intros (gc & Hgc & Hx).
  apply list_elem_of_In, list_elem_of_omap in Hx as (span & Hs & E).
  apply list_elem_of_In in Hs. by exists gc, span.
Qed.

Lemma in_scrape_timed now page court_name x :
  In x (Scraper.scrape_timed tz now page court_name) ->
  Scraper._verify_court_on_page page court_name = true
  /\ exists cells gc span,
       Scraper.page_scheduler page = Some cells /\ In gc cells
       /\ In span (Scraper.gc_spans gc)
       /\ Scraper.scrape_span tz now (Scraper.page_url page) court_name gc span = Some x.
Proof.
  unfold Scraper.scrape_timed.
  destruct (Scraper._verify_court_on_page page court_name); simpl; [|tauto].
  destruct (Scraper.page_scheduler page) as [cells|]; [|simpl; tauto].
  intros H. apply in_scrape_cells in H as (gc & span & ? & ? & ?).
  split; [done|]. by exists cells, gc, span.
Qed.

(** No entry is produced from a page on which the requested court does not
    verify. *)
Lemma unverified_page_yields_nothing now page court_name :
  Scraper._verify_court_on_page page court_name = false ->
  Scraper._scrape_court_schedule tz now page court_name = [].
Proof.
  intros H. unfold Scraper._scrape_court_schedule, Scraper.scrape_timed. by rewrite H.
Qed.

(** Every entry carries the court name that was asked for. *)
Lemma entries_carry_requested_court now page court_name e :
  In e (Scraper._scrape_court_schedule tz now page court_name) -> court e = court_name.
Proof.
  unfold Scraper._scrape_court_schedule. rewrite in_map_iff.
  intros ([e' t] & <- & H). apply in_scrape_timed in H as (_ & cells & gc & span & _ & _ & _ & H).
  by apply scrape_span_court in H.
Qed.

(** a bookable label with a time from which a datetime is built, inside the
    closed window, is returned with that datetime *)
Lemma scrape_span_inside_window now url court_name gc span h period status slot_date naive :
  PyStr.contains "AM" (default "" (Scraper.span_title_attr span))
    || PyStr.contains "PM" (default "" (Scraper.span_title_attr span)) = true ->
  Scraper.classify (PyStr.lower (PyStr.strip (Scraper.span_inner_text span))) = Some status ->
  Re.search Scraper.slot_time_re (default "" (Scraper.span_title_attr span))
    = Some (h, period) ->
  Cal.add_days (Cal.dt_date (Scraper.local now)) (Scraper.day_offset_of (Scraper.gc_left gc))
    = Ok slot_date ->
  Cal.mk_datetime (Cal.year slot_date) (Cal.month slot_date) (Cal.day slot_date)
    (Scraper.to_24h (PyStr.int_of_digits h) period) 0 = Ok naive ->
  (Scraper.instant now <= Scraper.instant (Scraper.localize tz naive)
   <= Scraper.instant now + Scraper.HORIZON)%Z ->
  exists entry,
    Scraper.scrape_span tz now url court_name gc span
      = Some (entry, Some (Scraper.localize tz naive))
    /\ court entry = court_name
    /\ time entry = Cal.iso_date slot_date +:+ " " +:+ h +:+ ":00 " +:+ period.
Proof.
  intros Hap Hcl Hre Hday Hdt [Hlo Hhi].
  unfold Scraper.scrape_span. rewrite Hre, Hcl, Hday, Hdt.
  destruct (String.eqb_spec (default "" (Scraper.span_title_attr span)) "") as [E|E].
  { rewrite E in Hap. discriminate. }
  apply orb_true_iff in Hap.
  assert (G : negb (PyStr.contains "AM" (default "" (Scraper.span_title_attr span)))
              && negb (PyStr.contains "PM" (default "" (Scraper.span_title_attr span)))
              = false).
  { destruct Hap as [-> | ->]; simpl; [done|]. by rewrite andb_false_r. }
  rewrite G. cbn [orb].
  destruct (Z.gtb_spec (Scraper.instant (Scraper.localize tz naive))
                       (Scraper.instant now + Scraper.HORIZON)); [lia|].
  destruct (Z.ltb_spec (Scraper.instant (Scraper.localize tz naive)) (Scraper.instant now));
    [lia|].
  eexists. split; [reflexivity|]. split; reflexivity.
Qed.

(** C2, amended. Every entry for which a start datetime was built starts no
    earlier than [now] and no later than [now + 72h]; both ends of the
    window are included: a bookable label whose datetime lies anywhere in
    the closed window, [now] and [now + 72h] themselves among them, is
    returned. *)
Theorem emitted_slots_within_window (now : Scraper.aware) (page : Scraper.Page)
    (court_name : string) :
  (forall e t,
     In (e, Some t) (Scraper.scrape_timed tz now page court_name) ->
     (Scraper.instant now <= Scraper.instant t <= Scraper.instant now + Scraper.HORIZON)%Z)
  /\ (forall cells gc span h period status slot_date naive,
        Scraper._verify_court_on_page page court_name = true ->
        Scraper.page_scheduler page = Some cells ->
        In gc cells -> In span (Scraper.gc_spans gc) ->
        PyStr.contains "AM" (default "" (Scraper.span_title_attr span))
          || PyStr.contains "PM" (default "" (Scraper.span_title_attr span)) = true ->
        Scraper.classify (PyStr.lower (PyStr.strip (Scraper.span_inner_text span)))
          = Some status ->
        Re.search Scraper.slot_time_re (default "" (Scraper.span_title_attr span))
          = Some (h, period) ->
        Cal.add_days (Cal.dt_date (Scraper.local now))
          (Scraper.day_offset_of (Scraper.gc_left gc)) = Ok slot_date ->
        Cal.mk_datetime (Cal.year slot_date) (Cal.month slot_date) (Cal.day slot_date)
          (Scraper.to_24h (PyStr.int_of_digits h) period) 0 = Ok naive ->
        (Scraper.instant now <= Scraper.instant (Scraper.localize tz naive)
         <= Scraper.instant now + Scraper.HORIZON)%Z ->
        exists e, In (e, Some (Scraper.localize tz naive))
                     (Scraper.scrape_timed tz now page court_name)
                  /\ time e = Cal.iso_date slot_date +:+ " " +:+ h +:+ ":00 " +:+ period).
Proof.
  split.
  - intros e t H. apply in_scrape_timed in H as (_ & cells & gc & span & _ & _ & _ & H).
    by apply scrape_span_timed in H.
  - intros cells gc span h period status slot_date naive Hv Hs Hgc Hspan Hap Hcl Hre Hd Hdt Hw.
    destruct (scrape_span_inside_window now (Scraper.page_url page) court_name gc span
                h period status slot_date naive Hap Hcl Hre Hd Hdt Hw) as (e & He & _ & Ht).
    exists e. split; [|exact Ht].
    unfold Scraper.scrape_timed. rewrite Hv, Hs. cbn [negb].
    unfold Scraper.scrape_cells. apply in_flat_map. exists gc. split; [done|].
    apply list_elem_of_In, list_elem_of_omap. exists span. split; [|done].
    by apply list_elem_of_In.
Qed.

Lemma scrape_span_with_spans now url court_name gc spans span :
  Scraper.scrape_span tz now url court_name (with_spans gc spans) span
  = Scraper.scrape_span tz now url court_name gc span.
Proof. reflexivity. Qed.

Lemma scrape_cells_app now url court_name cells1 cells2 :
  Scraper.scrape_cells tz now url court_name (cells1 ++ cells2)
  = Scraper.scrape_cells tz now url court_name cells1
    ++ Scraper.scrape_cells tz now url court_name cells2.
Proof. unfold Scraper.scrape_cells. apply flat_map_app. Qed.

Lemma scrape_cells_cons now url court_name gc cells :
  Scraper.scrape_cells tz now url court_name (gc :: cells)
  = omap (Scraper.scrape_span tz now url court_name gc) (Scraper.gc_spans gc)
    ++ Scraper.scrape_cells tz now url court_name cells.
Proof. reflexivity. Qed.

Lemma omap_skip {A B} (f : A -> option B) before x after :
  f x = None -> omap f (before ++ x :: after) = omap f (before ++ after).
Proof. intros H. rewrite !omap_app. cbn [omap list_omap]. by rewrite H. Qed.

(** C9, amended. A label whose title holds no [h:00 AM/PM] time contributes
    no entry, and the labels and cells around it are processed as if it were
    not there. A label whose title holds such a time from which no datetime
    can be built (the constructor raises) is not dropped: its entry is
    included, with the time text as found and without the window check. *)
Theorem unparseable_label_handling (now : Scraper.aware) (url court_name : string)
    (gc : Scraper.GridCell) (span : Scraper.Span) :
  (Re.search Scraper.slot_time_re (default "" (Scraper.span_title_attr span)) = None ->
   Scraper.scrape_span tz now url court_name gc span = None
   /\ forall cells1 cells2 before after,
        Scraper.scrape_cells tz now url court_name
          (cells1 ++ with_spans gc (before ++ span :: after) :: cells2)
        = Scraper.scrape_cells tz now url court_name
          (cells1 ++ with_spans gc (before ++ after) :: cells2))
  /\ (forall h period status slot_date e,
        Re.search Scraper.slot_time_re (default "" (Scraper.span_title_attr span))
          = Some (h, period) ->
        Scraper.classify (PyStr.lower (PyStr.strip (Scraper.span_inner_text span)))
          = Some status ->
        Cal.add_days (Cal.dt_date (Scraper.local now)) (Scraper.day_offset_of (Scraper.gc_left gc))
          = Ok slot_date ->
        Cal.mk_datetime (Cal.year slot_date) (Cal.month slot_date) (Cal.day slot_date)
          (Scraper.to_24h (PyStr.int_of_digits h) period) 0 = Raise e ->
        PyStr.contains "AM" (default "" (Scraper.span_title_attr span))
          || PyStr.contains "PM" (default "" (Scraper.span_title_attr span)) = true ->
        exists entry,
          Scraper.scrape_span tz now url court_name gc span = Some (entry, None)
          /\ time entry = Cal.iso_date slot_date +:+ " " +:+ h +:+ ":00 " +:+ period).
Proof.
  split.
  - intros Hno.
    assert (Hspan : Scraper.scrape_span tz now url court_name gc span = None).
    { unfold Scraper.scrape_span. rewrite Hno.
      destruct (_ || _); [done|]. by destruct (Scraper.classify _). }
    split; [exact Hspan|].
    intros cells1 cells2 before after.
    rewrite !scrape_cells_app, !scrape_cells_cons. do 2 f_equal.
    apply omap_skip. exact Hspan.
  - intros h period status slot_date e Hre Hcl Hday Hdt Hap.
    unfold Scraper.scrape_span. rewrite Hre, Hcl, Hday, Hdt.
    destruct (String.eqb_spec (default "" (Scraper.span_title_attr span)) "") as [E|E].
    { rewrite E in Hap. discriminate. }
    apply orb_true_iff in Hap. simpl.
    destruct (PyStr.contains "AM" _), (PyStr.contains "PM" _); simpl;
      try (destruct Hap; discriminate); eexists; split; reflexivity.
Qed.

End ExtractionFacts.

(** C1 fails on the code. The pattern [Court\s+1] built for "Court 01" has
    no boundary after the number, so it is found in "Court 12": the page of
    Court 12 verifies for "Court 01" (through its title already), and its
    label is returned as a slot of "Court 01". A page of Court 02 is
    rejected. *)
Theorem other_court_page_verifies :
  Scraper.court_patterns "Court 01"
    = [Scraper.CourtDigits "01"; Scraper.CourtDigits "1"; Scraper.CourtDigits "01"]
  /\ Scraper.found (Scraper.CourtDigits "1") "Court 12 - UBC Recreation" = true
  /\ Scraper.title_check (Scraper.court_patterns "Court 01") page_court_12 = true
  /\ Scraper._verify_court_on_page page_court_12 "Court 01" = true
  /\ Scraper._scrape_court_schedule pst now_0900 page_court_12 "Court 01"
     = [ {| court := "Court 01";
            time := "2025-12-17 03:00 PM";
            status := "Open";
            link := facility_url;
            raw_text := "Book Now" |} ]
  /\ Scraper._verify_court_on_page page_court_02 "Court 01" = false.
Proof. repeat split; vm_compute; reflexivity. Qed.

Lemma emitted_slots_within_window_witness :
  (Scraper.instant now_0900
   <= Scraper.instant (Scraper.localize pst (Cal.DateTime (Cal.Date 2025 12 17) 9 0 0 0))
   <= Scraper.instant now_0900 + Scraper.HORIZON)%Z.
Proof.
  apply (proj1 (emitted_slots_within_window pst now_0900 page_horizon "Court 01")
           {| court := "Court 01";
              time := "2025-12-17 09:00 AM";
              status := "Open";
              link := facility_url;
              raw_text := "Book Now" |}).
  vm_compute. right. left. reflexivity.
Defined.

(** C2 as stated fails: with the clock at 09:00:00.000000, the label three
    columns ahead at 09:00 AM starts at exactly [now + 72h] and is
    returned. *)
Lemma slot_at_horizon_is_emitted :
  exists e t,
    In (e, Some t) (Scraper.scrape_timed pst now_0900 page_horizon "Court 01")
    /\ time e = "2025-12-20 09:00 AM"
    /\ Scraper.instant t = (Scraper.instant now_0900 + Scraper.HORIZON)%Z
    /\ ~ (Scraper.instant t < Scraper.instant now_0900 + Scraper.HORIZON)%Z.
Proof.
  eexists _, _. split; [vm_compute; left; reflexivity|].
  split; [reflexivity|]. split; [vm_compute; reflexivity|].
  vm_compute. discriminate.
Qed.

Lemma unparseable_label_handling_witness :
  Scraper.scrape_span pst now_0900 facility_url "Court 01"
    (label_cell 2 "Closed for maintenance AM" "Book Now")
    (label "Closed for maintenance AM" "Book Now") = None.
Proof.
  apply (proj1 (unparseable_label_handling pst now_0900 facility_url "Court 01"
                  (label_cell 2 "Closed for maintenance AM" "Book Now")
                  (label "Closed for maintenance AM" "Book Now"))).
  vm_compute. reflexivity.
Defined.

(** C9 as stated fails: the title "13:00 PM-14:00 PM" gives hour 25, the
    datetime constructor raises, and the record is returned all the same;
    its time text is parsed by neither reader downstream. *)
Lemma unparseable_record_is_emitted :
  Scraper.scrape_timed pst now_0900 page_bad_time "Court 01"
    = [ ({| court := "Court 01";
            time := "2025-12-17 13:00 PM";
            status := "Open";
            link := facility_url;
            raw_text := "Book Now" |}, None) ]
  /\ Cal.mk_datetime 2025 12 17 (Scraper.to_24h 13 "PM") 0 = Raise ValueError
  /\ Scraper.parse_slot_time "2025-12-17 13:00 PM" = None
  /\ App._parse_time (Scraper.local now_0900) "2025-12-17 13:00 PM" = Raise ValueError.
Proof. repeat split; vm_compute; reflexivity. Qed.
(** ** Aggregation *)

(** C7 fails on the code. [find_one_hour_slots] marks an hour as taken for
    every court once one court has a pair ending in it: with Court 01 free
    at 3 PM and 4 PM and Court 02 free at 4 PM only, the Court 02 record is
    in no two-hour block and still is not returned as a single. And the two
    functions do not follow one rule: of three hours in a row on one court,
    the last is returned as a single and is also the second hour of a
    block of [find_two_hour_slots]. *)
Theorem singles_and_blocks_disagree :
  App.find_one_hour_slots sample_now pair_and_neighbour = Ok []
  /\ (let* l := App.find_two_hour_pairs sample_now pair_and_neighbour in
      Ok (map fst l)) = Ok [(0, 1)]
  /\ (let* l := App.find_one_hour_slots sample_now three_in_a_row in
      Ok (map App.oh_item l)) = Ok [slot_at "Court 01" "2025-12-17 5:00 PM" "c"]
  /\ (let* l := App.find_two_hour_pairs sample_now three_in_a_row in
      Ok (map fst l)) = Ok [(0, 1); (1, 2)].
Proof. repeat split; vm_compute; reflexivity. Qed.

(** C5 as stated fails for [find_two_hour_slots]: of three hours in a row
    on one court, the middle record (position 1) is the second hour of the
    first block and the first hour of the second. *)
Lemma middle_record_in_two_blocks :
  exists blocks,
    App.find_two_hour_pairs sample_now three_in_a_row = Ok blocks
    /\ map fst blocks = [(0, 1); (1, 2)]
    /\ map (fun b => (App.th_start_time (snd b), App.th_end_time (snd b))) blocks
       = [ ("2025-12-17 3:00 PM", "2025-12-17 4:00 PM");
           ("2025-12-17 4:00 PM", "2025-12-17 5:00 PM") ]
    /\ ~ NoDup (block_sources blocks).
Proof.
  eexists. split; [vm_compute; reflexivity|]. split; [reflexivity|].
  split; [reflexivity|].
  simpl. intros H. apply NoDup_cons in H as [_ H]. apply NoDup_cons in H as [H _].
  apply H. left.
Qed.

Lemma rfold_invariant {A S} (body : S -> A -> result S) (I : S -> Prop) l :
  (forall s x s', In x l -> I s -> body s x = Ok s' -> I s') ->
  forall s s', I s -> rfold body l s = Ok s' -> I s'.
Proof.
  induction l as [|x l IH]; intros Hstep s s' Hs; simpl.
  - by intros [= <-].
  - destruct (body s x) as [s1|] eqn:E; simpl; [|congruence].
    apply IH; [intros; eapply Hstep; eauto; by right|].
    eapply Hstep; eauto. by left.
Qed.

Lemma block_sources_snoc {B} (blocks : list (nat * nat * B)) i j b :
  block_sources (blocks ++ [(i, j, b)]) = block_sources blocks ++ [i; j].
Proof. unfold block_sources. rewrite flat_map_app. simpl. done. Qed.

(** what one turn of the pairing loop does: nothing for a processed
    position or when no partner is found, and otherwise one new block from
    the record at hand and the first record of the same court, not yet
    processed, in the following hour *)
Lemma pairing_step_inversion xs blocks (P : gset nat) i item dt st' :
  App.pairing_step xs (blocks, P) (i, (item, dt)) = Ok st' ->
  st' = (blocks, P)
  \/ exists next_hour j other_item other_dt end_,
       (i ∉ P) /\ Cal.add_hour dt = Ok next_hour
       /\ find (App.partner_of i item next_hour P) xs = Some (j, (other_item, other_dt))
       /\ In (j, (other_item, other_dt)) xs /\ i <> j /\ (j ∉ P)
       /\ court item = court other_item
       /\ Cal.add_hour other_dt = Ok end_
       /\ st' = (blocks ++ [ (i, j, {| App.b_start := dt;
                                       App.b_end := end_;
                                       App.b_court := court item;
                                       App.b_start_time_str := time item;
                                       App.b_end_time_str := time other_item;
                                       App.b_link := link item |}) ],
                 P ∪ {[ i ]} ∪ {[ j ]}).
Proof.
  unfold App.pairing_step.
  destruct (decide (i ∈ P)) as [Hi|Hi]; [intros [= <-]; by left|].
  destruct (Cal.add_hour dt) as [next_hour|] eqn:Hnext; simpl; [|congruence].
  destruct (find _ _) as [[j [other_item other_dt]]|] eqn:F; [|intros [= <-]; by left].
  pose proof F as F'. apply find_some in F' as [Hj G].
  unfold App.partner_of in G. cbn [fst snd] in G.
  apply andb_true_iff in G as [G _]. apply andb_true_iff in G as [G Hcourt].
  apply andb_true_iff in G as [Hij HjP].
  apply negb_true_iff, Nat.eqb_neq in Hij.
  apply negb_true_iff, bool_decide_eq_false in HjP.
  apply String.eqb_eq in Hcourt.
  destruct (Cal.add_hour other_dt) as [end_|] eqn:Hend; simpl; [|congruence].
  intros [= <-]. right. exists next_hour, j, other_item, other_dt, end_.
  by repeat split.
Qed.

Lemma pairing_step_inv xs st x st' :
  In x xs ->
  pairing_inv (map fst xs) st ->
  App.pairing_step xs st x = Ok st' ->
  pairing_inv (map fst xs) st'.
Proof.
  destruct st as [blocks processed], x as [i [item dt]].
  intros Hx (Hnd & Hsrc & Hlab) Hstep.
  apply pairing_step_inversion in Hstep
    as [->|(nh & j & oitem & odt & end_ & Hi & _ & _ & Hj & Hij & HjP & _ & _ & ->)];
    [exact (conj Hnd (conj Hsrc Hlab))|].
  unfold pairing_inv. cbn [fst snd] in *. rewrite block_sources_snoc.
  split; [|split].
  - apply NoDup_app. split; [done|]. split.
    + intros k Hk [->|[->|[]%elem_of_nil]%elem_of_cons]%elem_of_cons;
        apply list_elem_of_In, Hsrc in Hk; contradiction.
    + apply NoDup_cons. split; [|apply NoDup_singleton].
      intros ->%list_elem_of_singleton. done.
  - intros k. rewrite in_app_iff, Hsrc. simpl.
    rewrite !elem_of_union, !elem_of_singleton. intuition congruence.
  - intros k Hk. apply elem_of_union in Hk as [Hk|Hk].
    + apply elem_of_union in Hk as [Hk|Hk]; [by apply Hlab|].
      apply elem_of_singleton in Hk as ->. by apply (in_map fst) in Hx.
    + apply elem_of_singleton in Hk as ->. by apply (in_map fst) in Hj.
Qed.

Lemma pairing_on_invariant xs st :
  App.pairing_on xs = Ok st -> pairing_inv (map fst xs) st.
Proof.
  unfold App.pairing_on. apply rfold_invariant.
  - intros s x s'. apply pairing_step_inv.
  - unfold pairing_inv. simpl. split; [constructor|]. split.
    + intros k. rewrite elem_of_empty. tauto.
    + intros k Hk. by apply elem_of_empty in Hk.
Qed.

Lemma enumerate_from_fst {A} (l : list A) n :
  map fst (enumerate_from n l) = seq n (length l).
Proof. revert n. induction l as [|x l IH]; intros n; simpl; [done|]. by rewrite IH. Qed.

Lemma enumerate_from_snd {A} (l : list A) n : map snd (enumerate_from n l) = l.
Proof. revert n. induction l as [|x l IH]; intros n; simpl; [done|]. by rewrite IH. Qed.

Lemma pairing_invariant parsed st :
  App.pairing parsed = Ok st ->
  NoDup (block_sources (fst st))
  /\ (forall k, In k (block_sources (fst st)) <-> k ∈ snd st)
  /\ (forall k, k ∈ snd st -> k < length parsed).
Proof.
  intros H. apply pairing_on_invariant in H as (Hnd & Hsrc & Hlab).
  split; [done|]. split; [done|].
  intros k Hk. apply Hlab in Hk. unfold enumerate in Hk.
  rewrite enumerate_from_fst in Hk. apply in_seq in Hk. lia.
Qed.

Lemma rfold_total {A S} (body : S -> A -> result S) l :
  (forall s x, In x l -> exists s', body s x = Ok s') ->
  forall s, exists s', rfold body l s = Ok s'.
Proof.
  induction l as [|x l IH]; intros Hstep s; simpl; [eauto|].
  destruct (Hstep s x (or_introl eq_refl)) as [s1 ->]. simpl.
  apply IH. intros s2 y Hy. apply Hstep. by right.
Qed.

Lemma add_hour_before_last_year dt :
  (Cal.year (Cal.dt_date dt) < Cal.MAXYEAR)%Z -> exists dt', Cal.add_hour dt = Ok dt'.
Proof.
  intros Hy. unfold Cal.add_hour, Cal.next_day.
  destruct (Cal.hour dt <? 23)%Z; [eauto|].
  destruct (_ <? _)%Z; simpl; [eauto|].
  destruct (_ <? 12)%Z; simpl; [eauto|].
  destruct (Z.ltb_spec (Cal.year (Cal.dt_date dt)) Cal.MAXYEAR); simpl; [eauto|lia].
Qed.

Lemma pairing_on_total xs :
  Forall before_last_year (map snd xs) -> exists st, App.pairing_on xs = Ok st.
Proof.
  intros Hall. rewrite Forall_forall in Hall. unfold App.pairing_on. apply rfold_total.
  intros [blocks processed] [i [item dt]] Hx. unfold App.pairing_step.
  destruct (decide (i ∈ processed)); [eauto|].
  destruct (add_hour_before_last_year dt) as [next_hour ->].
  { apply (Hall (item, dt)). apply list_elem_of_In. by apply (in_map snd) in Hx. }
  simpl. destruct (find _ _) as [[j [other_item other_dt]]|] eqn:F; [|eauto].
  apply find_some in F as [Hj _].
  destruct (add_hour_before_last_year other_dt) as [end_ ->]; [|simpl; eauto].
  apply (Hall (other_item, other_dt)). apply list_elem_of_In. by apply (in_map snd) in Hj.
Qed.

Lemma pairing_total parsed :
  Forall before_last_year parsed -> exists st, App.pairing parsed = Ok st.
Proof.
  intros H. apply pairing_on_total. unfold enumerate. by rewrite enumerate_from_snd.
Qed.

Lemma in_block_sources {B} (blocks : list (nat * nat * B)) i j b :
  In (i, j, b) blocks -> In i (block_sources blocks) /\ In j (block_sources blocks).
Proof.
  intros H. unfold block_sources. rewrite !in_flat_map.
  split; exists (i, j, b); simpl; auto.
Qed.

(** C5, amended. In the pairing phase of [group_slots_by_time_block] no
    record belongs to more than one two-hour block: the positions of the
    records used by the blocks are pairwise different (so the two records
    of a block differ as well), and the phase does return its blocks for
    every list of records dated before the last year of the calendar.
    [find_two_hour_slots] keeps no account of used records and gives no
    such guarantee. *)
Theorem pairing_uses_each_record_once (parsed : list (Slot * Cal.datetime)) :
  (forall st, App.pairing parsed = Ok st ->
     NoDup (block_sources (fst st))
     /\ forall i j b, In (i, j, b) (fst st) ->
          i <> j /\ i < length parsed /\ j < length parsed)
  /\ (Forall before_last_year parsed -> exists st, App.pairing parsed = Ok st).
Proof.
  split; [|apply pairing_total].
  intros st Hst. apply pairing_invariant in Hst as (Hnd & Hsrc & Hlt).
  split; [exact Hnd|].
  intros i j b Hin. destruct (in_block_sources _ _ _ _ Hin) as [Hi Hj].
  split; [|split; apply Hlt, Hsrc; assumption].
  intros ->. clear Hi Hj Hsrc Hlt. revert Hnd Hin.
  generalize (fst st). intros blocks. induction blocks as [|[[i' j'] b'] blocks IH]; simpl.
  - tauto.
  - intros Hnd [[= -> -> ->]|Hin].
    + apply NoDup_cons in Hnd as [Hnd _]. apply Hnd. left.
    + apply IH; [|done]. by apply NoDup_cons in Hnd as [_ [_ Hnd]%NoDup_cons].
Qed.

Lemma pairing_uses_each_record_once_witness :
  exists st, App.pairing sample_parsed = Ok st.
Proof.
  apply (proj2 (pairing_uses_each_record_once sample_parsed)).
  repeat constructor.
Defined.

Lemma in_group_add {K V} `{EqDecision K} (k : K) (v0 : V) m v :
  In v (grouped_values (group_add k v0 m)) <-> v = v0 \/ In v (grouped_values m).
Proof.
  unfold grouped_values. induction m as [|[k' vs] m IH]; simpl.
  - intuition.
  - destruct (decide (k = k')); simpl; rewrite !in_app_iff; simpl.
    + intuition.
    + rewrite IH. intuition.
Qed.

Lemma in_group_blocks_fold (blocks : list (nat * nat * App.Block)) m v :
  In v (grouped_values
          (fold_left (fun m slot =>
                        group_add (Cal.dt_date (App.b_start (snd slot)),
                                   Cal.hour (App.b_start (snd slot))) slot m) blocks m)) ->
  In v blocks \/ In v (grouped_values m).
Proof.
  revert m. induction blocks as [|b blocks IH]; intros m; simpl; [auto|].
  intros H. apply IH in H as [H|H]; [auto|].
  apply in_group_add in H as [->|H]; auto.
Qed.

Lemma in_group_blocks blocks g v :
  In g (App.group_blocks blocks) -> In v (snd g) -> In v blocks.
Proof.
  intros Hg Hv.
  destruct (in_group_blocks_fold blocks [] v) as [H|[]]; [|done].
  unfold grouped_values. apply in_flat_map. eauto.
Qed.

Lemma in_group_singles_fold (processed : gset nat)
    (xs : list (nat * (Slot * Cal.datetime))) (m : list (Cal.date * Z * list (nat * Slot)))
    (v : nat * Slot) :
  In v (grouped_values
          (fold_left (fun m x =>
                        let '(i, (item, dt)) := x in
                        if decide (i ∈ processed) then m
                        else group_add (Cal.dt_date dt, Cal.hour dt) (i, item) m) xs m)) ->
  ((fst v ∉ processed) /\ exists dt, In (fst v, (snd v, dt)) xs) \/ In v (grouped_values m).
Proof.
  revert m. induction xs as [|[i [item dt]] xs IH]; intros m; simpl; [auto|].
  intros H. apply IH in H as [(? & dt' & ?)|H]; [left; eauto|].
  destruct (decide (i ∈ processed)); [auto|].
  apply in_group_add in H as [->|H]; [|auto].
  left. simpl. eauto.
Qed.

Lemma in_group_singles parsed (processed : gset nat) g v :
  In g (App.group_singles parsed processed) -> In v (snd g) ->
  (fst v ∉ processed) /\ exists dt, In (fst v, (snd v, dt)) (enumerate parsed).
Proof.
  intros Hg Hv.
  destruct (in_group_singles_fold processed (enumerate parsed) [] v) as [H|[]]; [|done].
  unfold grouped_values. apply in_flat_map. eauto.
Qed.

Lemma in_rmap {A B} (f : A -> result B) l ys y :
  rmap f l = Ok ys -> In y ys -> exists x, In x l /\ f x = Ok y.
Proof.
  revert ys. induction l as [|x l IH]; intros ys; simpl.
  - intros [= <-] [].
  - destruct (f x) as [y0|] eqn:E; simpl; [|congruence].
    destruct (rmap f l) as [ys0|]; simpl; [|congruence].
    intros [= <-] [<-|H]; [eauto|].
    destruct (IH ys0 eq_refl H) as (x' & ? & ?). eauto.
Qed.

Lemma two_hour_event_sources g e :
  App.two_hour_event g = Ok e ->
  App.ev_isTwoHour e = true /\ App.ev_sources e = block_sources (snd g).
Proof.
  unfold App.two_hour_event.
  destruct (App.sorted_courts _); simpl; [|congruence].
  destruct (rmap App.last_word _); simpl; [|congruence].
  destruct (snd g) as [|first_slot rest]; [congruence|].
  intros [= <-]. simpl. done.
Qed.

Lemma one_hour_event_sources now g e :
  App.one_hour_event now g = Ok (Some e) ->
  App.ev_isTwoHour e = false /\ App.ev_sources e = map fst (snd g).
Proof.
  unfold App.one_hour_event.
  destruct (App.sorted_courts _); simpl; [|congruence].
  destruct (rmap App.last_word _); simpl; [|congruence].
  destruct (snd g) as [|first_item rest]; [congruence|].
  destruct (App._parse_time _ _) as [[start_dt|]|]; simpl; try congruence.
  destruct (Cal.add_hour start_dt); simpl; [|congruence].
  intros [= <-]. simpl. done.
Qed.

(** where the events come from: a two-hour event only uses processed
    positions, a one-hour event only positions that are not processed *)
Lemma events_of_sources now parsed st events e :
  (forall k, In k (block_sources (fst st)) <-> k ∈ snd st) ->
  App.events_of now parsed st = Ok events -> In e events ->
  (App.ev_isTwoHour e = true /\ forall k, In k (App.ev_sources e) -> k ∈ snd st)
  \/ (App.ev_isTwoHour e = false /\ forall k, In k (App.ev_sources e) -> k ∉ snd st).
Proof.
  intros Hsrc. unfold App.events_of.
  destruct (rmap App.two_hour_event _) as [two|] eqn:E2; simpl; [|congruence].
  destruct (rmap (App.one_hour_event now) _) as [one|] eqn:E1; simpl; [|congruence].
  intros [= <-]. rewrite in_app_iff. intros [He|He].
  - left. destruct (in_rmap _ _ _ _ E2 He) as (g & Hg & Hev).
    apply two_hour_event_sources in Hev as [? ->]. split; [done|].
    intros k Hk. apply Hsrc. unfold block_sources in *.
    apply in_flat_map in Hk as (b & Hb & Hk). apply in_flat_map. exists b.
    split; [|done]. eapply in_group_blocks; eauto.
  - right. apply list_elem_of_In, list_elem_of_omap in He as (o & Ho & Hoe).
    unfold id in Hoe. subst o. apply list_elem_of_In in Ho.
    destruct (in_rmap _ _ _ _ E1 Ho) as (g & Hg & Hev).
    apply one_hour_event_sources in Hev as [? ->]. split; [done|].
    intros k Hk. apply in_map_iff in Hk as (v & <- & Hv).
    by destruct (in_group_singles _ _ _ _ Hg Hv) as [? _].
Qed.

Lemma in_enumerate_from {A} (l : list A) n i x :
  In (i, x) (enumerate_from n l) -> n <= i < n + length l /\ l !! (i - n) = Some x.
Proof.
  revert n. induction l as [|y l IH]; intros n; simpl; [tauto|].
  intros [[= <- <-]|H].
  - split; [lia|]. by rewrite Nat.sub_diag.
  - apply IH in H as [? H]. split; [lia|].
    replace (i - n) with (S (i - S n)) by lia. done.
Qed.

Lemma in_enumerate {A} (l : list A) i x :
  In (i, x) (enumerate l) -> l !! i = Some x.
Proof.
  intros H. apply in_enumerate_from in H as [? H]. by rewrite Nat.sub_0_r in H.
Qed.

(** every block was built from the two records at its positions: they are
    records of one court, the block's court, and the block starts with the
    first of them *)
Lemma pairing_blocks_records parsed st :
  App.pairing parsed = Ok st ->
  forall i j b, In (i, j, b) (fst st) ->
  exists item dt other_item other_dt,
    parsed !! i = Some (item, dt) /\ parsed !! j = Some (other_item, other_dt)
    /\ court other_item = court item /\ App.b_court b = court item
    /\ App.b_start b = dt /\ App.b_link b = link item.
Proof.
  unfold App.pairing, App.pairing_on. intros H. pattern st.
  eapply rfold_invariant; [| |exact H]; [|intros ? ? ? []].
  intros [blocks P] [i0 [item dt]] st' Hx IH Hstep.
  apply pairing_step_inversion in Hstep
    as [->|(nh & j0 & oitem & odt & end_ & _ & _ & _ & Hj & _ & _ & Hcourt & _ & ->)];
    [exact IH|].
  intros i j b. cbn [fst]. rewrite in_app_iff. intros [H'|[[= <- <- <-]|[]]].
  - by apply IH.
  - exists item, dt, oitem, odt. apply in_enumerate in Hx, Hj. by repeat split.
Qed.

Lemma rmap_keyed_snd {A K} (key : A -> result K) l keyed :
  rmap (fun c => let* k := key c in Ok (k, c)) l = Ok keyed -> map snd keyed = l.
Proof.
  revert keyed. induction l as [|x l IH]; intros keyed; simpl.
  - by intros [= <-].
  - destruct (key x); simpl; [|congruence].
    destruct (rmap _ l) as [ks|]; simpl; [|congruence].
    intros [= <-]. simpl. f_equal. by apply IH.
Qed.

Lemma insert_sorted_perm {A} (leb : A -> A -> bool) x l :
  Permutation (insert_sorted leb x l) (x :: l).
Proof.
  induction l as [|y l IH]; simpl; [done|].
  destruct (leb x y); [done|]. rewrite IH. apply perm_swap.
Qed.

Lemma stable_sort_perm {A} (leb : A -> A -> bool) l :
  Permutation (stable_sort leb l) l.
Proof.
  induction l as [|x l IH]; simpl; [done|].
  rewrite insert_sorted_perm. by constructor.
Qed.

(** sorting the courts by number keeps the same courts *)
Lemma sorted_courts_perm courts sorted :
  App.sorted_courts courts = Ok sorted -> Permutation sorted courts.
Proof.
  unfold App.sorted_courts.
  destruct (rmap _ courts) as [keyed|] eqn:E; simpl; [|congruence].
  intros [= <-]. apply rmap_keyed_snd in E. rewrite <- E.
  apply Permutation_map, stable_sort_perm.
Qed.

Lemma two_hour_event_courts g e :
  App.two_hour_event g = Ok e ->
  App.sorted_courts (map (fun s => App.b_court (snd s)) (snd g)) = Ok (App.ev_courts e).
Proof.
  unfold App.two_hour_event.
  destruct (App.sorted_courts _); simpl; [|congruence].
  destruct (rmap App.last_word _); simpl; [|congruence].
  destruct (snd g) as [|first_slot rest]; [congruence|].
  by intros [= <-].
Qed.

Lemma one_hour_event_courts now g e :
  App.one_hour_event now g = Ok (Some e) ->
  App.sorted_courts (map (fun s => court (snd s)) (snd g)) = Ok (App.ev_courts e).
Proof.
  unfold App.one_hour_event.
  destruct (App.sorted_courts _); simpl; [|congruence].
  destruct (rmap App.last_word _); simpl; [|congruence].
  destruct (snd g) as [|first_item rest]; [congruence|].
  destruct (App._parse_time _ _) as [[start_dt|]|]; simpl; try congruence.
  destruct (Cal.add_hour start_dt); simpl; [|congruence].
  by intros [= <-].
Qed.

(** The positions kept with an event are those of the records merged into
    it: the courts the event names are the courts of the records at its
    positions. *)
Lemma event_courts_are_source_courts now parsed st events e c :
  App.pairing parsed = Ok st ->
  App.events_of now parsed st = Ok events -> In e events ->
  In c (App.ev_courts e) <->
  exists k item dt, In k (App.ev_sources e) /\ parsed !! k = Some (item, dt) /\ court item = c.
Proof.
  intros Hst. unfold App.events_of.
  destruct (rmap App.two_hour_event _) as [two|] eqn:E2; simpl; [|congruence].
  destruct (rmap (App.one_hour_event now) _) as [one|] eqn:E1; simpl; [|congruence].
  intros [= <-]. rewrite in_app_iff. intros [He|He].
  - destruct (in_rmap _ _ _ _ E2 He) as (g & Hg & Hev).
    pose proof (two_hour_event_courts _ _ Hev) as Hc. apply sorted_courts_perm in Hc.
    apply two_hour_event_sources in Hev as [_ ->].
    assert (Hin : forall s, In s (snd g) -> In s (fst st)).
    { intros s Hs. eapply in_group_blocks; eauto. }
    split.
    + intros Hin_c. apply (Permutation_in _ Hc), in_map_iff in Hin_c as ([[i j] b] & <- & Hs).
      destruct (pairing_blocks_records _ _ Hst _ _ _ (Hin _ Hs))
        as (item & dt & _ & _ & Hi & _ & _ & Hb & _).
      exists i, item, dt. split; [|by rewrite <- Hb].
      apply in_flat_map. exists (i, j, b). split; [done|]. by left.
    + intros (k & item & dt & Hk & Hpk & <-).
      apply in_flat_map in Hk as ([[i j] b] & Hs & Hk).
      destruct (pairing_blocks_records _ _ Hst _ _ _ (Hin _ Hs))
        as (item' & dt' & oitem & odt & Hi & Hj & Hco & Hb & _).
      apply (Permutation_in _ (Permutation_sym Hc)), in_map_iff.
      exists (i, j, b). split; [|done]. cbn [snd fst] in *.
      destruct Hk as [<-|[<-|[]]]; congruence.
  - apply list_elem_of_In, list_elem_of_omap in He as (o & Ho & Hoe).
    unfold id in Hoe. subst o. apply list_elem_of_In in Ho.
    destruct (in_rmap _ _ _ _ E1 Ho) as (g & Hg & Hev).
    pose proof (one_hour_event_courts _ _ _ Hev) as Hc. apply sorted_courts_perm in Hc.
    apply one_hour_event_sources in Hev as [_ ->].
    assert (Hin : forall v, In v (snd g) -> exists dt, parsed !! fst v = Some (snd v, dt)).
    { intros v Hv. destruct (in_group_singles _ _ _ _ Hg Hv) as [_ [dt Hdt]].
      exists dt. by apply in_enumerate in Hdt. }
    split.
    + intros Hin_c. apply (Permutation_in _ Hc), in_map_iff in Hin_c as ([k item] & <- & Hv).
      destruct (Hin _ Hv) as [dt Hdt]. exists k, item, dt.
      split; [|done]. apply in_map_iff. by exists (k, item).
    + intros (k & item & dt & Hk & Hpk & <-).
      apply in_map_iff in Hk as ([k' item'] & <- & Hv).
      destruct (Hin _ Hv) as [dt' Hdt']. cbn [fst snd] in *.
      apply (Permutation_in _ (Permutation_sym Hc)), in_map_iff.
      exists (k', item'). split; [|done]. cbn [snd]. congruence.
Qed.

(** C6. In the events returned by [group_slots_by_time_block] no record is
    merged into both a two-hour event and a one-hour event: a position used
    by a two-hour event is used by no one-hour event. *)
Theorem two_hour_records_not_in_one_hour_groups (now : Cal.datetime) (data : list Slot)
    (events : list App.Event) (e2 e1 : App.Event) (k : nat) :
  App.group_slots_by_time_block now data = Ok events ->
  In e2 events -> App.ev_isTwoHour e2 = true ->
  In e1 events -> App.ev_isTwoHour e1 = false ->
  In k (App.ev_sources e2) -> ~ In k (App.ev_sources e1).
Proof.
  unfold App.group_slots_by_time_block.
  destruct (App.parse_and_sort now data) as [parsed|]; simpl; [|congruence].
  destruct (App.pairing parsed) as [st|] eqn:P; simpl; [|congruence].
  apply pairing_invariant in P as (_ & P & _). intros Hev H2 T2 H1 T1 Hk2 Hk1.
  destruct (events_of_sources _ _ _ _ _ P Hev H2) as [[_ S2]|[F2 _]]; [|congruence].
  destruct (events_of_sources _ _ _ _ _ P Hev H1) as [[F1 _]|[_ S1]]; [congruence|].
  exact (S1 k Hk1 (S2 k Hk2)).
Qed.

Lemma two_hour_records_not_in_one_hour_groups_witness :
  ~ In 0 [1].
Proof.
  apply (two_hour_records_not_in_one_hour_groups sample_now pair_and_single
           [ {| App.ev_title := "Court 01";
                App.ev_start := Cal.DateTime (Cal.Date 2025 12 17) 15 0 0 0;
                App.ev_end := Cal.DateTime (Cal.Date 2025 12 17) 17 0 0 0;
                App.ev_resourceId := "Court 01";
                App.ev_courts := ["Court 01"];
                App.ev_isTwoHour := true;
                App.ev_link := "a";
                App.ev_sources := [0; 2] |};
             {| App.ev_title := "Court 02";
                App.ev_start := Cal.DateTime (Cal.Date 2025 12 17) 15 0 0 0;
                App.ev_end := Cal.DateTime (Cal.Date 2025 12 17) 16 0 0 0;
                App.ev_resourceId := "Court 02";
                App.ev_courts := ["Court 02"];
                App.ev_isTwoHour := false;
                App.ev_link := "c";
                App.ev_sources := [1] |} ]
           {| App.ev_title := "Court 01";
              App.ev_start := Cal.DateTime (Cal.Date 2025 12 17) 15 0 0 0;
              App.ev_end := Cal.DateTime (Cal.Date 2025 12 17) 17 0 0 0;
              App.ev_resourceId := "Court 01";
              App.ev_courts := ["Court 01"];
              App.ev_isTwoHour := true;
              App.ev_link := "a";
              App.ev_sources := [0; 2] |}
           {| App.ev_title := "Court 02";
              App.ev_start := Cal.DateTime (Cal.Date 2025 12 17) 15 0 0 0;
              App.ev_end := Cal.DateTime (Cal.Date 2025 12 17) 16 0 0 0;
              App.ev_resourceId := "Court 02";
              App.ev_courts := ["Court 02"];
              App.ev_isTwoHour := false;
              App.ev_link := "c";
              App.ev_sources := [1] |}
           0).
  - vm_compute. reflexivity.
  - left. reflexivity.
  - reflexivity.
  - right. left. reflexivity.
  - reflexivity.
  - left. reflexivity.
Defined.

(** ** Sorting and the order of the input *)

Lemma dt_leb_total a b : Cal.dt_leb a b = true \/ Cal.dt_leb b a = true.
Proof.
  unfold Cal.dt_leb, Cal.dt_compare.
  rewrite (lex_compare_antisym (Cal.fields a) (Cal.fields b)).
  destruct (Cal.lex_compare (Cal.fields a) (Cal.fields b)); simpl; auto.
Qed.

Lemma dt_leb_trans a b c :
  Cal.dt_leb a b = true -> Cal.dt_leb b c = true -> Cal.dt_leb a c = true.
Proof.
  unfold Cal.dt_leb, Cal.dt_compare.
  destruct (Cal.lex_compare (Cal.fields a) (Cal.fields b)) eqn:E1; try congruence;
    destruct (Cal.lex_compare (Cal.fields b) (Cal.fields c)) eqn:E2; try congruence;
    intros _ _.
  - apply lex_compare_eq in E1. rewrite E1, E2. done.
  - apply lex_compare_eq in E1. rewrite E1, E2. done.
  - apply lex_compare_eq in E2. rewrite <- E2, E1. done.
  - by rewrite (lex_compare_lt_trans _ _ _ E1 E2).
Qed.


#[local] Instance time_le_trans : Transitive time_le.
Proof. intros a b c. unfold time_le, App.by_time. apply dt_leb_trans. Qed.

Lemma insert_sorted_strongly x l :
  StronglySorted time_le l -> StronglySorted time_le (insert_sorted App.by_time x l).
Proof.
  induction 1 as [|y l Hl IH Hy]; simpl.
  - repeat constructor.
  - destruct (App.by_time x y) eqn:E.
    + constructor; [by constructor|]. constructor; [done|].
      eapply Forall_impl; [exact Hy|]. intros z Hz. by transitivity y.
    + constructor; [done|].
      rewrite (insert_sorted_perm App.by_time x l). constructor; [|done].
      destruct (dt_leb_total (snd x) (snd y)) as [H|H]; [|done].
      unfold App.by_time in E. congruence.
Qed.

Lemma stable_sort_strongly l : StronglySorted time_le (stable_sort App.by_time l).
Proof.
  induction l as [|x l IH]; simpl; [constructor|]. by apply insert_sorted_strongly.
Qed.



Lemma parse_time_raises_value_error now value e :
  App._parse_time now value = Raise e -> e = ValueError.
Proof.
  unfold App._parse_time. destruct (String.eqb value ""); [congruence|].
  destruct (first_format_total (PyStr.strip value) App.patterns) as [r ->]. simpl.
  destruct r; [congruence|].
  destruct (Re.search App.clock_re value) as [[[h m] ap]|]; [|congruence].
  unfold Cal.replace_time. destruct (Cal.valid_time _ _); simpl; congruence.
Qed.

Lemma rmap_ok_iff {A B} (f : A -> result B) l :
  (exists ys, rmap f l = Ok ys) <-> Forall (fun x => exists y, f x = Ok y) l.
Proof.
  induction l as [|x l IH]; simpl.
  - split; [constructor | eauto].
  - rewrite Forall_cons, <- IH. split.
    + intros [ys H]. destruct (f x); simpl in H; [|congruence].
      destruct (rmap f l); simpl in H; [|congruence]. eauto.
    + intros [[y ->] [ys ->]]. simpl. eauto.
Qed.




(** ** The pairing phase, court by court *)

Section CourtProjection.

Variable c : string.
Variable r : nat -> nat.
Variable xs : list (nat * (Slot * Cal.datetime)).

Hypothesis labels_nodup : NoDup (map fst xs).
Hypothesis r_inj :
  forall x y, In x xs -> In y xs -> on_court c x -> on_court c y ->
              r (fst x) = r (fst y) -> fst x = fst y.









End CourtProjection.





Lemma enumerate_labels_nodup {A} (l : list A) : NoDup (map fst (enumerate l)).
Proof. unfold enumerate. rewrite enumerate_from_fst. apply NoDup_ListNoDup, seq_NoDup. Qed.

Lemma nodup_map_filter {A B} (f : A -> B) (P : A -> Prop) `{forall x, Decision (P x)} l :
  NoDup (map f l) -> NoDup (map f (filter P l)).
Proof.
  induction l as [|x l IH]; [done|].
  cbn [map]. intros [Hx Hnd]%NoDup_cons. rewrite filter_cons.
  destruct (decide (P x)); [|by apply IH].
  cbn [map]. apply NoDup_cons. split; [|by apply IH].
  intros Hin. apply Hx. apply list_elem_of_In, in_map_iff in Hin as (y & E & Hy).
  apply list_elem_of_In, list_elem_of_filter in Hy as [_ Hy].
  rewrite <- E. by apply list_elem_of_In, in_map, list_elem_of_In.
Qed.














(** * Further properties of the code

    Properties of functions the statements above do not reach, and of the
    way the functions above compose. *)

(** ** Strings, numerals and the matcher *)

Lemma string_app_cons x (a b : string) : String x a +:+ b = String x (a +:+ b).
Proof. reflexivity. Qed.

Lemma string_app_nil_l (a : string) : "" +:+ a = a.
Proof. reflexivity. Qed.

Lemma string_app_assoc (a b c : string) : (a +:+ b) +:+ c = a +:+ (b +:+ c).
Proof.
  induction a as [|x a IH]; [reflexivity|].
  rewrite !string_app_cons. f_equal. exact IH.
Qed.

Lemma string_app_nil_r (a : string) : a +:+ "" = a.
Proof.
  induction a as [|x a IH]; [reflexivity|].
  rewrite string_app_cons. f_equal. exact IH.
Qed.

Lemma list_ascii_app (a b : string) :
  list_ascii_of_string (a +:+ b) = list_ascii_of_string a ++ list_ascii_of_string b.
Proof.
  induction a as [|x a IH]; [reflexivity|].
  rewrite string_app_cons. simpl. f_equal. exact IH.
Qed.

Lemma string_length_app (a b : string) :
  String.length (a +:+ b) = String.length a + String.length b.
Proof.
  induction a as [|x a IH]; [reflexivity|].
  rewrite string_app_cons. simpl. f_equal. exact IH.
Qed.

Lemma is_digit_range c :
  PyStr.is_digit c = true <-> 48 <= PyStr.code c <= 57.
Proof.
  unfold PyStr.is_digit. rewrite andb_true_iff, !Nat.leb_le. reflexivity.
Qed.

Lemma is_digit_not_space c : PyStr.is_digit c = true -> PyStr.is_space c = false.
Proof.
  intros H%is_digit_range. unfold PyStr.is_space.
  apply orb_false_iff. split; apply andb_false_iff.
  - right. apply Nat.leb_gt. lia.
  - right. apply Nat.leb_gt. lia.
Qed.

Lemma digit_char_spec d :
  (0 <= d <= 9)%Z ->
  PyStr.is_digit (PyStr.digit_char d) = true /\ PyStr.digit_val (PyStr.digit_char d) = d.
Proof.
  intros H.
  assert (d = 0 \/ d = 1 \/ d = 2 \/ d = 3 \/ d = 4 \/ d = 5 \/ d = 6 \/ d = 7 \/ d = 8
          \/ d = 9)%Z as C by lia.
  repeat (destruct C as [-> | C]; [split; reflexivity|]). subst d. split; reflexivity.
Qed.

Lemma digit_val_range c : PyStr.is_digit c = true -> (0 <= PyStr.digit_val c <= 9)%Z.
Proof. intros H%is_digit_range. unfold PyStr.digit_val. lia. Qed.

(** the value of a numeral read from an accumulator *)
Lemma int_of_digits_app a c :
  PyStr.int_of_digits (a +:+ String c "")
  = (10 * PyStr.int_of_digits a + PyStr.digit_val c)%Z.
Proof.
  unfold PyStr.int_of_digits. rewrite list_ascii_app, fold_left_app. reflexivity.
Qed.

Lemma int_of_digits_zero s : PyStr.int_of_digits (String "0" s) = PyStr.int_of_digits s.
Proof. reflexivity. Qed.

Lemma digits_go_app fuel : forall n acc,
  PyStr.digits_go fuel n acc = PyStr.digits_go fuel n "" +:+ acc.
Proof.
  induction fuel as [|fuel IH]; intros n acc; simpl; [reflexivity|].
  destruct (n <? 10)%Z; [reflexivity|].
  rewrite IH, (IH _ (String _ "")), string_app_assoc. reflexivity.
Qed.

Lemma digits_go_spec fuel : forall n,
  (0 <= n < 10 ^ Z.of_nat (S fuel))%Z ->
  PyStr.int_of_digits (PyStr.digits_go (S fuel) n "") = n
  /\ Forall (fun c => PyStr.is_digit c = true)
            (list_ascii_of_string (PyStr.digits_go (S fuel) n ""))
  /\ PyStr.digits_go (S fuel) n "" <> "".
Proof.
  induction fuel as [|fuel IH]; intros n Hn.
  all: assert (0 <= n mod 10 <= 9)%Z as Hm by (pose proof (Z.mod_pos_bound n 10); lia).
  all: destruct (digit_char_spec _ Hm) as [Hd Hv].
  all: cbn [PyStr.digits_go]; destruct (n <? 10)%Z eqn:E.
  all: try (apply Z.ltb_lt in E; rewrite Z.mod_small in * by lia;
            split; [|split; [|discriminate]];
            [ unfold PyStr.int_of_digits; simpl; rewrite Hv; lia
            | simpl; constructor; [exact Hd | constructor] ]).
  - apply Z.ltb_ge in E. change (10 ^ Z.of_nat 1)%Z with 10%Z in Hn. lia.
  - apply Z.ltb_ge in E.
    change (if (n / 10 <? 10)%Z
            then String (PyStr.digit_char ((n / 10) mod 10)) (String (PyStr.digit_char (n mod 10)) "")
            else PyStr.digits_go fuel (n / 10 / 10)
                   (String (PyStr.digit_char ((n / 10) mod 10))
                      (String (PyStr.digit_char (n mod 10)) "")))
      with (PyStr.digits_go (S fuel) (n / 10) (String (PyStr.digit_char (n mod 10)) "")).
    rewrite digits_go_app.
    assert (0 <= n / 10 < 10 ^ Z.of_nat (S fuel))%Z as Hq.
    { split; [apply Z.div_pos; lia|].
      apply Z.div_lt_upper_bound; [lia|].
      rewrite (Nat2Z.inj_succ (S fuel)), Z.pow_succ_r in Hn by lia. lia. }
    destruct (IH _ Hq) as (Hi & Hf & Hne).
    split; [|split].
    + rewrite int_of_digits_app, Hi, Hv. pose proof (Z.div_mod n 10). lia.
    + rewrite list_ascii_app. apply Forall_app. split; [exact Hf|].
      simpl. constructor; [exact Hd | constructor].
    + destruct (PyStr.digits_go (S fuel) (n / 10) "") eqn:G; [congruence | discriminate].
Qed.

(** [int(str(n)) == n], and [str(n)] is a non-empty run of digits *)
Lemma str_of_Z_spec n :
  (0 <= n)%Z ->
  PyStr.int_of_digits (PyStr.str_of_Z n) = n
  /\ Forall (fun c => PyStr.is_digit c = true) (list_ascii_of_string (PyStr.str_of_Z n))
  /\ PyStr.str_of_Z n <> "".
Proof.
  intros Hn. unfold PyStr.str_of_Z. apply digits_go_spec.
  split; [exact Hn|].
  rewrite Nat2Z.inj_succ, Z2Nat.id by apply Z.log2_nonneg.
  destruct (Z.eq_dec n 0%Z) as [->|Hz]; [reflexivity|].
  pose proof (Z.log2_spec n ltac:(lia)) as [_ Hlt].
  eapply Z.lt_le_trans; [exact Hlt|].
  apply Z.pow_le_mono_l. pose proof (Z.log2_nonneg n). lia.
Qed.

Lemma lstrip_not_space c s : PyStr.is_space c = false -> PyStr.lstrip (String c s) = String c s.
Proof. intros H. simpl. rewrite H. reflexivity. Qed.

Lemma rstrip_app a b : PyStr.rstrip b = b -> b <> "" -> PyStr.rstrip (a +:+ b) = a +:+ b.
Proof.
  intros Hb Hne. induction a as [|x a IH]; [exact Hb|].
  rewrite string_app_cons. simpl. rewrite IH.
  destruct (a +:+ b) eqn:E; [|reflexivity].
  destruct a; [rewrite string_app_nil_l in E; congruence | discriminate].
Qed.

Lemma rstrip_no_space s :
  Forall (fun c => PyStr.is_space c = false) (list_ascii_of_string s) -> PyStr.rstrip s = s.
Proof.
  induction s as [|c s IH]; [reflexivity|]. simpl. intros H.
  apply Forall_cons in H as [Hc Hs]. rewrite (IH Hs), Hc. destruct s; reflexivity.
Qed.

Lemma strip_digits s :
  Forall (fun c => PyStr.is_digit c = true) (list_ascii_of_string s) -> PyStr.strip s = s.
Proof.
  intros H. unfold PyStr.strip.
  assert (Forall (fun c => PyStr.is_space c = false) (list_ascii_of_string s)) as Hs.
  { eapply Forall_impl; [exact H|]. apply is_digit_not_space. }
  destruct s as [|c s]; [reflexivity|].
  pose proof Hs as Hs'. simpl in Hs'. apply Forall_cons in Hs' as [Hc _].
  rewrite (lstrip_not_space _ _ Hc). apply rstrip_no_space, Hs.
Qed.

(** *** The first way a pattern matches *)

Lemma bind_head {A B} (p : Re.parser A) (f : A -> Re.parser B) s a r x :
  head (p s) = Some (a, r) -> head (f a r) = Some x -> head (Re.bind p f s) = Some x.
Proof.
  unfold Re.bind. destruct (p s) as [|[a' r'] l]; simpl; [discriminate|].
  intros [= -> ->] H. destruct (f a r); simpl in *; congruence.
Qed.

Lemma in_bind {A B} (p : Re.parser A) (f : A -> Re.parser B) s y :
  In y (Re.bind p f s) <-> exists a r, In (a, r) (p s) /\ In y (f a r).
Proof.
  unfold Re.bind. rewrite in_flat_map. split.
  - intros ([a r] & H1 & H2). eauto.
  - intros (a & r & H1 & H2). exists (a, r). eauto.
Qed.

Lemma head_in {A} (l : list A) x : head l = Some x -> In x l.
Proof. destruct l; simpl; [discriminate|]. intros [= ->]. by left. Qed.

Lemma search_head {A} (p : Re.parser A) s a r :
  head (p s) = Some (a, r) -> Re.search p s = Some a.
Proof.
  intros H. destruct s; simpl; destruct (p _) as [|[a' r'] l]; simpl in H; congruence.
Qed.

Lemma search_skip {A} (p : Re.parser A) c s :
  p (String c s) = [] -> Re.search p (String c s) = Re.search p s.
Proof. intros H. simpl. rewrite H. reflexivity. Qed.

Lemma search_app {A} (p : Re.parser A) pre s :
  p s <> [] -> is_Some (Re.search p (pre +:+ s)).
Proof.
  intros H. induction pre as [|c pre IH].
  - rewrite string_app_nil_l. destruct (p s) as [|[a r] l] eqn:E; [congruence|].
    exists a. apply (search_head _ _ _ r). by rewrite E.
  - rewrite string_app_cons. simpl.
    destruct (p (String c (pre +:+ s))) as [|[a r] l]; [exact IH | eauto].
Qed.

(** a match found by [re.search] is the first match at some position *)
Lemma search_some {A} (p : Re.parser A) s a :
  Re.search p s = Some a -> exists pre s' r, s = pre +:+ s' /\ head (p s') = Some (a, r).
Proof.
  induction s as [|c s IH]; simpl.
  - destruct (p "") as [|[a' r'] l] eqn:E; [discriminate|]. intros [= ->].
    exists "", "", r'. by rewrite E.
  - destruct (p (String c s)) as [|[a' r'] l] eqn:E.
    + intros H. destruct (IH H) as (pre & s' & r & -> & Hh).
      exists (String c pre), s', r. split; [reflexivity | exact Hh].
    + intros [= ->]. exists "", (String c s), r'. by rewrite E.
Qed.

Lemma star_head f ds r :
  Forall (fun c => f c = true) (list_ascii_of_string ds) ->
  match r with String c _ => f c = false | EmptyString => True end ->
  head (Re.star f (ds +:+ r)) = Some (ds, r).
Proof.
  intros Hds Hr. induction ds as [|c ds IH].
  - rewrite string_app_nil_l. destruct r as [|c r]; [reflexivity|]. simpl. by rewrite Hr.
  - simpl in Hds. apply Forall_cons in Hds as [Hc Hds].
    rewrite string_app_cons. simpl. rewrite Hc.
    specialize (IH Hds). destruct (Re.star f (ds +:+ r)) as [|[m r'] l]; [discriminate|].
    simpl in IH. injection IH as -> ->. reflexivity.
Qed.

Lemma plus_head f ds r :
  ds <> "" ->
  Forall (fun c => f c = true) (list_ascii_of_string ds) ->
  match r with String c _ => f c = false | EmptyString => True end ->
  head (Re.plus f (ds +:+ r)) = Some (ds, r).
Proof.
  intros Hne Hds Hr. destruct ds as [|c ds]; [congruence|].
  simpl in Hds. apply Forall_cons in Hds as [Hc Hds].
  unfold Re.plus. rewrite string_app_cons.
  eapply bind_head; [simpl; rewrite Hc; reflexivity|].
  eapply bind_head; [apply star_head; eassumption | reflexivity].
Qed.

Lemma starts_with_refl eq (p r : string) :
  (forall c, eq c c = true) -> PyStr.starts_with eq p (p +:+ r) = true.
Proof.
  intros Heq. induction p as [|c p IH]; [reflexivity|].
  rewrite string_app_cons. simpl. by rewrite Heq, IH.
Qed.

Lemma eq_char_ci_refl c : PyStr.eq_char_ci c c = true.
Proof. unfold PyStr.eq_char_ci. apply Ascii.eqb_refl. Qed.

Lemma lit_nonempty eq (p r : string) :
  (forall c, eq c c = true) -> Re.lit eq p (p +:+ r) <> [].
Proof. intros Heq. unfold Re.lit. by rewrite starts_with_refl. Qed.

Lemma match_to_end_head {A} (p : Re.parser A) s a r :
  head (p s) = Some (a, r) ->
  Re.match_to_end p s = match r with EmptyString => Some a | _ => None end.
Proof.
  unfold Re.match_to_end. destruct (p s) as [|[a' r'] l]; simpl; [discriminate|].
  intros [= -> ->]. destruct r; reflexivity.
Qed.

(** *** Reading back a date *)

Lemma pattern_dir_head d rest s v r found r' :
  head (Strptime.directive d s) = Some (v, r) ->
  head (Strptime.pattern rest r) = Some (found, r') ->
  head (Strptime.pattern (Strptime.Dir d :: rest) s) = Some ((d, v) :: found, r').
Proof.
  intros H1 H2. simpl. eapply bind_head; [exact H1|].
  eapply bind_head; [exact H2 | reflexivity].
Qed.

Lemma pattern_lit_head c rest s x :
  head (Strptime.pattern rest s) = Some x ->
  head (Strptime.pattern (Strptime.Lit c :: rest) (String c s)) = Some x.
Proof.
  intros H. simpl. eapply bind_head; [|exact H].
  simpl. rewrite eq_char_ci_refl. reflexivity.
Qed.

Lemma year_text_checked :
  forallb (fun k => four_digits_of (1000 + Z.of_nat k) (PyStr.zero_pad 4 (1000 + Z.of_nat k)))
          (seq 0 (Z.to_nat 9000)) = true.
Proof. vm_compute. reflexivity. Qed.

Lemma year_text y :
  (1000 <= y <= 9999)%Z ->
  exists a b c d,
    PyStr.zero_pad 4 y = String a (String b (String c (String d "")))
    /\ PyStr.is_digit a = true /\ PyStr.is_digit b = true
    /\ PyStr.is_digit c = true /\ PyStr.is_digit d = true
    /\ PyStr.int_of_digits (PyStr.zero_pad 4 y) = y.
Proof.
  intros Hy. pose proof year_text_checked as H.
  rewrite forallb_forall in H. specialize (H (Z.to_nat (y - 1000))).
  replace (1000 + Z.of_nat (Z.to_nat (y - 1000)))%Z with y in H by lia.
  assert (In (Z.to_nat (y - 1000)) (seq 0 (Z.to_nat 9000))) as Hin by (apply in_seq; lia).
  specialize (H Hin). unfold four_digits_of in H.
  destruct (PyStr.zero_pad 4 y) as [|a [|b [|c [|d [|]]]]]; try discriminate.
  rewrite !andb_true_iff in H. destruct H as ((((Ha & Hb) & Hc) & Hd) & Hv).
  apply Z.eqb_eq in Hv. exists a, b, c, d. by repeat split.
Qed.

Lemma two_head f g a b r :
  f a = true -> g b = true ->
  head (Re.two f g (String a (String b r))) = Some (String a (String b ""), r).
Proof.
  intros Ha Hb. unfold Re.two.
  eapply bind_head; [simpl; rewrite Ha; reflexivity|].
  eapply bind_head; [simpl; rewrite Hb; reflexivity | reflexivity].
Qed.

Lemma directive_year_head y r :
  (1000 <= y <= 9999)%Z ->
  head (Strptime.directive "Y" (PyStr.zero_pad 4 y +:+ r)) = Some (PyStr.zero_pad 4 y, r)
  /\ PyStr.int_of_digits (PyStr.strip (PyStr.zero_pad 4 y)) = y.
Proof.
  intros Hy. destruct (year_text y Hy) as (a & b & c & d & E & Ha & Hb & Hc & Hd & Hv).
  split.
  - rewrite E. rewrite !string_app_cons, string_app_nil_l.
    change (Strptime.directive "Y")
      with (Re.bind (Re.two PyStr.is_digit PyStr.is_digit) (fun a =>
            Re.bind (Re.two PyStr.is_digit PyStr.is_digit) (fun b => Re.ret (a +:+ b)))).
    eapply bind_head; [apply two_head; assumption|].
    eapply bind_head; [apply two_head; assumption | reflexivity].
  - rewrite strip_digits; [exact Hv|]. rewrite E. simpl. by repeat constructor.
Qed.

Ltac one_of_range H :=
  repeat (destruct H as [-> | H]; [split; vm_compute; reflexivity|]);
  subst; split; vm_compute; reflexivity.

Lemma directive_month_head m r :
  (1 <= m <= 12)%Z ->
  head (Strptime.directive "m" (PyStr.zero_pad 2 m +:+ r)) = Some (PyStr.zero_pad 2 m, r)
  /\ PyStr.int_of_digits (PyStr.strip (PyStr.zero_pad 2 m)) = m.
Proof.
  intros Hm.
  assert (m = 1 \/ m = 2 \/ m = 3 \/ m = 4 \/ m = 5 \/ m = 6 \/ m = 7 \/ m = 8 \/ m = 9
          \/ m = 10 \/ m = 11 \/ m = 12)%Z as C by lia.
  one_of_range C.
Qed.

Lemma directive_day_head d r :
  (1 <= d <= 31)%Z ->
  head (Strptime.directive "d" (PyStr.zero_pad 2 d +:+ r)) = Some (PyStr.zero_pad 2 d, r)
  /\ PyStr.int_of_digits (PyStr.strip (PyStr.zero_pad 2 d)) = d.
Proof.
  intros Hd.
  assert (d = 1 \/ d = 2 \/ d = 3 \/ d = 4 \/ d = 5 \/ d = 6 \/ d = 7 \/ d = 8 \/ d = 9
          \/ d = 10 \/ d = 11 \/ d = 12 \/ d = 13 \/ d = 14 \/ d = 15 \/ d = 16 \/ d = 17
          \/ d = 18 \/ d = 19 \/ d = 20 \/ d = 21 \/ d = 22 \/ d = 23 \/ d = 24 \/ d = 25
          \/ d = 26 \/ d = 27 \/ d = 28 \/ d = 29 \/ d = 30 \/ d = 31)%Z as C by lia.
  one_of_range C.
Qed.

Lemma mk_date_ok y m d dd :
  Cal.mk_date y m d = Ok dd ->
  dd = Cal.Date y m d /\ (1 <= y <= 9999)%Z /\ (1 <= m <= 12)%Z /\ (1 <= d <= 31)%Z.
Proof.
  unfold Cal.mk_date, Cal.MINYEAR, Cal.MAXYEAR.
  destruct (_ && _) eqn:E; [|discriminate]. intros [= <-].
  rewrite !andb_true_iff, !Z.leb_le in E.
  split; [reflexivity|].
  assert (Cal.days_in_month y m <= 31)%Z.
  { unfold Cal.days_in_month. repeat destruct (_ =? _)%Z; simpl; try destruct (Cal.is_leap y); lia. }
  lia.
Qed.

(** the text of a date followed by [tail], read with a format that starts
    with [%Y-%m-%d] *)
Lemma date_pattern_head y m d rest tail found r' :
  (1000 <= y <= 9999)%Z -> (1 <= m <= 12)%Z -> (1 <= d <= 31)%Z ->
  head (Strptime.pattern rest tail) = Some (found, r') ->
  head (Strptime.pattern
          (Strptime.Dir "Y" :: Strptime.Lit "-" :: Strptime.Dir "m" :: Strptime.Lit "-"
             :: Strptime.Dir "d" :: rest)
          (Cal.iso_date (Cal.Date y m d) +:+ tail))
  = Some (("Y"%char, PyStr.zero_pad 4 y) :: ("m"%char, PyStr.zero_pad 2 m)
            :: ("d"%char, PyStr.zero_pad 2 d) :: found, r').
Proof.
  intros Hy Hm Hd Hrest. unfold Cal.iso_date. cbn [Cal.year Cal.month Cal.day].
  rewrite !string_app_assoc.
  eapply pattern_dir_head; [apply directive_year_head, Hy|].
  rewrite string_app_cons, string_app_nil_l. apply pattern_lit_head.
  eapply pattern_dir_head; [apply directive_month_head, Hm|].
  rewrite string_app_cons, string_app_nil_l. apply pattern_lit_head.
  eapply pattern_dir_head; [apply directive_day_head, Hd|].
  exact Hrest.
Qed.

Lemma found_after_date ys ms ds found :
  Strptime.found_hour (("Y"%char, ys) :: ("m"%char, ms) :: ("d"%char, ds) :: found)
    = Strptime.found_hour found
  /\ Strptime.found_int "M" 0 (("Y"%char, ys) :: ("m"%char, ms) :: ("d"%char, ds) :: found)
     = Strptime.found_int "M" 0 found
  /\ Strptime.found_int "Y" 1900 (("Y"%char, ys) :: ("m"%char, ms) :: ("d"%char, ds) :: found)
     = PyStr.int_of_digits (PyStr.strip ys)
  /\ Strptime.found_int "m" 1 (("Y"%char, ys) :: ("m"%char, ms) :: ("d"%char, ds) :: found)
     = PyStr.int_of_digits (PyStr.strip ms)
  /\ Strptime.found_int "d" 1 (("Y"%char, ys) :: ("m"%char, ms) :: ("d"%char, ds) :: found)
     = PyStr.int_of_digits (PyStr.strip ds).
Proof. repeat split; reflexivity. Qed.

(** [strptime] on a date followed by a clock text, for a format that starts
    with [%Y-%m-%d]: the result is decided by the way the rest of the
    format reads the clock text *)
Lemma strptime_date_then fmt rest y m d tail found r' :
  Strptime.compile fmt
    = Strptime.Dir "Y" :: Strptime.Lit "-" :: Strptime.Dir "m" :: Strptime.Lit "-"
        :: Strptime.Dir "d" :: rest ->
  (1000 <= y <= 9999)%Z -> (1 <= m <= 12)%Z -> (1 <= d <= 31)%Z ->
  head (Strptime.pattern rest tail) = Some (found, r') ->
  Strptime.strptime (Cal.iso_date (Cal.Date y m d) +:+ tail) fmt
  = match r' with
    | EmptyString =>
        Cal.mk_datetime y m d (Strptime.found_hour found) (Strptime.found_int "M" 0 found)
    | _ => Raise ValueError
    end.
Proof.
  intros Hfmt Hy Hm Hd Hrest. unfold Strptime.strptime. rewrite Hfmt.
  rewrite (match_to_end_head _ _ _ _ (date_pattern_head y m d rest tail found r' Hy Hm Hd Hrest)).
  destruct r'; [|reflexivity].
  destruct (found_after_date (PyStr.zero_pad 4 y) (PyStr.zero_pad 2 m) (PyStr.zero_pad 2 d) found)
    as (-> & -> & -> & -> & ->).
  rewrite (proj2 (directive_year_head y "" Hy)), (proj2 (directive_month_head m "" Hm)),
    (proj2 (directive_day_head d "" Hd)).
  reflexivity.
Qed.

Lemma clock_texts_checked :
  forallb (fun h =>
    forallb (fun mi => clock_text_reads (clock_text (Z.of_nat h) (Z.of_nat mi))
                                        (Z.of_nat h) (Z.of_nat mi))
            (seq 0 60))
    (seq 0 24) = true.
Proof. vm_compute. reflexivity. Qed.

Lemma clock_text_read h mi :
  Cal.valid_time h mi = true -> clock_text_reads (clock_text h mi) h mi = true.
Proof.
  unfold Cal.valid_time. rewrite !andb_true_iff, !Z.leb_le. intros H.
  pose proof clock_texts_checked as C. rewrite forallb_forall in C.
  specialize (C (Z.to_nat h) ltac:(apply in_seq; lia)).
  rewrite forallb_forall in C.
  specialize (C (Z.to_nat mi) ltac:(apply in_seq; lia)).
  rewrite !Z2Nat.id in C by lia. exact C.
Qed.

Lemma iso_date_starts y m d tail :
  (1000 <= y <= 9999)%Z ->
  exists c s, Cal.iso_date (Cal.Date y m d) +:+ tail = String c s /\ PyStr.is_space c = false.
Proof.
  intros Hy. destruct (year_text y Hy) as (a & b & c & e & E & Ha & _).
  unfold Cal.iso_date. cbn [Cal.year]. rewrite E, !string_app_cons.
  eexists _, _. split; [reflexivity | by apply is_digit_not_space].
Qed.

Lemma whole_minute_inv dt :
  whole_minute dt ->
  exists y m d h mi,
    dt = Cal.DateTime (Cal.Date y m d) h mi 0 0
    /\ (1 <= y <= 9999)%Z /\ (1 <= m <= 12)%Z /\ (1 <= d <= 31)%Z
    /\ Cal.valid_time h mi = true
    /\ Cal.mk_datetime y m d h mi = Ok dt.
Proof.
  unfold whole_minute. destruct dt as [[y m d] h mi s us]. cbn [Cal.dt_date Cal.year Cal.month Cal.day Cal.hour Cal.minute].
  intros H. pose proof H as H'. unfold Cal.mk_datetime in H.
  destruct (Cal.mk_date y m d) as [dd|] eqn:Ed; [|discriminate]. simpl in H.
  destruct (Cal.valid_time h mi) eqn:Ev; [|discriminate].
  apply mk_date_ok in Ed as (-> & Hy & Hm & Hd). injection H as <- <-.
  exists y, m, d, h, mi. repeat split; try lia; try assumption; reflexivity.
Qed.

Lemma strftime_12h_split y m d h mi s us :
  Scraper.strftime_12h (Cal.DateTime (Cal.Date y m d) h mi s us)
  = Cal.iso_date (Cal.Date y m d) +:+ clock_text h mi.
Proof. reflexivity. Qed.

Lemma compile_12 :
  Strptime.compile "%Y-%m-%d %I:%M %p"
  = Strptime.Dir "Y" :: Strptime.Lit "-" :: Strptime.Dir "m" :: Strptime.Lit "-"
      :: Strptime.Dir "d" :: clock_items_12.
Proof. reflexivity. Qed.

Lemma compile_24 :
  Strptime.compile "%Y-%m-%d %H:%M"
  = Strptime.Dir "Y" :: Strptime.Lit "-" :: Strptime.Dir "m" :: Strptime.Lit "-"
      :: Strptime.Dir "d" :: clock_items_24.
Proof. reflexivity. Qed.

(** a date followed by a clock text that the 12-hour format reads to the
    end as [h]:[mi]: both readers return the datetime, whatever the
    clock of the caller shows *)
Lemma date_and_clock_parse y m d tail h mi dt :
  (1000 <= y <= 9999)%Z -> (1 <= m <= 12)%Z -> (1 <= d <= 31)%Z ->
  clock_text_reads tail h mi = true ->
  PyStr.rstrip tail = tail -> tail <> "" ->
  Cal.mk_datetime y m d h mi = Ok dt ->
  Scraper.parse_slot_time (Cal.iso_date (Cal.Date y m d) +:+ tail) = Some dt
  /\ forall now, App._parse_time now (Cal.iso_date (Cal.Date y m d) +:+ tail) = Ok (Some dt).
Proof.
  intros Hy Hm Hd Hread Hrs Hne Hdt. unfold clock_text_reads in Hread.
  destruct (head (Strptime.pattern clock_items_12 tail)) as [[found r12]|] eqn:E12;
    [|discriminate].
  destruct r12; [|discriminate].
  destruct (head (Strptime.pattern clock_items_24 tail)) as [[found24 r24]|] eqn:E24;
    [|discriminate].
  destruct r24 as [|c24 r24]; [discriminate|].
  apply andb_true_iff in Hread as [Hh Hmi]. apply Z.eqb_eq in Hh, Hmi.
  pose proof (strptime_date_then _ _ y m d tail _ _ compile_12 Hy Hm Hd E12) as S12.
  pose proof (strptime_date_then _ _ y m d tail _ _ compile_24 Hy Hm Hd E24) as S24.
  cbn beta iota in S12, S24. rewrite Hh, Hmi, Hdt in S12.
  destruct (iso_date_starts y m d tail Hy) as (c & s & Etext & Hc).
  assert (String.eqb (Cal.iso_date (Cal.Date y m d) +:+ tail) "" = false) as Hnonempty
    by (rewrite Etext; reflexivity).
  split.
  - unfold Scraper.parse_slot_time, Scraper.time_formats. rewrite Hnonempty.
    cbn [Strptime.first_format]. rewrite S12. reflexivity.
  - intros now. unfold App._parse_time. rewrite Hnonempty.
    assert (PyStr.strip (Cal.iso_date (Cal.Date y m d) +:+ tail)
            = Cal.iso_date (Cal.Date y m d) +:+ tail) as ->.
    { unfold PyStr.strip. rewrite Etext, (lstrip_not_space _ _ Hc), <- Etext.
      by apply rstrip_app. }
    unfold App.patterns. cbn [Strptime.first_format]. rewrite S24, S12. reflexivity.
Qed.

Lemma clock_text_rstrip h mi :
  PyStr.rstrip (clock_text h mi) = clock_text h mi /\ clock_text h mi <> "".
Proof.
  unfold clock_text. split.
  - destruct (h <? 12)%Z; rewrite <- !string_app_assoc; apply rstrip_app;
      (reflexivity || discriminate).
  - rewrite string_app_cons. discriminate.
Qed.

(** ** Rendering a time and reading it back *)

Lemma strftime_12h_read dt :
  whole_minute dt -> (1000 <= Cal.year (Cal.dt_date dt))%Z ->
  Scraper.parse_slot_time (Scraper.strftime_12h dt) = Some dt
  /\ forall now, App._parse_time now (Scraper.strftime_12h dt) = Ok (Some dt).
Proof.
  intros Hw Hyear.
  destruct (whole_minute_inv dt Hw) as (y & m & d & h & mi & -> & Hy & Hm & Hd & Hv & Hdt).
  cbn [Cal.dt_date Cal.year] in Hyear.
  rewrite strftime_12h_split.
  destruct (clock_text_rstrip h mi) as [Hrs Hne].
  apply (date_and_clock_parse y m d (clock_text h mi) h mi); try assumption; try lia.
  by apply clock_text_read.
Qed.

(** X1. What [load_cache] renders with [strftime("%Y-%m-%d %I:%M %p")] is
    read back by both readers of the repository to the datetime that was
    rendered: [parse_slot_time] (the loop of [clean_and_upload_to_supabase]
    and [process_notifications]) and [_parse_time], which answers the same
    whatever today's date is. The datetime is one that [strptime] can
    build (in the calendar, seconds zero) and its year has four digits. *)
Theorem cached_time_parses_back (dt : Cal.datetime) :
  whole_minute dt -> (1000 <= Cal.year (Cal.dt_date dt))%Z ->
  Scraper.parse_slot_time (Scraper.strftime_12h dt) = Some dt
  /\ forall now, App._parse_time now (Scraper.strftime_12h dt) = Ok (Some dt).
Proof. exact (strftime_12h_read dt). Qed.

Lemma cached_time_parses_back_witness :
  Scraper.parse_slot_time (Scraper.strftime_12h (Cal.DateTime (Cal.Date 2025 12 17) 15 0 0 0))
    = Some (Cal.DateTime (Cal.Date 2025 12 17) 15 0 0 0)
  /\ forall now,
       App._parse_time now (Scraper.strftime_12h (Cal.DateTime (Cal.Date 2025 12 17) 15 0 0 0))
       = Ok (Some (Cal.DateTime (Cal.Date 2025 12 17) 15 0 0 0)).
Proof.
  apply (cached_time_parses_back (Cal.DateTime (Cal.Date 2025 12 17) 15 0 0 0)).
  - vm_compute. reflexivity.
  - vm_compute. discriminate.
Defined.

(** *** What the pattern of the schedule labels can match *)

Lemma in_chr f s a r : In (a, r) (Re.chr f s) -> f a = true /\ s = String a r.
Proof.
  unfold Re.chr. destruct s as [|c s]; [intros []|].
  destruct (f c) eqn:E; [|intros []]. intros [[= <- <-]|[]]. by split.
Qed.

Lemma in_two f g s x r :
  In (x, r) (Re.two f g s) ->
  exists a b, x = String a (String b "") /\ f a = true /\ g b = true
              /\ s = String a (String b r).
Proof.
  unfold Re.two. intros (a & r1 & H1 & H2)%in_bind.
  apply in_bind in H2 as (b & r2 & H2 & H3).
  apply in_chr in H1 as [Ha ->]. apply in_chr in H2 as [Hb ->].
  destruct H3 as [[= <- <-]|[]]. exists a, b. by repeat split.
Qed.

Lemma in_one f s x r :
  In (x, r) (Re.one f s) -> exists a, x = String a "" /\ f a = true /\ s = String a r.
Proof.
  unfold Re.one. intros (a & r1 & H1 & H2)%in_bind.
  apply in_chr in H1 as [Ha ->]. destruct H2 as [[= <- <-]|[]]. exists a. by repeat split.
Qed.

Lemma starts_with_exact p : forall s,
  PyStr.starts_with PyStr.eq_char p s = true -> String.substring 0 (String.length p) s = p.
Proof.
  induction p as [|c p IH]; intros s H.
  - destruct s; reflexivity.
  - destruct s as [|c' s]; [discriminate|]. simpl in H.
    apply andb_true_iff in H as [Hc Hp]. apply Ascii.eqb_eq in Hc as ->.
    simpl. by rewrite IH.
Qed.

Lemma in_lit_exact p s x r :
  In (x, r) (Re.lit PyStr.eq_char p s) -> x = p.
Proof.
  unfold Re.lit. destruct (PyStr.starts_with PyStr.eq_char p s) eqn:E; [|intros []].
  intros [[= <- <-]|[]]. by apply starts_with_exact.
Qed.

Lemma digit_cases a :
  PyStr.is_digit a = true ->
  In a ["0"; "1"; "2"; "3"; "4"; "5"; "6"; "7"; "8"; "9"]%char.
Proof.
  intros H%is_digit_range. unfold PyStr.code in H.
  rewrite <- (ascii_nat_embedding a).
  assert (nat_of_ascii a = 48 \/ nat_of_ascii a = 49 \/ nat_of_ascii a = 50
          \/ nat_of_ascii a = 51 \/ nat_of_ascii a = 52 \/ nat_of_ascii a = 53
          \/ nat_of_ascii a = 54 \/ nat_of_ascii a = 55 \/ nat_of_ascii a = 56
          \/ nat_of_ascii a = 57) as C by lia.
  repeat (destruct C as [-> | C]; [simpl; tauto|]). rewrite C. simpl. tauto.
Qed.

(** the groups of a match of [(\d{1,2}):00\s*(AM|PM)]: one or two digits,
    and AM or PM *)
Lemma slot_time_groups title h period :
  Re.search Scraper.slot_time_re title = Some (h, period) ->
  (period = "AM" \/ period = "PM")
  /\ ((exists a, h = String a "" /\ PyStr.is_digit a = true)
      \/ (exists a b, h = String a (String b "")
                      /\ PyStr.is_digit a = true /\ PyStr.is_digit b = true)).
Proof.
  intros (pre & s & r & _ & Hh%head_in)%search_some.
  unfold Scraper.slot_time_re in Hh.
  apply in_bind in Hh as (h0 & r0 & Hhour & Hh).
  apply in_bind in Hh as (c1 & r1 & _ & Hh).
  apply in_bind in Hh as (c2 & r2 & _ & Hh).
  apply in_bind in Hh as (ap & r3 & Hap & Hh).
  destruct Hh as [[= <- <-]|[]].
  split.
  - unfold Re.alt in Hap. apply in_app_or in Hap as [Hap|Hap];
      apply in_lit_exact in Hap; auto.
  - unfold Re.alt in Hhour. apply in_app_or in Hhour as [Hhour|Hhour].
    + apply in_two in Hhour as (a & b & -> & Ha & Hb & _). right. eauto.
    + apply in_one in Hhour as (a & -> & Ha & _). left. eauto.
Qed.

(** the clock text of a scraped record, [" " + h + ":00 " + period], for
    an hour between 1 and 12: it is read as the hour the scraper computed *)
Lemma scraped_clock_text_read h period :
  (period = "AM" \/ period = "PM") ->
  ((exists a, h = String a "" /\ PyStr.is_digit a = true)
   \/ (exists a b, h = String a (String b "")
                   /\ PyStr.is_digit a = true /\ PyStr.is_digit b = true)) ->
  (1 <= PyStr.int_of_digits h <= 12)%Z ->
  let tail := " " +:+ h +:+ ":00 " +:+ period in
  clock_text_reads tail (Scraper.to_24h (PyStr.int_of_digits h) period) 0 = true
  /\ PyStr.rstrip tail = tail /\ tail <> "".
Proof.
  intros Hp Hh Hrange.
  destruct Hh as [(a & -> & Ha)|(a & b & -> & Ha & Hb)].
  - apply digit_cases in Ha. simpl in Ha.
    repeat (destruct Ha as [<- | Ha];
            [first [ exfalso; vm_compute in Hrange; destruct Hrange as [H1 H2];
                     (by apply H1 || by apply H2)
                   | destruct Hp as [-> | ->];
                     (split; [vm_compute; reflexivity
                             | split; [vm_compute; reflexivity | discriminate]]) ]|]).
    destruct Ha.
  - apply digit_cases in Ha, Hb. simpl in Ha, Hb.
    repeat (destruct Ha as [<- | Ha];
            [repeat (destruct Hb as [<- | Hb];
               [first [ exfalso; vm_compute in Hrange; destruct Hrange as [H1 H2];
                        (by apply H1 || by apply H2)
                      | destruct Hp as [-> | ->];
                        (split; [vm_compute; reflexivity
                                | split; [vm_compute; reflexivity | discriminate]]) ]|]);
             destruct Hb|]).
    destruct Ha.
Qed.

(** *** Dates that stay in the calendar *)

Lemma in_calendar_inv d :
  in_calendar d ->
  (1 <= Cal.year d <= 9999)%Z /\ (1 <= Cal.month d <= 12)%Z
  /\ (1 <= Cal.day d <= Cal.days_in_month (Cal.year d) (Cal.month d))%Z.
Proof.
  unfold in_calendar, Cal.mk_date, Cal.MINYEAR, Cal.MAXYEAR.
  destruct (_ && _) eqn:E; [|discriminate]. intros _.
  rewrite !andb_true_iff, !Z.leb_le in E. lia.
Qed.

Lemma in_calendar_intro y m d :
  (1 <= y <= 9999)%Z -> (1 <= m <= 12)%Z -> (1 <= d <= Cal.days_in_month y m)%Z ->
  in_calendar (Cal.Date y m d).
Proof.
  intros Hy Hm Hd. unfold in_calendar, Cal.mk_date, Cal.MINYEAR, Cal.MAXYEAR.
  cbn [Cal.year Cal.month Cal.day].
  destruct (_ && _) eqn:E; [reflexivity|]. exfalso.
  rewrite !andb_false_iff, !Z.leb_gt in E. lia.
Qed.

Lemma days_in_month_range y m : (28 <= Cal.days_in_month y m <= 31)%Z.
Proof.
  unfold Cal.days_in_month.
  repeat destruct (_ =? _)%Z; simpl; try destruct (Cal.is_leap y); lia.
Qed.

Lemma next_day_in_calendar d d' :
  in_calendar d -> Cal.next_day d = Ok d' ->
  in_calendar d' /\ (Cal.year d <= Cal.year d')%Z.
Proof.
  intros (Hy & Hm & Hd)%in_calendar_inv. unfold Cal.next_day, Cal.MAXYEAR.
  destruct d as [y m dd]. cbn [Cal.year Cal.month Cal.day] in *.
  destruct (dd <? _)%Z eqn:E1.
  { intros [= <-]. apply Z.ltb_lt in E1. split; [apply in_calendar_intro|]; simpl; lia. }
  destruct (m <? 12)%Z eqn:E2.
  { intros [= <-]. apply Z.ltb_lt in E2. pose proof (days_in_month_range y (m + 1)).
    split; [apply in_calendar_intro|]; simpl; lia. }
  destruct (y <? 9999)%Z eqn:E3; [|discriminate].
  intros [= <-]. apply Z.ltb_lt in E3. pose proof (days_in_month_range (y + 1) 1).
  split; [apply in_calendar_intro|]; simpl; lia.
Qed.

Lemma add_days_in_calendar n : forall d d',
  in_calendar d -> Cal.add_days d n = Ok d' ->
  in_calendar d' /\ (Cal.year d <= Cal.year d')%Z.
Proof.
  induction n as [|n IH]; intros d d' Hd; simpl.
  - intros [= <-]. split; [exact Hd | lia].
  - destruct (Cal.next_day d) as [d1|] eqn:E; [|discriminate]. simpl. intros H.
    destruct (next_day_in_calendar _ _ Hd E) as [H1 H2].
    destruct (IH _ _ H1 H) as [H3 H4]. split; [exact H3 | lia].
Qed.

Section ExtractionRoundTrip.

Variable tz : Cal.datetime -> Z.

(** what a label that yields a record looks like *)
Lemma scrape_span_inv now url court_name gc span entry t :
  Scraper.scrape_span tz now url court_name gc span = Some (entry, t) ->
  exists status h period slot_date,
    Scraper.classify (PyStr.lower (PyStr.strip (Scraper.span_inner_text span))) = Some status
    /\ Re.search Scraper.slot_time_re (default "" (Scraper.span_title_attr span))
       = Some (h, period)
    /\ Cal.add_days (Cal.dt_date (Scraper.local now)) (Scraper.day_offset_of (Scraper.gc_left gc))
       = Ok slot_date
    /\ entry = {| court := court_name;
                  time := Cal.iso_date slot_date +:+ " " +:+ h +:+ ":00 " +:+ period;
                  status := status;
                  link := Scraper.resolve_link url gc;
                  raw_text := Scraper.span_inner_text span |}
    /\ match t with
       | Some sd =>
           exists naive,
             Cal.mk_datetime (Cal.year slot_date) (Cal.month slot_date) (Cal.day slot_date)
               (Scraper.to_24h (PyStr.int_of_digits h) period) 0 = Ok naive
             /\ sd = Scraper.localize tz naive
       | None =>
           exists e,
             Cal.mk_datetime (Cal.year slot_date) (Cal.month slot_date) (Cal.day slot_date)
               (Scraper.to_24h (PyStr.int_of_digits h) period) 0 = Raise e
       end.
Proof.
  unfold Scraper.scrape_span.
  destruct (_ || _); [discriminate|].
  destruct (Scraper.classify _) as [status|]; [|discriminate].
  destruct (Re.search _ _) as [[h period]|]; [|discriminate].
  destruct (Cal.add_days _ _) as [slot_date|]; [|discriminate].
  destruct (Cal.mk_datetime _ _ _ _ _) as [naive|e] eqn:E.
  - destruct (_ >? _)%Z; [discriminate|]. destruct (_ <? _)%Z; [discriminate|].
    intros [= <- <-]. exists status, h, period, slot_date.
    repeat split; try reflexivity. exists naive. by split.
  - intros [= <- <-]. exists status, h, period, slot_date.
    repeat split; try reflexivity. by exists e.
Qed.

(** the hour of a 12-hour label is an hour of the day *)
Lemma to_24h_valid h period :
  (1 <= h <= 12)%Z -> Cal.valid_time (Scraper.to_24h h period) 0 = true.
Proof.
  intros H.
  assert (0 <= Scraper.to_24h h period <= 23)%Z as R.
  { unfold Scraper.to_24h.
    destruct (String.eqb period "PM" && negb (h =? 12)%Z) eqn:E1.
    - apply andb_true_iff in E1 as [_ E1]. apply negb_true_iff, Z.eqb_neq in E1. lia.
    - destruct (String.eqb period "AM" && (h =? 12)%Z); lia. }
  unfold Cal.valid_time. rewrite !andb_true_iff, !Z.leb_le. lia.
Qed.

(** a record and the start time computed for it: the time is there, it is
    inside the window, and the text of the record is read as this time *)
Lemma scrape_timed_read (now : Scraper.aware) (page : Scraper.Page)
    (court_name : string) (e : Slot) (t : option Scraper.aware) :
  in_calendar (Cal.dt_date (Scraper.local now)) ->
  (1000 <= Cal.year (Cal.dt_date (Scraper.local now)))%Z ->
  twelve_hour_labels page ->
  In (e, t) (Scraper.scrape_timed tz now page court_name) ->
  exists sd,
    t = Some sd
    /\ (Scraper.instant now <= Scraper.instant sd <= Scraper.instant now + Scraper.HORIZON)%Z
    /\ Scraper.parse_slot_time (time e) = Some (Scraper.local sd)
    /\ forall app_now, App._parse_time app_now (time e) = Ok (Some (Scraper.local sd)).
Proof.
  intros Hcal Hyear Hlabels Hin. pose proof Hin as Hin'.
  apply in_scrape_timed in Hin' as (_ & cells & gc & span & Hsched & Hgc & Hspan & Hscrape).
  destruct (scrape_span_inv _ _ _ _ _ _ _ Hscrape)
    as (status & h & period & slot_date & _ & Hsearch & Hdays & -> & Ht).
  pose proof (Hlabels _ _ _ _ _ Hsched Hgc Hspan Hsearch) as Hrange.
  destruct (add_days_in_calendar _ _ _ Hcal Hdays) as [Hslot Hy].
  destruct (in_calendar_inv _ Hslot) as (Hy' & Hm & Hd).
  pose proof (days_in_month_range (Cal.year slot_date) (Cal.month slot_date)) as Hdim.
  destruct t as [sd|].
  - destruct Ht as (naive & Hnaive & ->).
    exists (Scraper.localize tz naive). split; [reflexivity|].
    split; [exact (scrape_span_timed tz _ _ _ _ _ _ _ Hscrape)|].
    destruct (slot_time_groups _ _ _ Hsearch) as [Hp Hh].
    destruct (scraped_clock_text_read h period Hp Hh Hrange) as (Hread & Hrs & Hne).
    cbn [time Scraper.localize Scraper.local].
    destruct slot_date as [y m d]. cbn [Cal.year Cal.month Cal.day] in *.
    apply (date_and_clock_parse y m d (" " +:+ h +:+ ":00 " +:+ period)
             (Scraper.to_24h (PyStr.int_of_digits h) period) 0);
      try assumption; lia.
  - exfalso. destruct Ht as (err & Hraise).
    unfold Cal.mk_datetime in Hraise. unfold in_calendar in Hslot. rewrite Hslot in Hraise.
    simpl in Hraise. rewrite (to_24h_valid _ _ Hrange) in Hraise. discriminate.
Qed.

(** X2. The records of [_scrape_court_schedule] are read back downstream.
    When the labels of the page are written on the 12-hour clock and the
    clock of the scraper shows a date of the calendar with a four-digit
    year, every record returned was given a start time inside the window,
    and the text in its [time] field is read as that start time by
    [parse_slot_time] (upload and notifications) and by [_parse_time]
    (the views), whatever day the views run on. No record is kept without
    the window check. *)
Theorem scraped_records_parse_back (now : Scraper.aware) (page : Scraper.Page)
    (court_name : string) (e : Slot) :
  in_calendar (Cal.dt_date (Scraper.local now)) ->
  (1000 <= Cal.year (Cal.dt_date (Scraper.local now)))%Z ->
  twelve_hour_labels page ->
  In e (Scraper._scrape_court_schedule tz now page court_name) ->
  exists sd,
    In (e, Some sd) (Scraper.scrape_timed tz now page court_name)
    /\ (Scraper.instant now <= Scraper.instant sd <= Scraper.instant now + Scraper.HORIZON)%Z
    /\ Scraper.parse_slot_time (time e) = Some (Scraper.local sd)
    /\ forall app_now, App._parse_time app_now (time e) = Ok (Some (Scraper.local sd)).
Proof.
  intros Hcal Hyear Hlabels Hin.
  unfold Scraper._scrape_court_schedule in Hin. apply in_map_iff in Hin as ([e' t] & <- & Hin).
  cbn [fst].
  destruct (scrape_timed_read now page court_name e' t Hcal Hyear Hlabels Hin)
    as (sd & -> & Hwin & Hp & Ha).
  exists sd. split; [exact Hin|]. split; [exact Hwin|]. split; [exact Hp | exact Ha].
Qed.

End ExtractionRoundTrip.

Lemma scraped_records_parse_back_witness :
  exists sd,
    In ({| court := "Court 01"; time := "2025-12-17 09:00 AM"; status := "Open";
           link := facility_url; raw_text := "Book Now" |}, Some sd)
       (Scraper.scrape_timed pst now_0900 page_horizon "Court 01")
    /\ (Scraper.instant now_0900 <= Scraper.instant sd
        <= Scraper.instant now_0900 + Scraper.HORIZON)%Z
    /\ Scraper.parse_slot_time "2025-12-17 09:00 AM" = Some (Scraper.local sd)
    /\ forall app_now,
         App._parse_time app_now "2025-12-17 09:00 AM" = Ok (Some (Scraper.local sd)).
Proof.
  apply (scraped_records_parse_back pst now_0900 page_horizon "Court 01"
           {| court := "Court 01"; time := "2025-12-17 09:00 AM"; status := "Open";
              link := facility_url; raw_text := "Book Now" |}).
  - vm_compute. reflexivity.
  - vm_compute. discriminate.
  - intros cells gc span h period Hs Hgc Hspan Hsearch.
    injection Hs as <-.
    destruct Hgc as [<-|[<-|[]]]; destruct Hspan as [<-|[]];
      vm_compute in Hsearch; injection Hsearch as <- <-; vm_compute; split; discriminate.
  - vm_compute. right. left. reflexivity.
Defined.

(** ** The cache: saving and loading *)

Lemma rows_to_slots utc_now data : forall n,
  map Scraper.row_to_slot (omap (row_of utc_now) (enumerate_from n data)) = omap reloaded data.
Proof.
  induction data as [|x data IH]; intros n; [reflexivity|].
  simpl. unfold row_of at 1, reloaded at 1. cbn [fst snd].
  destruct (Scraper.parse_slot_time (time x)); cbn [map]; [f_equal|]; apply IH.
Qed.

Lemma mk_datetime_whole_minute y m d h mi dt :
  Cal.mk_datetime y m d h mi = Ok dt -> whole_minute dt.
Proof.
  intros H. pose proof H as H'. unfold Cal.mk_datetime in H.
  destruct (Cal.mk_date y m d) as [dd|] eqn:Ed; [|discriminate]. cbn in H.
  destruct (Cal.valid_time h mi); [|discriminate]. injection H as <-.
  apply mk_date_ok in Ed as (-> & _). exact H'.
Qed.

Lemma parse_slot_time_whole_minute s dt :
  Scraper.parse_slot_time s = Some dt -> whole_minute dt.
Proof.
  unfold Scraper.parse_slot_time. destruct (String.eqb s ""); [discriminate|].
  destruct (Strptime.first_format s Scraper.time_formats) as [[dt'|]|] eqn:E; try discriminate.
  intros [= ->]. apply first_format_some_in in E as (fmt & _ & E).
  unfold Strptime.strptime in E. destruct (Re.match_to_end _ _) as [found|]; [|discriminate].
  by apply mk_datetime_whole_minute in E.
Qed.

Lemma reloaded_fixed slot slot' :
  reloaded slot = Some slot' ->
  (forall dt, Scraper.parse_slot_time (time slot) = Some dt ->
              (1000 <= Cal.year (Cal.dt_date dt))%Z) ->
  reloaded slot' = Some slot'
  /\ Scraper.parse_slot_time (time slot') = Scraper.parse_slot_time (time slot).
Proof.
  unfold reloaded at 1. destruct (Scraper.parse_slot_time (time slot)) as [dt|] eqn:E;
    [|discriminate].
  intros [= <-] Hy. unfold reloaded. cbn [time court status link raw_text].
  destruct (strftime_12h_read dt (parse_slot_time_whole_minute _ _ E) (Hy dt eq_refl))
    as [-> _].
  split; reflexivity.
Qed.

Lemma load_after_save remote utc_now bot_token fetched stores data :
  Scraper.client_available remote = true ->
  Scraper.delete_succeeds remote = true ->
  Scraper.insert_succeeds remote = true ->
  all_since_epoch (Scraper.court_slots stores) ->
  Scraper.court_slots (fst (Scraper.save_cache remote utc_now bot_token fetched stores data))
    = omap (row_of utc_now) (enumerate data)
  /\ Scraper.load_cache true
       (Some (Scraper.court_slots
                (fst (Scraper.save_cache remote utc_now bot_token fetched stores data))))
       (Some (Some (Scraper.json_file
                (fst (Scraper.save_cache remote utc_now bot_token fetched stores data)))))
     = match omap reloaded data with
       | [] => (data, "json")
       | slots => (slots, "supabase")
       end.
Proof.
  intros Hc Hd Hi Hrecent.
  unfold Scraper.save_cache. cbn [fst Scraper.court_slots Scraper.json_file].
  unfold Scraper.clean_and_upload_to_supabase. rewrite Hc, Hd, Hi. cbn [negb].
  rewrite (delete_gte_all _ _ Hrecent), clean_rows_of.
  pose proof (rows_to_slots utc_now data 0) as Hrows. fold (enumerate data) in Hrows.
  destruct (omap (row_of utc_now) (enumerate data)) as [|row rows] eqn:E.
  - cbn [snd]. simpl in Hrows. rewrite <- Hrows. by split.
  - cbn [snd app]. unfold Scraper.load_cache. rewrite <- Hrows.
    cbn [map]. by split.
Qed.

(** X3. Saving and loading again. When the client is available and both
    requests of the upload go through (and no stored row is dated before
    1970), [load_cache] after [save_cache], its query answered with the
    rows of the table as they were stored, answers from Supabase with
    exactly the slots whose time was read, in their order, each with
    its time rendered anew as [%Y-%m-%d %I:%M %p]; the slots whose time
    was not read are in the JSON file only and do not come back. When no
    time was read at all the table is left empty and [load_cache] answers
    with the JSON file, which holds the data as saved. *)
Theorem save_then_load (remote : Scraper.Remote) (utc_now : nat -> string)
    (bot_token : option string) (fetched : option (list Scraper.Subscription))
    (stores : Scraper.Stores) (data : list Slot) :
  Scraper.client_available remote = true ->
  Scraper.delete_succeeds remote = true ->
  Scraper.insert_succeeds remote = true ->
  all_since_epoch (Scraper.court_slots stores) ->
  let after := fst (Scraper.save_cache remote utc_now bot_token fetched stores data) in
  Scraper.load_cache true (Some (Scraper.court_slots after))
                     (Some (Some (Scraper.json_file after)))
  = match omap reloaded data with
    | [] => (data, "json")
    | slots => (slots, "supabase")
    end.
Proof.
  intros Hc Hd Hi Hrecent. exact (proj2 (load_after_save _ _ _ _ _ _ Hc Hd Hi Hrecent)).
Qed.

Lemma save_then_load_witness :
  Scraper.load_cache true
    (Some (Scraper.court_slots
             (fst (Scraper.save_cache remote_up sample_clock None None
                     {| Scraper.json_file := []; Scraper.court_slots := [stored_row] |}
                     [ slot_at "Court 02" "2025-12-17 9:00 AM" "#";
                       slot_at "Court 03" "tomorrow" "#" ]))))
    (Some (Some (Scraper.json_file
             (fst (Scraper.save_cache remote_up sample_clock None None
                     {| Scraper.json_file := []; Scraper.court_slots := [stored_row] |}
                     [ slot_at "Court 02" "2025-12-17 9:00 AM" "#";
                       slot_at "Court 03" "tomorrow" "#" ])))))
  = ([ slot_at "Court 02" "2025-12-17 09:00 AM" "#" ], "supabase").
Proof.
  apply (save_then_load remote_up sample_clock None None
           {| Scraper.json_file := []; Scraper.court_slots := [stored_row] |}
           [ slot_at "Court 02" "2025-12-17 9:00 AM" "#"; slot_at "Court 03" "tomorrow" "#" ]).
  - reflexivity.
  - reflexivity.
  - reflexivity.
  - repeat constructor.
Defined.

Lemma epoch_leb dt :
  whole_minute dt -> (1970 <= Cal.year (Cal.dt_date dt))%Z ->
  Cal.dt_leb Scraper.EPOCH dt = true.
Proof.
  intros (y & m & d & h & mi & -> & Hy & Hm & Hd & Hv & _)%whole_minute_inv Hyear.
  cbn [Cal.dt_date Cal.year] in Hyear.
  unfold Cal.valid_time in Hv. rewrite !andb_true_iff, !Z.leb_le in Hv.
  unfold Cal.dt_leb, Cal.dt_compare, Scraper.EPOCH, Cal.fields.
  cbn [Cal.dt_date Cal.year Cal.month Cal.day Cal.hour Cal.minute Cal.second Cal.microsecond
       Cal.lex_compare].
  destruct (Z.compare_spec 1970 y); [|reflexivity|lia].
  destruct (Z.compare_spec 1 m); [|reflexivity|lia].
  destruct (Z.compare_spec 1 d); [|reflexivity|lia].
  destruct (Z.compare_spec 0 h); [|reflexivity|lia].
  destruct (Z.compare_spec 0 mi); [|reflexivity|lia].
  reflexivity.
Qed.

Lemma rows_since_epoch utc_now data :
  dated_since_1970 data -> all_since_epoch (omap (row_of utc_now) (enumerate data)).
Proof.
  intros Hy. apply Forall_forall. intros row Hin.
  apply list_elem_of_omap in Hin as ([k slot] & Hin & E).
  apply list_elem_of_In, in_enumerate in Hin. apply list_elem_of_lookup_2, list_elem_of_In in Hin.
  unfold row_of in E. cbn [fst snd] in E.
  destruct (Scraper.parse_slot_time (time slot)) as [dt|] eqn:Ep; [|discriminate].
  injection E as <-. cbn [Scraper.start_time].
  apply epoch_leb; [by eapply parse_slot_time_whole_minute | by eapply Hy].
Qed.

Lemma omap_reloaded_fixed data :
  dated_since_1970 data -> omap reloaded (omap reloaded data) = omap reloaded data.
Proof.
  induction data as [|x data IH]; intros Hy; [reflexivity|].
  assert (dated_since_1970 data) as Hy' by (intros s dt Hs; apply Hy; by right).
  specialize (IH Hy'). simpl.
  destruct (reloaded x) as [x'|] eqn:E; [|exact IH].
  assert (forall dt, Scraper.parse_slot_time (time x) = Some dt ->
                     (1000 <= Cal.year (Cal.dt_date dt))%Z) as Hx
    by (intros dt Hdt; pose proof (Hy x dt (or_introl eq_refl) Hdt); lia).
  destruct (reloaded_fixed _ _ E Hx) as [Hfix _].
  simpl. rewrite Hfix. f_equal. exact IH.
Qed.

(** X4. What comes back from the cache is stable. Under the conditions of
    X3 and with slots dated 1970 or later (rows dated earlier survive the
    delete of [clean_and_upload_to_supabase]), saving what [load_cache]
    returned and loading once more returns the same slots from the same
    source: re-rendered times are read back to the same start times. *)
Theorem second_save_and_load_changes_nothing (remote : Scraper.Remote)
    (utc_now utc_now' : nat -> string) (bot_token : option string)
    (fetched : option (list Scraper.Subscription)) (stores : Scraper.Stores)
    (data : list Slot) :
  Scraper.client_available remote = true ->
  Scraper.delete_succeeds remote = true ->
  Scraper.insert_succeeds remote = true ->
  all_since_epoch (Scraper.court_slots stores) ->
  dated_since_1970 data ->
  let after := fst (Scraper.save_cache remote utc_now bot_token fetched stores data) in
  let loaded := Scraper.load_cache true (Some (Scraper.court_slots after))
                                   (Some (Some (Scraper.json_file after))) in
  let after' := fst (Scraper.save_cache remote utc_now' bot_token fetched after (fst loaded)) in
  Scraper.load_cache true (Some (Scraper.court_slots after'))
                     (Some (Some (Scraper.json_file after'))) = loaded.
Proof.
  intros Hc Hd Hi Hrecent Hy. cbn zeta.
  destruct (load_after_save remote utc_now bot_token fetched stores data Hc Hd Hi Hrecent)
    as [Hrows Hload].
  rewrite Hload.
  assert (all_since_epoch
            (Scraper.court_slots
               (fst (Scraper.save_cache remote utc_now bot_token fetched stores data))))
    as Hrecent' by (rewrite Hrows; by apply rows_since_epoch).
  destruct (omap reloaded data) as [|slot slots] eqn:E; cbn [fst].
  - rewrite (proj2 (load_after_save remote utc_now' bot_token fetched _ data Hc Hd Hi Hrecent')).
    by rewrite E.
  - rewrite (proj2 (load_after_save remote utc_now' bot_token fetched _ (slot :: slots)
                      Hc Hd Hi Hrecent')).
    rewrite <- E, (omap_reloaded_fixed data Hy), E. reflexivity.
Qed.

Lemma second_save_and_load_changes_nothing_witness :
  let data := [ slot_at "Court 02" "2025-12-17 9:00 AM" "#"; slot_at "Court 03" "tomorrow" "#" ] in
  let stores := {| Scraper.json_file := []; Scraper.court_slots := [stored_row] |} in
  let after := fst (Scraper.save_cache remote_up sample_clock None None stores data) in
  let loaded := Scraper.load_cache true (Some (Scraper.court_slots after))
                                   (Some (Some (Scraper.json_file after))) in
  let after' := fst (Scraper.save_cache remote_up sample_clock None None after (fst loaded)) in
  Scraper.load_cache true (Some (Scraper.court_slots after'))
                     (Some (Some (Scraper.json_file after'))) = loaded.
Proof.
  apply (second_save_and_load_changes_nothing remote_up sample_clock sample_clock None None
           {| Scraper.json_file := []; Scraper.court_slots := [stored_row] |}
           [ slot_at "Court 02" "2025-12-17 9:00 AM" "#"; slot_at "Court 03" "tomorrow" "#" ]).
  - reflexivity.
  - reflexivity.
  - reflexivity.
  - repeat constructor.
  - intros slot dt [<-|[<-|[]]] H; vm_compute in H; [|discriminate].
    injection H as <-. vm_compute. discriminate.
Defined.

(** ** The views of [app.py] *)

Lemma rmap_attach_ok now data l0 :
  rmap (App.attach_time now) data = Ok l0 ->
  Forall2 (fun s x => fst x = s /\ App._parse_time now (time s) = Ok (snd x)) data l0.
Proof.
  revert l0. induction data as [|a data IH]; intros l0; simpl.
  - intros [= <-]. constructor.
  - unfold App.attach_time at 1.
    destruct (App._parse_time now (time a)) as [pa|] eqn:E; simpl; [|discriminate].
    destruct (rmap (App.attach_time now) data) as [l1|]; simpl; [|discriminate].
    intros [= <-]. constructor; [by split | by apply IH].
Qed.

Lemma rmap_attach_raise_iff now data :
  (exists e, rmap (App.attach_time now) data = Raise e)
  <-> exists s, In s data /\ App._parse_time now (time s) = Raise ValueError.
Proof.
  induction data as [|a data IH]; simpl.
  - split; [intros [e H]; discriminate | intros (s & [] & _)].
  - unfold App.attach_time at 1.
    destruct (App._parse_time now (time a)) as [pa|e] eqn:E; simpl.
    + destruct (rmap (App.attach_time now) data) as [l1|e1]; simpl.
      * split; [intros [e H]; discriminate|].
        intros (s & [<-|Hs] & H); [congruence|].
        destruct (proj2 IH (ex_intro _ s (conj Hs H))) as [e He]. discriminate.
      * split; [|eauto]. intros _.
        destruct (proj1 IH (ex_intro _ e1 eq_refl)) as (s & Hs & H). eauto.
    + split; [|eauto]. intros _. exists a.
      pose proof (parse_time_raises_value_error _ _ _ E) as ->. auto.
Qed.

Lemma in_keep_parsed l s dt : In (s, dt) (App.keep_parsed l) <-> In (s, Some dt) l.
Proof.
  unfold App.keep_parsed. rewrite <- !list_elem_of_In, list_elem_of_omap. split.
  - intros ([s' o] & Hin & H). cbn [fst snd] in H. destruct o; [|discriminate].
    by injection H as <- <-.
  - intros Hin. exists (s, Some dt). by split.
Qed.

Lemma in_attached now data l0 s o :
  rmap (App.attach_time now) data = Ok l0 ->
  (In (s, o) l0 <-> In s data /\ App._parse_time now (time s) = Ok o).
Proof.
  intros H%rmap_attach_ok. induction H as [|a [a' pa] data l0 [Ha Hp] _ IH]; simpl.
  - tauto.
  - cbn [fst snd] in Ha, Hp. subst a'. rewrite IH. split.
    + intros [[= <- <-]|[? ?]]; auto.
    + intros [[<-|?] Hq]; [left; congruence | auto].
Qed.

(** the records of the sorted list are the entries whose time is read *)
Lemma in_parse_and_sort now data parsed s dt :
  App.parse_and_sort now data = Ok parsed ->
  (In (s, dt) parsed <-> In s data /\ App._parse_time now (time s) = Ok (Some dt)).
Proof.
  unfold App.parse_and_sort.
  destruct (rmap (App.attach_time now) data) as [l0|] eqn:E; simpl; [|discriminate].
  intros [= <-].
  rewrite <- (in_attached now data l0 s (Some dt) E), <- in_keep_parsed.
  split; apply Permutation_in; [|symmetry]; apply stable_sort_perm.
Qed.

Lemma parse_and_sort_raise_iff now data :
  (exists e, App.parse_and_sort now data = Raise e)
  <-> exists s, In s data /\ App._parse_time now (time s) = Raise ValueError.
Proof.
  rewrite <- rmap_attach_raise_iff. unfold App.parse_and_sort.
  destruct (rmap (App.attach_time now) data); simpl; split; intros [e' H]; eauto; discriminate.
Qed.

Lemma dt_leb_false a b : Cal.dt_leb a b = false -> Cal.dt_ltb b a = true.
Proof.
  unfold Cal.dt_leb, Cal.dt_ltb, Cal.dt_compare. rewrite (lex_compare_antisym (Cal.fields a)).
  destruct (Cal.lex_compare _ _); simpl; congruence.
Qed.

Lemma sorted_head_least l x rest :
  stable_sort App.by_time l = x :: rest -> forall y, In y l -> App.by_time x y = true.
Proof.
  intros E y Hy. pose proof (stable_sort_strongly l) as Hs. rewrite E in Hs.
  apply (Permutation_in _ (Permutation_sym (stable_sort_perm App.by_time l))) in Hy.
  rewrite E in Hy. destruct Hy as [<-|Hy].
  - unfold App.by_time. destruct (dt_leb_total (snd x) (snd x)); assumption.
  - apply StronglySorted_inv in Hs as [_ Hall]. rewrite Forall_forall in Hall.
    apply Hall. by apply list_elem_of_In.
Qed.

Lemma keep_parsed_cons s o l :
  App.keep_parsed ((s, o) :: l)
  = match o with
    | Some dt => (s, dt) :: App.keep_parsed l
    | None => App.keep_parsed l
    end.
Proof. destruct o; reflexivity. Qed.

(** the first record of the sorted list: its time is before the times of
    the entries in front of it and not after those behind it *)
Lemma first_of_sorted now : forall data l0 s dt rest,
  rmap (App.attach_time now) data = Ok l0 ->
  stable_sort App.by_time (App.keep_parsed l0) = (s, dt) :: rest ->
  exists before after,
    data = before ++ s :: after
    /\ App._parse_time now (time s) = Ok (Some dt)
    /\ (forall s' dt', In s' before -> App._parse_time now (time s') = Ok (Some dt') ->
                       Cal.dt_ltb dt dt' = true)
    /\ (forall s' dt', In s' after -> App._parse_time now (time s') = Ok (Some dt') ->
                       Cal.dt_leb dt dt' = true).
Proof.
  induction data as [|a data IH]; intros l0 s dt rest; simpl.
  - intros [= <-]. discriminate.
  - unfold App.attach_time at 1.
    destruct (App._parse_time now (time a)) as [pa|] eqn:Ea; simpl; [|discriminate].
    destruct (rmap (App.attach_time now) data) as [l1|] eqn:E1; simpl; [|discriminate].
    intros [= <-]. rewrite keep_parsed_cons.
    destruct pa as [da|].
    + cbn [stable_sort].
      destruct (stable_sort App.by_time (App.keep_parsed l1)) as [|m rest'] eqn:Es.
      * simpl. intros [= <- <- <-]. exists [], data. repeat split; try assumption.
        -- intros s' dt' [].
        -- intros s' dt' Hin Hp. exfalso.
           assert (In (s', dt') (App.keep_parsed l1)) as Hk
             by (apply in_keep_parsed, (in_attached now data l1 s' (Some dt') E1); auto).
           apply (Permutation_in _ (Permutation_sym (stable_sort_perm App.by_time _))) in Hk.
           rewrite Es in Hk. destruct Hk.
      * cbn [insert_sorted]. destruct (App.by_time (a, da) m) eqn:Eb.
        -- intros [= <- <- <-]. exists [], data. repeat split; try assumption.
           ++ intros s' dt' [].
           ++ intros s' dt' Hin Hp.
              assert (In (s', dt') (App.keep_parsed l1)) as Hk
                by (apply in_keep_parsed, (in_attached now data l1 s' (Some dt') E1); auto).
              pose proof (sorted_head_least _ _ _ Es _ Hk) as Hm.
              unfold App.by_time in Eb, Hm. cbn [snd] in Eb, Hm.
              exact (dt_leb_trans _ _ _ Eb Hm).
        -- intros [= -> <-].
           destruct (IH l1 s dt rest' eq_refl Es) as (before & after & -> & Hp & Hb & Ha).
           exists (a :: before), after. repeat split; try assumption.
           intros s' dt' [<-|Hin] Hp'; [|eauto].
           rewrite Ea in Hp'. injection Hp' as <-.
           apply dt_leb_false. exact Eb.
    + intros Es.
      destruct (IH l1 s dt rest eq_refl Es) as (before & after & -> & Hp & Hb & Ha).
      exists (a :: before), after. repeat split; try assumption.
      intros s' dt' [<-|Hin] Hp'; [congruence | eauto].
Qed.

(** X5. [render_hero] shows the earliest slot. The record it names is an
    entry of the data whose time is read; the entries in front of it are
    strictly later (of several equally early entries the first in the data
    is shown), those behind it are not earlier. It shows no slot exactly
    when no entry has a time that is read, and it raises ([ValueError])
    exactly when reading the time of some entry does. *)
Theorem hero_is_earliest (now : Cal.datetime) (data : list Slot) :
  (forall s, App.render_hero now data = Ok (Some s) ->
     exists before after dt,
       data = before ++ s :: after
       /\ App._parse_time now (time s) = Ok (Some dt)
       /\ (forall s' dt', In s' before -> App._parse_time now (time s') = Ok (Some dt') ->
                          Cal.dt_ltb dt dt' = true)
       /\ (forall s' dt', In s' after -> App._parse_time now (time s') = Ok (Some dt') ->
                          Cal.dt_leb dt dt' = true))
  /\ (App.render_hero now data = Ok None
      <-> forall s, In s data -> App._parse_time now (time s) = Ok None)
  /\ ((exists e, App.render_hero now data = Raise e)
      <-> exists s, In s data /\ App._parse_time now (time s) = Raise ValueError).
Proof.
  split; [|split].
  - intros s. unfold App.render_hero, App.parse_and_sort.
    destruct (rmap (App.attach_time now) data) as [l0|] eqn:E; simpl; [|discriminate].
    destruct (stable_sort App.by_time (App.keep_parsed l0)) as [|[s0 dt] rest] eqn:Es;
      [discriminate|].
    cbn [fst]. intros [= <-].
    destruct (first_of_sorted now data l0 s0 dt rest E Es) as (before & after & H).
    exists before, after, dt. exact H.
  - unfold App.render_hero.
    destruct (App.parse_and_sort now data) as [parsed|e] eqn:E; simpl.
    + split.
      * destruct parsed as [|x parsed]; [|discriminate]. intros _ s Hs.
        unfold App.parse_and_sort in E.
        destruct (rmap (App.attach_time now) data) as [l0|] eqn:E0; [|discriminate].
        destruct (App._parse_time now (time s)) as [[dt|]|e] eqn:Ep; [|reflexivity|].
        -- exfalso. apply (proj2 (in_parse_and_sort now data [] s dt
                                    ltac:(unfold App.parse_and_sort; rewrite E0; exact E))).
           by split.
        -- exfalso.
           assert (exists e, rmap (App.attach_time now) data = Raise e) as [? ?];
             [|congruence].
           apply rmap_attach_raise_iff. exists s.
           by rewrite (parse_time_raises_value_error _ _ _ Ep) in Ep.
      * intros Hall. destruct parsed as [|[s dt] parsed]; [reflexivity|]. exfalso.
        destruct (proj1 (in_parse_and_sort now data _ s dt E) (or_introl eq_refl))
          as [Hs Hp].
        rewrite (Hall s Hs) in Hp. discriminate.
    + split; [discriminate|]. intros Hall. exfalso.
      destruct (proj1 (parse_and_sort_raise_iff now data) (ex_intro _ e E)) as (s & Hs & Hp).
      rewrite (Hall s Hs) in Hp. discriminate.
  - rewrite <- parse_and_sort_raise_iff. unfold App.render_hero.
    destruct (App.parse_and_sort now data); simpl; split; intros [e' H]; eauto; discriminate.
Qed.

Lemma hero_is_earliest_witness :
  exists s,
    App.render_hero sample_now pair_and_single_shuffled = Ok (Some s)
    /\ exists before after dt,
         pair_and_single_shuffled = before ++ s :: after
         /\ App._parse_time sample_now (time s) = Ok (Some dt)
         /\ (forall s' dt', In s' before ->
                            App._parse_time sample_now (time s') = Ok (Some dt') ->
                            Cal.dt_ltb dt dt' = true)
         /\ (forall s' dt', In s' after ->
                            App._parse_time sample_now (time s') = Ok (Some dt') ->
                            Cal.dt_leb dt dt' = true).
Proof.
  eexists. split; [vm_compute; reflexivity|].
  apply (proj1 (hero_is_earliest sample_now pair_and_single_shuffled)).
  vm_compute. reflexivity.
Defined.

(** *** Grouping *)

Lemma filed_under_group_add {K V} `{EqDecision K} (k k' : K) (v : V) m :
  filed_under k' (group_add k v m)
  = if decide (k' = k) then filed_under k' m ++ [v] else filed_under k' m.
Proof.
  induction m as [|[k0 vs] m IH]; simpl.
  - repeat case_decide; congruence.
  - repeat (case_decide; simpl); subst; try congruence.
    all: rewrite IH; case_decide; congruence.
Qed.

Lemma keys_group_add {K V} `{EqDecision K} (k : K) (v : V) m :
  map fst (group_add k v m) = if decide (k ∈ map fst m) then map fst m else map fst m ++ [k].
Proof.
  induction m as [|[k0 vs] m IH]; simpl.
  - reflexivity.
  - destruct (decide (k = k0)) as [<-|Hk]; simpl.
    + rewrite decide_True by (apply elem_of_cons; by left). reflexivity.
    + rewrite IH. destruct (decide (k ∈ map fst m)) as [Hin|Hnin].
      * rewrite decide_True by (apply elem_of_cons; by right). reflexivity.
      * rewrite decide_False; [reflexivity|].
        intros [->|?]%elem_of_cons; [congruence | contradiction].
Qed.

Lemma keys_group_add_nodup {K V} `{EqDecision K} (k : K) (v : V) m :
  NoDup (map fst m) -> NoDup (map fst (group_add k v m)).
Proof.
  intros Hnd. rewrite keys_group_add. destruct (decide _) as [Hin|Hnin]; [exact Hnd|].
  apply NoDup_app. split; [exact Hnd|]. split; [|apply NoDup_singleton].
  by intros x Hx ->%list_elem_of_singleton.
Qed.

Lemma in_keys_group_add {K V} `{EqDecision K} (k k' : K) (v : V) m :
  In k' (map fst (group_add k v m)) <-> k' = k \/ In k' (map fst m).
Proof.
  rewrite keys_group_add. destruct (decide _) as [Hin|Hnin].
  - apply list_elem_of_In in Hin. split; [auto | intros [->|?]; auto].
  - rewrite in_app_iff. simpl. split; [intros [?|[->|[]]]; auto | intros [->|?]; auto].
Qed.

Lemma filed_under_in {K V} `{EqDecision K} (k : K) (vs : list V) m :
  NoDup (map fst m) -> In (k, vs) m -> filed_under k m = vs.
Proof.
  induction m as [|[k0 vs0] m IH]; simpl; [tauto|].
  intros Hnd [[= -> ->]|Hin].
  - case_decide; congruence.
  - apply NoDup_cons in Hnd as [Hk Hnd].
    case_decide; [|by apply IH]. subst k0.
    exfalso. apply Hk. apply list_elem_of_In, in_map_iff. by exists (k, vs).
Qed.

Lemma filed_under_absent {K V} `{EqDecision K} (k : K) (m : list (K * list V)) :
  ~ In k (map fst m) -> filed_under k m = [].
Proof.
  induction m as [|[k0 vs0] m IH]; simpl; [reflexivity|].
  intros Hn. case_decide; [subst; tauto|]. apply IH. tauto.
Qed.

(** the loop of [group_by_day] after the entries [done_] *)
Lemma group_by_day_loop now todo : forall done_ grouped grouped',
  NoDup (map fst grouped) ->
  (forall k, filed_under k grouped = filter (fun e => day_label now e = k) done_) ->
  (forall k, In k (map fst grouped) <-> filed_under k grouped <> []) ->
  rfold (fun grouped entry =>
           let* dt := App._parse_time now (time entry) in
           let label := match dt with
                        | Some d => Cal.day_name (Cal.dt_date d)
                        | None => "Unknown Day"
                        end in
           Ok (group_add label entry grouped)) todo grouped = Ok grouped' ->
  NoDup (map fst grouped')
  /\ (forall k, filed_under k grouped' = filter (fun e => day_label now e = k) (done_ ++ todo))
  /\ (forall k, In k (map fst grouped') <-> filed_under k grouped' <> []).
Proof.
  induction todo as [|x todo IH]; intros done_ grouped grouped' Hnd Hf Hk; simpl.
  - intros [= <-]. by rewrite app_nil_r.
  - destruct (App._parse_time now (time x)) as [dt|] eqn:E; simpl; [|discriminate].
    intros H.
    assert (match dt with Some d => Cal.day_name (Cal.dt_date d) | None => "Unknown Day" end
            = day_label now x) as Hl.
    { unfold day_label. rewrite E. reflexivity. }
    rewrite Hl in H.
    replace (done_ ++ x :: todo) with ((done_ ++ [x]) ++ todo) by (by rewrite <- app_assoc).
    apply (IH (done_ ++ [x]) (group_add (day_label now x) x grouped) grouped');
      [by apply keys_group_add_nodup| | |exact H].
    + intros k. rewrite filed_under_group_add, filter_app, Hf.
      destruct (decide (k = day_label now x)) as [->|Hne].
      * by rewrite filter_cons_True.
      * rewrite filter_cons_False by congruence. by rewrite app_nil_r.
    + intros k. rewrite in_keys_group_add, filed_under_group_add, Hk.
      destruct (decide (k = day_label now x)) as [->|Hne].
      * split; [intros _ | by left]. by destruct (filed_under _ grouped).
      * split; [intros [?|?]; [congruence | assumption] | by right].
Qed.

Lemma group_by_day_raise_iff now data : forall grouped,
  (exists e, rfold (fun grouped entry =>
                      let* dt := App._parse_time now (time entry) in
                      let label := match dt with
                                   | Some d => Cal.day_name (Cal.dt_date d)
                                   | None => "Unknown Day"
                                   end in
                      Ok (group_add label entry grouped)) data grouped = Raise e)
  <-> exists s, In s data /\ App._parse_time now (time s) = Raise ValueError.
Proof.
  induction data as [|x data IH]; intros grouped; simpl.
  - split; [intros [e H]; discriminate | intros (s & [] & _)].
  - destruct (App._parse_time now (time x)) as [dt|e] eqn:E; simpl.
    + rewrite IH. split.
      * intros (s & Hs & H). eauto.
      * intros (s & [<-|Hs] & H); [congruence | eauto].
    + split; [|eauto]. intros _. exists x.
      pose proof (parse_time_raises_value_error _ _ _ E) as ->. auto.
Qed.

(** X6. [group_by_day] files every entry once. When it returns, the
    headings are pairwise different, the list under a heading holds exactly
    the entries of the data with that heading, in the order of the data
    (the heading of an entry is the name of the day of its time, or
    "Unknown Day" when no time is read), no list is empty and every entry
    is under its heading. It raises exactly when reading the time of some
    entry raises. *)
Theorem group_by_day_files_each_entry_once (now : Cal.datetime) (data : list Slot) :
  (forall grouped,
     App.group_by_day now data = Ok grouped ->
     NoDup (map fst grouped)
     /\ (forall k entries, In (k, entries) grouped ->
           entries <> [] /\ entries = filter (fun e => day_label now e = k) data)
     /\ (forall e, In e data -> exists entries, In (day_label now e, entries) grouped
                                                /\ In e entries))
  /\ ((exists e, App.group_by_day now data = Raise e)
      <-> exists s, In s data /\ App._parse_time now (time s) = Raise ValueError).
Proof.
  split; [|apply group_by_day_raise_iff].
  intros grouped H. unfold App.group_by_day in H.
  destruct (group_by_day_loop now data [] [] grouped (NoDup_nil_2) (fun k => eq_refl)
              (fun k => conj (fun F : In k [] => match F with end)
                             (fun F : @nil Slot <> [] => match F eq_refl with end)) H)
    as (Hnd & Hf & Hk).
  simpl in Hf.
  assert (forall k entries, In (k, entries) grouped ->
            entries <> [] /\ entries = filter (fun e => day_label now e = k) data) as Hin.
  { intros k entries Hke. pose proof (filed_under_in _ _ _ Hnd Hke) as Hfu. split.
    - rewrite <- Hfu. apply Hk, in_map_iff. by exists (k, entries).
    - by rewrite <- Hf. }
  split; [exact Hnd|]. split; [exact Hin|].
  intros e He.
  assert (In e (filter (fun e' => day_label now e' = day_label now e) data)) as Hfe.
  { apply list_elem_of_In, list_elem_of_filter. split; [reflexivity | by apply list_elem_of_In]. }
  assert (In (day_label now e) (map fst grouped)) as Hkey.
  { apply Hk. rewrite Hf. intros Hnil. rewrite Hnil in Hfe. destruct Hfe. }
  apply in_map_iff in Hkey as ([k entries] & Hfst & Hke). cbn [fst] in Hfst. subst k.
  exists entries. split; [exact Hke|]. by rewrite (proj2 (Hin _ _ Hke)).
Qed.

Lemma group_by_day_files_each_entry_once_witness :
  exists grouped,
    App.group_by_day sample_now pair_and_single = Ok grouped
    /\ NoDup (map fst grouped)
    /\ (forall k entries, In (k, entries) grouped ->
          entries <> []
          /\ entries = filter (fun e => day_label sample_now e = k) pair_and_single)
    /\ (forall e, In e pair_and_single ->
          exists entries, In (day_label sample_now e, entries) grouped /\ In e entries).
Proof.
  eexists. split; [vm_compute; reflexivity|].
  apply (proj1 (group_by_day_files_each_entry_once sample_now pair_and_single)).
  vm_compute. reflexivity.
Defined.

(** *** The two lists of next slots *)

Lemma in_enumerate_from_iff {A} (l : list A) : forall n i x,
  In (i, x) (enumerate_from n l) <-> n <= i /\ l !! (i - n) = Some x.
Proof.
  induction l as [|a l IH]; intros n i x; simpl.
  - split; [tauto | intros [_ H]; discriminate].
  - rewrite IH. split.
    + intros [[= <- <-]|[Hle Hl]].
      * split; [lia|]. by rewrite Nat.sub_diag.
      * split; [lia|]. replace (i - n) with (S (i - S n)) by lia. exact Hl.
    + intros [Hle Hl]. destruct (decide (i = n)) as [->|Hne].
      * left. rewrite Nat.sub_diag in Hl. simpl in Hl. congruence.
      * right. split; [lia|]. replace (i - n) with (S (i - S n)) in Hl by lia. exact Hl.
Qed.

Lemma in_enumerate_iff {A} (l : list A) i x : In (i, x) (enumerate l) <-> l !! i = Some x.
Proof.
  unfold enumerate. rewrite in_enumerate_from_iff, Nat.sub_0_r. split; [tauto|].
  intros H. split; [lia | exact H].
Qed.

Lemma in_enumerated {A} (l : list A) x : In x l -> exists i, In (i, x) (enumerate l).
Proof.
  intros H%list_elem_of_In%list_elem_of_lookup_1. destruct H as [i Hi].
  exists i. by apply in_enumerate_iff.
Qed.

(** an hour later is another hour of another or the same day *)
Lemma add_hour_other_hour dt next_hour :
  Cal.add_hour dt = Ok next_hour -> App.same_date_hour dt next_hour = false.
Proof.
  unfold Cal.add_hour, App.same_date_hour. destruct (Cal.hour dt <? 23)%Z eqn:E.
  - intros [= <-]. cbn [Cal.hour]. apply andb_false_iff. right. apply Z.eqb_neq. lia.
  - destruct (Cal.next_day _); [|discriminate]. intros [= <-]. cbn [Cal.hour].
    apply Z.ltb_ge in E. apply andb_false_iff. right. apply Z.eqb_neq. lia.
Qed.

Lemma two_hour_loop_cons parsed i item dt rest two_hour_slots seen_pairs :
  App.two_hour_loop parsed ((i, (item, dt)) :: rest) two_hour_slots seen_pairs
  = rbind (Cal.add_hour dt) (fun next_hour =>
    rbind (match find (fun o : nat * (Slot * Cal.datetime) =>
                         negb (i =? fst o)%nat
                         && String.eqb (court item) (court (fst (snd o)))
                         && App.same_date_hour (snd (snd o)) next_hour
                         && negb (bool_decide ((dt, snd (snd o), court item) ∈ seen_pairs)))
                      (enumerate parsed) with
           | Some (j, (other_item, other_dt)) =>
               rbind (Cal.add_hour other_dt) (fun end_time =>
               Ok (two_hour_slots ++
                     [ (i, j, {| App.th_court := court item;
                                 App.th_start_time := time item;
                                 App.th_end_time := time other_item;
                                 App.th_formatted_time := App._format_time_range dt end_time;
                                 App.th_status := "Open (2 hours)";
                                 App.th_link := link item |}) ],
                   seen_pairs ∪ {[ (dt, other_dt, court item) ]}))
           | None => Ok (two_hour_slots, seen_pairs)
           end) (fun st =>
    if (3 <=? length (fst st))%nat then Ok (fst st)
    else App.two_hour_loop parsed rest (fst st) (snd st))).
Proof. reflexivity. Qed.

Ltac loop_step next j other odt end_ En Ef Ee :=
  rewrite two_hour_loop_cons;
  destruct (Cal.add_hour _) as [next|] eqn:En; cbn [rbind]; [|discriminate];
  destruct (find _ _) as [[j [other odt]]|] eqn:Ef; cbn [rbind];
  [ destruct (Cal.add_hour odt) as [end_|] eqn:Ee; cbn [rbind fst snd]; [|discriminate]
  | cbn [fst snd] ].

Ltac case_break :=
  match goal with
  | |- context [(3 <=? ?n)%nat] => destruct (3 <=? n)%nat eqn:?
  end.

Lemma two_hour_loop_extends parsed todo : forall acc seen r,
  App.two_hour_loop parsed todo acc seen = Ok r -> exists ext, r = acc ++ ext.
Proof.
  induction todo as [|[i [item dt]] todo IH]; intros acc seen r.
  - intros [= <-]. exists []. by rewrite app_nil_r.
  - loop_step next j other odt end_ En Ef Ee.
    + case_break.
      * intros [= <-]. eauto.
      * intros H. destruct (IH _ _ _ H) as [ext ->]. rewrite <- app_assoc. eauto.
    + case_break.
      * intros [= <-]. exists []. by rewrite app_nil_r.
      * apply IH.
Qed.

(** every block of the loop is made of two records of the sorted list *)
Lemma two_hour_loop_sound parsed todo : forall acc seen r,
  (forall x, In x todo -> In x (enumerate parsed)) ->
  App.two_hour_loop parsed todo acc seen = Ok r ->
  forall p, In p r ->
    In p acc
    \/ exists i j item dt other odt next end_,
         In (i, (item, dt)) (enumerate parsed) /\ In (j, (other, odt)) (enumerate parsed)
         /\ court item = court other
         /\ Cal.add_hour dt = Ok next /\ App.same_date_hour odt next = true
         /\ Cal.add_hour odt = Ok end_
         /\ p = (i, j, {| App.th_court := court item;
                          App.th_start_time := time item;
                          App.th_end_time := time other;
                          App.th_formatted_time := App._format_time_range dt end_;
                          App.th_status := "Open (2 hours)";
                          App.th_link := link item |}).
Proof.
  induction todo as [|[i [item dt]] todo IH]; intros acc seen r Htodo.
  - intros [= <-] p Hp. by left.
  - assert (forall x, In x todo -> In x (enumerate parsed)) as Htodo'
      by (intros x Hx; apply Htodo; by right).
    loop_step next j other odt end_ En Ef Ee.
    + apply find_some in Ef as [Hj Hpred]. cbn [fst snd] in Hpred.
      rewrite !andb_true_iff in Hpred. destruct Hpred as (((_ & Hc) & Hs) & _).
      apply String.eqb_eq in Hc.
      assert (forall p, In p (acc ++ [(i, j, {| App.th_court := court item;
                          App.th_start_time := time item;
                          App.th_end_time := time other;
                          App.th_formatted_time := App._format_time_range dt end_;
                          App.th_status := "Open (2 hours)";
                          App.th_link := link item |})]) ->
                In p acc \/ exists i j item dt other odt next end_,
         In (i, (item, dt)) (enumerate parsed) /\ In (j, (other, odt)) (enumerate parsed)
         /\ court item = court other
         /\ Cal.add_hour dt = Ok next /\ App.same_date_hour odt next = true
         /\ Cal.add_hour odt = Ok end_
         /\ p = (i, j, {| App.th_court := court item;
                          App.th_start_time := time item;
                          App.th_end_time := time other;
                          App.th_formatted_time := App._format_time_range dt end_;
                          App.th_status := "Open (2 hours)";
                          App.th_link := link item |})) as Hnew.
      { intros p [Hp|[<-|[]]]%in_app_or; [by left|]. right.
        exists i, j, item, dt, other, odt, next, end_.
        repeat split; try assumption. apply Htodo. by left. }
      case_break.
      * intros [= <-]. exact Hnew.
      * intros H p Hp. destruct (IH _ _ _ Htodo' H p Hp) as [Hacc|Hex]; [|by right].
        by apply Hnew.
    + case_break.
      * intros [= <-] p Hp. by left.
      * apply IH. exact Htodo'.
Qed.

(** a run of the loop that ends with no block found no partner for any
    record *)
Lemma two_hour_loop_empty parsed todo : forall seen,
  App.two_hour_loop parsed todo [] seen = Ok [] ->
  forall i item dt, In (i, (item, dt)) todo ->
    exists next, Cal.add_hour dt = Ok next
      /\ forall j other odt, In (j, (other, odt)) (enumerate parsed) ->
           negb (i =? j)%nat && String.eqb (court item) (court other)
           && App.same_date_hour odt next
           && negb (bool_decide ((dt, odt, court item) ∈ seen)) = false.
Proof.
  induction todo as [|[i0 [item0 dt0]] todo IH]; intros seen; [intros _ ? ? ? []|].
  loop_step next j other odt end_ En Ef Ee.
  - case_break.
    + intros [=].
    + intros H. apply two_hour_loop_extends in H as [ext H]. simpl in H. discriminate.
  - cbn [length]. change (3 <=? 0)%nat with false. cbv iota.
    intros H i item dt [[= <- <- <-]|Hin].
    + exists next. split; [exact En|]. intros j other odt Hj.
      exact (find_none _ _ Ef (j, (other, odt)) Hj).
    + exact (IH _ H i item dt Hin).
Qed.

Lemma two_hour_loop_none parsed todo : forall seen,
  (forall i item dt, In (i, (item, dt)) todo ->
     exists next, Cal.add_hour dt = Ok next
       /\ forall j other odt, In (j, (other, odt)) (enumerate parsed) ->
            String.eqb (court item) (court other) && App.same_date_hour odt next = false) ->
  App.two_hour_loop parsed todo [] seen = Ok [].
Proof.
  induction todo as [|[i0 [item0 dt0]] todo IH]; intros seen Hall; [reflexivity|].
  rewrite two_hour_loop_cons.
  destruct (Hall i0 item0 dt0 (or_introl eq_refl)) as (next & -> & Hnone). cbn [rbind].
  destruct (find _ _) as [[j [other odt]]|] eqn:Ef; cbn [rbind fst snd length].
  - exfalso. apply find_some in Ef as [Hj Hpred]. cbn [fst snd] in Hpred.
    rewrite !andb_true_iff in Hpred. destruct Hpred as (((_ & Hc) & Hs) & _).
    specialize (Hnone j other odt Hj). rewrite Hc, Hs in Hnone. discriminate.
  - change (3 <=? 0)%nat with false. cbv iota.
    apply IH. intros i item dt Hin. apply (Hall i item dt). by right.
Qed.

(** X7. [find_two_hour_slots] returns genuine pairs, and finds one when
    there is one. It returns at most three slots; each is made of two
    entries of the data on the same court whose times are read, the second
    in the hour after the first, and carries the court, the two time texts
    and the link of the first. It returns the empty list only when no
    court has an entry with another in the hour after it; and when there
    is no such pair (and no entry in the last year of the calendar) the
    empty list is what it returns. *)
Theorem two_hour_slots_are_pairs (now : Cal.datetime) (data : list Slot) :
  (forall slots,
     App.find_two_hour_slots now data = Ok slots ->
     length slots <= 3
     /\ forall b, In b slots ->
          exists item other, In item data /\ In other data /\ two_hour_slot_of now item other b)
  /\ (App.find_two_hour_slots now data = Ok [] ->
      forall item, In item data -> no_next_hour now data item)
  /\ (forall parsed,
        App.parse_and_sort now data = Ok parsed -> Forall before_last_year parsed ->
        (forall item, In item data -> no_next_hour now data item) ->
        App.find_two_hour_slots now data = Ok []).
Proof.
  unfold App.find_two_hour_slots, App.find_two_hour_pairs.
  split; [|split].
  - intros slots.
    destruct (App.parse_and_sort now data) as [parsed|] eqn:Ep; simpl; [|discriminate].
    destruct (App.two_hour_loop parsed (enumerate parsed) [] ∅) as [r|] eqn:El; simpl;
      [|discriminate].
    intros [= <-]. split.
    + rewrite length_map, length_take. lia.
    + intros b Hb. apply in_map_iff in Hb as ([[i j] b'] & <- & Hb). cbn [snd].
      apply list_elem_of_In, elem_of_take in Hb as (k & Hb & _).
      apply list_elem_of_lookup_2, list_elem_of_In in Hb.
      destruct (two_hour_loop_sound parsed _ _ _ _ (fun x H => H) El _ Hb)
        as [[]|(i' & j' & item & dt & other & odt & next & end_ & Hi & Hj & Hc & Hn & Hs & He & Hp)].
      injection Hp as -> -> ->.
      apply in_enumerate_iff, list_elem_of_lookup_2, list_elem_of_In in Hi, Hj.
      apply (in_parse_and_sort now data parsed _ _ Ep) in Hi as [Hi Hpi].
      apply (in_parse_and_sort now data parsed _ _ Ep) in Hj as [Hj Hpj].
      exists item, other. split; [exact Hi|]. split; [exact Hj|].
      exists dt, odt, next, end_. by repeat split.
  - destruct (App.parse_and_sort now data) as [parsed|] eqn:Ep; simpl; [|discriminate].
    destruct (App.two_hour_loop parsed (enumerate parsed) [] ∅) as [r|] eqn:El; simpl;
      [|discriminate].
    intros H. assert (r = []) as ->.
    { destruct r as [|p [|p2 [|p3 r]]]; [reflexivity|discriminate..]. }
    clear H. intros item Hitem dt next other odt Hpi Hn Hother Hpo Hc.
    assert (In (item, dt) parsed) as Hi by (by apply (in_parse_and_sort now data parsed _ _ Ep)).
    assert (In (other, odt) parsed) as Hj
      by (by apply (in_parse_and_sort now data parsed _ _ Ep)).
    apply in_enumerated in Hi as [i Hi]. apply in_enumerated in Hj as [j Hj].
    destruct (two_hour_loop_empty parsed _ _ El i item dt Hi) as (next' & Hn' & Hnone).
    rewrite Hn in Hn'. injection Hn' as <-.
    specialize (Hnone j other odt Hj).
    rewrite bool_decide_eq_false_2 in Hnone by apply not_elem_of_empty.
    rewrite Hc, String.eqb_refl in Hnone. cbn [negb] in Hnone.
    rewrite !andb_true_r in Hnone.
    destruct (App.same_date_hour odt next) eqn:Es; [|reflexivity].
    rewrite andb_true_r in Hnone. apply negb_false_iff, Nat.eqb_eq in Hnone. subst j.
    apply in_enumerate_iff in Hi, Hj. rewrite Hi in Hj. injection Hj as _ <-.
    rewrite (add_hour_other_hour _ _ Hn) in Es. discriminate.
  - intros parsed Ep Hyear Hno. rewrite Ep. simpl.
    rewrite (two_hour_loop_none parsed (enumerate parsed) ∅); [reflexivity|].
    intros i item dt Hi.
    apply in_enumerate_iff, list_elem_of_lookup_2 in Hi.
    rewrite Forall_forall in Hyear. pose proof (Hyear _ Hi) as Hy.
    destruct (add_hour_before_last_year dt Hy) as [next Hn].
    exists next. split; [exact Hn|]. intros j other odt Hj.
    apply in_enumerate_iff, list_elem_of_lookup_2, list_elem_of_In in Hj.
    apply list_elem_of_In in Hi.
    apply (in_parse_and_sort now data parsed _ _ Ep) in Hi as [Hi Hpi].
    apply (in_parse_and_sort now data parsed _ _ Ep) in Hj as [Hj Hpj].
    destruct (String.eqb (court item) (court other)) eqn:Ec; [|reflexivity].
    apply String.eqb_eq in Ec. cbn [andb].
    exact (Hno item Hi dt next other odt Hpi Hn Hj Hpj Ec).
Qed.

Lemma two_hour_slots_are_pairs_witness :
  exists slots,
    App.find_two_hour_slots sample_now pair_and_single = Ok slots
    /\ length slots <= 3
    /\ forall b, In b slots ->
         exists item other,
           In item pair_and_single /\ In other pair_and_single
           /\ two_hour_slot_of sample_now item other b.
Proof.
  eexists. split; [vm_compute; reflexivity|].
  apply (proj1 (two_hour_slots_are_pairs sample_now pair_and_single)).
  vm_compute. reflexivity.
Defined.

Lemma one_hour_step_sound parsed (Q : App.OneHourSlot -> Prop) st x st' :
  (forall item dt next,
     x = (item, dt) -> Cal.add_hour dt = Ok next ->
     existsb (fun o => App.same_date_hour (snd o) next
                       && String.eqb (court item) (court (fst o))) parsed = false ->
     Q {| App.oh_item := item; App.oh_formatted_time := App._format_single_time dt |}) ->
  Forall Q (fst st) ->
  App.one_hour_step parsed st x = Ok st' ->
  Forall Q (fst st').
Proof.
  intros HQ Hst. unfold App.one_hour_step. destruct st as [acc seen], x as [item dt].
  destruct (decide _); [by intros [= <-]|].
  destruct (Cal.add_hour dt) as [next|] eqn:En; cbn [rbind]; [|discriminate].
  destruct (existsb _ parsed) eqn:Ex.
  - by intros [= <-].
  - intros [= <-]. cbn [fst] in *. apply Forall_app. split; [exact Hst|].
    constructor; [|constructor]. by eapply HQ.
Qed.

(** X8. [find_one_hour_slots] returns only entries with no second hour. It
    returns at most three slots; each is an entry of the data whose time
    is read, shown with that time as formatted by [_format_single_time],
    and no entry of the same court is in the hour after it. *)
Theorem one_hour_slots_have_no_second_hour (now : Cal.datetime) (data : list Slot)
    (slots : list App.OneHourSlot) :
  App.find_one_hour_slots now data = Ok slots ->
  length slots <= 3
  /\ forall o, In o slots ->
       In (App.oh_item o) data
       /\ (exists dt, App._parse_time now (time (App.oh_item o)) = Ok (Some dt)
                      /\ App.oh_formatted_time o = App._format_single_time dt)
       /\ no_next_hour now data (App.oh_item o).
Proof.
  unfold App.find_one_hour_slots.
  destruct (App.parse_and_sort now data) as [parsed|] eqn:Ep; cbn [rbind]; [|discriminate].
  destruct (rfold (App.one_hour_step parsed) parsed ([], ∅)) as [st|] eqn:Er; cbn [rbind];
    [|discriminate].
  intros [= <-]. split; [rewrite length_take; lia|].
  set (Q := fun o : App.OneHourSlot =>
              In (App.oh_item o) data
              /\ (exists dt, App._parse_time now (time (App.oh_item o)) = Ok (Some dt)
                             /\ App.oh_formatted_time o = App._format_single_time dt)
              /\ no_next_hour now data (App.oh_item o)).
  assert (Forall Q (fst st)) as Hall.
  { pattern st. eapply rfold_invariant; [| |exact Er]; [|by constructor].
    intros s x s' Hx Hs Hstep. eapply one_hour_step_sound; [|exact Hs|exact Hstep].
    intros item dt next -> Hn Hex.
    apply (in_parse_and_sort now data parsed _ _ Ep) in Hx as [Hitem Hp].
    unfold Q. cbn [App.oh_item App.oh_formatted_time].
    split; [exact Hitem|]. split; [by exists dt|].
    intros dt' next' other odt Hp' Hn' Hother Hpo Hc.
    rewrite Hp in Hp'. injection Hp' as <-. rewrite Hn in Hn'. injection Hn' as <-.
    assert (In (other, odt) parsed) as Ho
      by (by apply (in_parse_and_sort now data parsed _ _ Ep)).
    rewrite <- not_true_iff_false, existsb_exists in Hex.
    destruct (App.same_date_hour odt next) eqn:Es; [|reflexivity].
    exfalso. apply Hex. exists (other, odt). split; [exact Ho|]. cbn [fst snd].
    by rewrite Es, Hc, String.eqb_refl. }
  intros o Ho. rewrite Forall_forall in Hall. apply Hall.
  apply list_elem_of_In, elem_of_take in Ho as (k & Ho & _).
  by apply list_elem_of_lookup_2 in Ho.
Qed.

Lemma one_hour_slots_have_no_second_hour_witness :
  exists slots,
    App.find_one_hour_slots sample_now pair_and_single = Ok slots
    /\ length slots <= 3
    /\ forall o, In o slots ->
         In (App.oh_item o) pair_and_single
         /\ (exists dt, App._parse_time sample_now (time (App.oh_item o)) = Ok (Some dt)
                        /\ App.oh_formatted_time o = App._format_single_time dt)
         /\ no_next_hour sample_now pair_and_single (App.oh_item o).
Proof.
  eexists. split; [vm_compute; reflexivity|].
  apply (one_hour_slots_have_no_second_hour sample_now pair_and_single).
  vm_compute. reflexivity.
Defined.

(** *** The calendar *)

Lemma grouped_values_group_add {K V} `{EqDecision K} (k : K) (v : V) m :
  Permutation (grouped_values (group_add k v m)) (v :: grouped_values m).
Proof.
  unfold grouped_values. induction m as [|[k' vs] m IH]; simpl; [reflexivity|].
  destruct (decide (k = k')); simpl.
  - rewrite <- app_assoc. simpl. symmetry. apply Permutation_middle.
  - rewrite IH. symmetry. apply Permutation_middle.
Qed.

Lemma group_blocks_fold_perm (blocks : list (nat * nat * App.Block)) : forall m,
  Permutation
    (grouped_values
       (fold_left (fun m slot =>
                     group_add (Cal.dt_date (App.b_start (snd slot)),
                                Cal.hour (App.b_start (snd slot))) slot m) blocks m))
    (grouped_values m ++ blocks).
Proof.
  induction blocks as [|b blocks IH]; intros m; simpl.
  - by rewrite app_nil_r.
  - rewrite IH, grouped_values_group_add. simpl. apply Permutation_middle.
Qed.

Lemma group_blocks_perm blocks :
  Permutation (grouped_values (App.group_blocks blocks)) blocks.
Proof. unfold App.group_blocks. by rewrite group_blocks_fold_perm. Qed.

Lemma group_singles_fold_perm (processed : gset nat)
    (xs : list (nat * (Slot * Cal.datetime))) : forall m,
  Permutation
    (grouped_values
       (fold_left (fun m x =>
                     let '(i, (item, dt)) := x in
                     if decide (i ∈ processed) then m
                     else group_add (Cal.dt_date dt, Cal.hour dt) (i, item) m) xs m))
    (grouped_values m
     ++ map (fun x => (fst x, fst (snd x))) (filter (fun x => fst x ∉ processed) xs)).
Proof.
  induction xs as [|[i [item dt]] xs IH]; intros m; simpl.
  - by rewrite app_nil_r.
  - rewrite IH. destruct (decide (i ∈ processed)) as [Hin|Hnin].
    + rewrite filter_cons_False by (cbn [fst]; tauto). reflexivity.
    + rewrite filter_cons_True by (cbn [fst]; tauto).
      rewrite grouped_values_group_add. simpl. apply Permutation_middle.
Qed.

Lemma group_singles_perm parsed (processed : gset nat) :
  Permutation (grouped_values (App.group_singles parsed processed))
    (map (fun x => (fst x, fst (snd x)))
         (filter (fun x => fst x ∉ processed) (enumerate parsed))).
Proof. unfold App.group_singles. by rewrite group_singles_fold_perm. Qed.

Lemma rmap_forall2 {A B} (f : A -> result B) l ys :
  rmap f l = Ok ys -> Forall2 (fun x y => f x = Ok y) l ys.
Proof.
  revert ys. induction l as [|x l IH]; intros ys; simpl.
  - intros [= <-]. constructor.
  - destruct (f x) as [y|] eqn:E; simpl; [|discriminate].
    destruct (rmap f l) as [ys0|]; simpl; [|discriminate].
    intros [= <-]. constructor; [exact E | by apply IH].
Qed.

Lemma two_hour_events_sources groups two :
  rmap App.two_hour_event groups = Ok two ->
  flat_map App.ev_sources two = block_sources (grouped_values groups).
Proof.
  intros H%rmap_forall2. unfold grouped_values, block_sources.
  induction H as [|g e groups two Hev _ IH]; [reflexivity|].
  simpl. rewrite flat_map_app, IH.
  apply two_hour_event_sources in Hev as [_ ->]. reflexivity.
Qed.

Lemma one_hour_events_sources now groups one :
  rmap (App.one_hour_event now) groups = Ok one ->
  Forall (fun o => o <> None) one ->
  flat_map App.ev_sources (omap id one) = map fst (grouped_values groups).
Proof.
  intros H%rmap_forall2 Hsome. unfold grouped_values.
  induction H as [|g o groups one Hev _ IH]; [reflexivity|].
  apply Forall_cons in Hsome as [Ho Hsome].
  destruct o as [e|]; [|congruence]. simpl. rewrite map_app, <- (IH Hsome).
  apply one_hour_event_sources in Hev as [_ ->]. reflexivity.
Qed.

(** the first record of a one-hour group has a time that is read: the
    [continue] of the loop over the one-hour groups is never taken *)
Lemma one_hour_event_is_some now data parsed processed g o :
  App.parse_and_sort now data = Ok parsed ->
  In g (App.group_singles parsed processed) ->
  App.one_hour_event now g = Ok o -> o <> None.
Proof.
  intros Ep Hg. unfold App.one_hour_event.
  destruct (App.sorted_courts _); cbn [rbind]; [|discriminate].
  destruct (rmap App.last_word _); cbn [rbind]; [|discriminate].
  destruct (snd g) as [|first_item rest] eqn:Eg; [discriminate|].
  destruct (in_group_singles parsed processed g first_item Hg) as [_ [dt Hin]];
    [rewrite Eg; by left|].
  apply in_enumerate_iff, list_elem_of_lookup_2, list_elem_of_In in Hin.
  apply (in_parse_and_sort now data parsed _ _ Ep) in Hin as [_ Hp].
  rewrite Hp. cbn [rbind].
  destruct (Cal.add_hour dt); cbn [rbind]; [|discriminate].
  intros [= <-]. discriminate.
Qed.

Lemma events_sources_perm now data parsed st events :
  App.parse_and_sort now data = Ok parsed ->
  App.pairing parsed = Ok st ->
  App.events_of now parsed st = Ok events ->
  Permutation (flat_map App.ev_sources events) (seq 0 (length parsed)).
Proof.
  intros Ep Est. unfold App.events_of.
  destruct (rmap App.two_hour_event _) as [two|] eqn:E2; cbn [rbind]; [|discriminate].
  destruct (rmap (App.one_hour_event now) _) as [one|] eqn:E1; cbn [rbind]; [|discriminate].
  intros [= <-]. rewrite flat_map_app.
  rewrite (two_hour_events_sources _ _ E2).
  rewrite (one_hour_events_sources now _ _ E1).
  2:{ apply Forall_forall. intros o Ho%list_elem_of_In.
      destruct (in_rmap _ _ _ _ E1 Ho) as (g & Hg & Hev).
      exact (one_hour_event_is_some now data parsed _ g o Ep Hg Hev). }
  destruct (pairing_invariant parsed st Est) as (Hnd & Hsrc & Hrange).
  assert (Permutation (block_sources (grouped_values (App.group_blocks (fst st))))
                      (block_sources (fst st))) as ->.
  { unfold block_sources. apply Permutation_flat_map, group_blocks_perm. }
  rewrite (group_singles_perm parsed (snd st)), map_map. cbn [fst].
  apply list.NoDup_Permutation.
  - apply NoDup_app. split; [exact Hnd|]. split.
    + intros k Hk Hk'. apply list_elem_of_In, in_map_iff in Hk' as (x & <- & Hx).
      apply list_elem_of_In, list_elem_of_filter in Hx as [Hx _].
      apply Hx, Hsrc. by apply list_elem_of_In.
    + apply (nodup_map_filter fst (fun x => fst x ∉ snd st)), enumerate_labels_nodup.
  - apply NoDup_seq.
  - intros k. rewrite !list_elem_of_In, in_app_iff, in_seq. split.
    + intros [Hk|Hk].
      * apply Hsrc, Hrange in Hk. lia.
      * apply in_map_iff in Hk as ([i x] & <- & Hx).
        apply list_elem_of_In, list_elem_of_filter in Hx as [_ Hx].
        apply list_elem_of_In, in_enumerate, lookup_lt_Some in Hx. cbn [fst]. lia.
    + intros Hk. destruct (decide (k ∈ snd st)) as [Hin|Hnin].
      * left. by apply Hsrc.
      * right. destruct (lookup_lt_is_Some_2 parsed k ltac:(lia)) as [x Hx].
        apply in_map_iff. exists (k, x). split; [reflexivity|].
        apply list_elem_of_In, list_elem_of_filter. split; [exact Hnin|].
        by apply list_elem_of_In, in_enumerate_iff.
Qed.

(** X9. The calendar shows every record once. The events returned by
    [group_slots_by_time_block] use every entry whose time is read in
    exactly one event: the positions of the sorted list that the events
    were built from are, together, the positions of the list, each
    once. The court of an entry is among the courts of its event. *)
Theorem calendar_shows_every_record_once (now : Cal.datetime) (data : list Slot)
    (parsed : list (Slot * Cal.datetime)) (events : list App.Event) :
  App.parse_and_sort now data = Ok parsed ->
  App.group_slots_by_time_block now data = Ok events ->
  Permutation (flat_map App.ev_sources events) (seq 0 (length parsed))
  /\ forall k item dt,
       parsed !! k = Some (item, dt) ->
       exists e, In e events /\ In k (App.ev_sources e) /\ In (court item) (App.ev_courts e).
Proof.
  intros Ep Hev. unfold App.group_slots_by_time_block in Hev. rewrite Ep in Hev.
  cbn [rbind] in Hev.
  destruct (App.pairing parsed) as [st|] eqn:Est; cbn [rbind] in Hev; [|discriminate].
  pose proof (events_sources_perm now data parsed st events Ep Est Hev) as Hperm.
  split; [exact Hperm|].
  intros k item dt Hk.
  assert (In k (flat_map App.ev_sources events)) as Hin.
  { apply (Permutation_in _ (Permutation_sym Hperm)), in_seq.
    apply lookup_lt_Some in Hk. lia. }
  apply in_flat_map in Hin as (e & He & Hke).
  exists e. split; [exact He|]. split; [exact Hke|].
  apply (event_courts_are_source_courts now parsed st events e (court item) Est Hev He).
  exists k, item, dt. by repeat split.
Qed.

Lemma calendar_shows_every_record_once_witness :
  exists parsed events,
    App.parse_and_sort sample_now pair_and_single = Ok parsed
    /\ App.group_slots_by_time_block sample_now pair_and_single = Ok events
    /\ Permutation (flat_map App.ev_sources events) (seq 0 (length parsed))
    /\ forall k item dt,
         parsed !! k = Some (item, dt) ->
         exists e, In e events /\ In k (App.ev_sources e)
                   /\ In (court item) (App.ev_courts e).
Proof.
  eexists. eexists. split; [vm_compute; reflexivity|]. split; [vm_compute; reflexivity|].
  apply (calendar_shows_every_record_once sample_now pair_and_single);
    vm_compute; reflexivity.
Defined.

Lemma group_add_forall {K V} `{EqDecision K} (Q : K -> list V -> Prop) (k : K) (v : V) m :
  (forall k' vs, In (k', vs) m -> Q k' vs) ->
  Q k [v] -> (forall vs, Q k vs -> Q k (vs ++ [v])) ->
  forall k' vs, In (k', vs) (group_add k v m) -> Q k' vs.
Proof.
  intros Hm Hnew Happ. induction m as [|[k0 vs0] m IH]; simpl.
  - intros k' vs [[= <- <-]|[]]. exact Hnew.
  - destruct (decide (k = k0)) as [<-|Hne]; simpl.
    + intros k' vs [[= <- <-]|Hin].
      * apply Happ, Hm. by left.
      * apply Hm. by right.
    + intros k' vs [[= <- <-]|Hin].
      * apply Hm. by left.
      * apply IH; [|exact Hin]. intros k1 vs1 H1. apply Hm. by right.
Qed.

(** the groups of the two-hour blocks: one per day and hour, none empty,
    each holding blocks that start in its day and hour *)
Lemma group_blocks_groups blocks :
  NoDup (map fst (App.group_blocks blocks))
  /\ forall k vs, In (k, vs) (App.group_blocks blocks) ->
       vs <> [] /\ forall v, In v vs -> In v blocks /\ hour_key (App.b_start (snd v)) = k.
Proof.
  unfold App.group_blocks.
  assert (forall (l : list (nat * nat * App.Block)) m,
            NoDup (map fst m) ->
            (forall k vs, In (k, vs) m ->
               vs <> [] /\ forall v, In v vs -> In v blocks /\ hour_key (App.b_start (snd v)) = k) ->
            (forall v, In v l -> In v blocks) ->
            NoDup (map fst (fold_left (fun m slot =>
                     group_add (Cal.dt_date (App.b_start (snd slot)),
                                Cal.hour (App.b_start (snd slot))) slot m) l m))
            /\ forall k vs, In (k, vs) (fold_left (fun m slot =>
                     group_add (Cal.dt_date (App.b_start (snd slot)),
                                Cal.hour (App.b_start (snd slot))) slot m) l m) ->
                 vs <> [] /\ forall v, In v vs ->
                                In v blocks /\ hour_key (App.b_start (snd v)) = k) as H.
  { induction l as [|b l IH]; intros m Hnd Hm Hl; simpl; [by split|].
    apply IH.
    - by apply keys_group_add_nodup.
    - apply (group_add_forall
               (fun k vs => vs <> [] /\ forall v, In v vs ->
                              In v blocks /\ hour_key (App.b_start (snd v)) = k)).
      + exact Hm.
      + split; [discriminate|]. intros v [<-|[]]. split; [apply Hl; by left | reflexivity].
      + intros vs [Hne Hvs]. split; [by destruct vs|].
        intros v [Hv|[<-|[]]]%in_app_or; [by apply Hvs|].
        split; [apply Hl; by left | reflexivity].
    - intros v Hv. apply Hl. by right. }
  apply H; [constructor | intros k vs [] | auto].
Qed.

(** the groups of the remaining records: one per day and hour, none empty,
    each holding records of its day and hour that are in no block *)
Lemma group_singles_groups parsed (processed : gset nat) :
  NoDup (map fst (App.group_singles parsed processed))
  /\ forall k vs, In (k, vs) (App.group_singles parsed processed) ->
       vs <> [] /\ forall v, In v vs ->
                     (fst v ∉ processed)
                     /\ exists dt, parsed !! fst v = Some (snd v, dt) /\ hour_key dt = k.
Proof.
  unfold App.group_singles.
  assert (forall (l : list (nat * (Slot * Cal.datetime))) m,
            NoDup (map fst m) ->
            (forall k vs, In (k, vs) m ->
               vs <> [] /\ forall v, In v vs ->
                 (fst v ∉ processed)
                 /\ exists dt, parsed !! fst v = Some (snd v, dt) /\ hour_key dt = k) ->
            (forall x, In x l -> In x (enumerate parsed)) ->
            NoDup (map fst (fold_left (fun m x =>
                     let '(i, (item, dt)) := x in
                     if decide (i ∈ processed) then m
                     else group_add (Cal.dt_date dt, Cal.hour dt) (i, item) m) l m))
            /\ forall k vs, In (k, vs) (fold_left (fun m x =>
                     let '(i, (item, dt)) := x in
                     if decide (i ∈ processed) then m
                     else group_add (Cal.dt_date dt, Cal.hour dt) (i, item) m) l m) ->
                 vs <> [] /\ forall v, In v vs ->
                   (fst v ∉ processed)
                   /\ exists dt, parsed !! fst v = Some (snd v, dt) /\ hour_key dt = k) as H.
  { induction l as [|[i [item dt]] l IH]; intros m Hnd Hm Hl; simpl; [by split|].
    assert (forall x, In x l -> In x (enumerate parsed)) as Hl'
      by (intros x Hx; apply Hl; by right).
    assert (parsed !! i = Some (item, dt)) as Hi by (apply in_enumerate_iff, Hl; by left).
    destruct (decide (i ∈ processed)) as [Hin|Hnin]; [by apply IH|].
    apply IH; [by apply keys_group_add_nodup| |exact Hl'].
    apply (group_add_forall
             (fun k vs => vs <> [] /\ forall v, In v vs ->
                            (fst v ∉ processed)
                            /\ exists dt, parsed !! fst v = Some (snd v, dt) /\ hour_key dt = k)).
    - exact Hm.
    - split; [discriminate|]. intros v [<-|[]]. split; [exact Hnin|]. by exists dt.
    - intros vs [Hne Hvs]. split; [by destruct vs|].
      intros v [Hv|[<-|[]]]%in_app_or; [by apply Hvs|].
      split; [exact Hnin|]. by exists dt. }
  apply H; [constructor | intros k vs [] | auto].
Qed.

Lemma two_hour_event_start k vs e :
  App.two_hour_event (k, vs) = Ok e ->
  exists first_slot rest,
    vs = first_slot :: rest
    /\ App.ev_start e = App.b_start (snd first_slot)
    /\ App.ev_end e = App.b_end (snd first_slot)
    /\ App.ev_link e = App.b_link (snd first_slot)
    /\ App.ev_isTwoHour e = true.
Proof.
  unfold App.two_hour_event. cbn [snd].
  destruct (App.sorted_courts _); cbn [rbind]; [|discriminate].
  destruct (rmap App.last_word _); cbn [rbind]; [|discriminate].
  destruct vs as [|first_slot rest]; [discriminate|].
  intros [= <-]. exists first_slot, rest. by repeat split.
Qed.

Lemma one_hour_event_start now k vs e :
  App.one_hour_event now (k, vs) = Ok (Some e) ->
  exists first_item rest,
    vs = first_item :: rest
    /\ App._parse_time now (time (snd first_item)) = Ok (Some (App.ev_start e))
    /\ Cal.add_hour (App.ev_start e) = Ok (App.ev_end e)
    /\ App.ev_link e = link (snd first_item)
    /\ App.ev_isTwoHour e = false.
Proof.
  unfold App.one_hour_event. cbn [snd].
  destruct (App.sorted_courts _); cbn [rbind]; [|discriminate].
  destruct (rmap App.last_word _); cbn [rbind]; [|discriminate].
  destruct vs as [|first_item rest]; [discriminate|].
  destruct (App._parse_time now _) as [[start_dt|]|] eqn:Ep; cbn [rbind]; try discriminate.
  destruct (Cal.add_hour start_dt) as [end_dt|] eqn:Ee; cbn [rbind]; [|discriminate].
  intros [= <-]. exists first_item, rest. cbn. by repeat split.
Qed.

Lemma parsed_record_time now data parsed k item dt :
  App.parse_and_sort now data = Ok parsed ->
  parsed !! k = Some (item, dt) ->
  App._parse_time now (time item) = Ok (Some dt).
Proof.
  intros Ep Hk. apply list_elem_of_lookup_2, list_elem_of_In in Hk.
  by apply (in_parse_and_sort now data parsed _ _ Ep) in Hk as [_ Hp].
Qed.

(** where the events are placed: an event of each kind starts in the day
    and hour of its group *)
Lemma two_hour_event_place blocks g e :
  In g (App.group_blocks blocks) -> App.two_hour_event g = Ok e ->
  event_place e = (true, fst g).
Proof.
  destruct g as [k vs]. intros Hg Hev.
  destruct (two_hour_event_start _ _ _ Hev) as (first_slot & rest & -> & Hs & _ & _ & Ht).
  destruct (proj2 (group_blocks_groups blocks) _ _ Hg) as [_ Hvs].
  destruct (Hvs first_slot (or_introl eq_refl)) as [_ Hk].
  unfold event_place. by rewrite Ht, Hs, Hk.
Qed.

Lemma one_hour_event_place now data parsed processed g e :
  App.parse_and_sort now data = Ok parsed ->
  In g (App.group_singles parsed processed) -> App.one_hour_event now g = Ok (Some e) ->
  event_place e = (false, fst g).
Proof.
  destruct g as [k vs]. intros Ep Hg Hev.
  destruct (one_hour_event_start _ _ _ _ Hev) as (first_item & rest & -> & Hs & _ & _ & Ht).
  destruct (proj2 (group_singles_groups parsed processed) _ _ Hg) as [_ Hvs].
  destruct (Hvs first_item (or_introl eq_refl)) as [_ (dt & Hdt & Hk)].
  rewrite (parsed_record_time now data parsed _ _ _ Ep Hdt) in Hs. injection Hs as Hs.
  unfold event_place. by rewrite Ht, <- Hs, Hk.
Qed.

Lemma NoDup_map_pair {A B} (b : B) (l : list A) : NoDup l -> NoDup (map (pair b) l).
Proof.
  intros H. apply NoDup_fmap_2; [|exact H]. by intros x y [= ->].
Qed.

(** X10. One event per hour and kind. Of the events returned by
    [group_slots_by_time_block] no two of the same kind (two-hour,
    one-hour) start in the same hour of the same day: the courts free at
    one time are shown in one event. *)
Theorem one_event_per_hour_and_kind (now : Cal.datetime) (data : list Slot)
    (events : list App.Event) :
  App.group_slots_by_time_block now data = Ok events ->
  NoDup (map event_place events).
Proof.
  unfold App.group_slots_by_time_block.
  destruct (App.parse_and_sort now data) as [parsed|] eqn:Ep; cbn [rbind]; [|discriminate].
  destruct (App.pairing parsed) as [st|] eqn:Est; cbn [rbind]; [|discriminate].
  unfold App.events_of.
  destruct (rmap App.two_hour_event _) as [two|] eqn:E2; cbn [rbind]; [|discriminate].
  destruct (rmap (App.one_hour_event now) _) as [one|] eqn:E1; cbn [rbind]; [|discriminate].
  intros [= <-]. rewrite map_app.
  assert (map event_place two = map (pair true) (map fst (App.group_blocks (fst st)))) as ->.
  { apply rmap_forall2 in E2. revert E2.
    generalize (fun g => two_hour_event_place (fst st) g).
    generalize (App.group_blocks (fst st)). intros groups Hplace E2.
    induction E2 as [|g e groups two Hev _ IH]; [reflexivity|]. simpl.
    rewrite (Hplace g e (or_introl eq_refl) Hev), IH; [reflexivity|].
    intros g' e' Hg'. apply Hplace. by right. }
  assert (map event_place (omap id one)
          = map (pair false) (map fst (App.group_singles parsed (snd st)))) as ->.
  { assert (Forall (fun o => o <> None) one) as Hsome.
    { apply Forall_forall. intros o Ho%list_elem_of_In.
      destruct (in_rmap _ _ _ _ E1 Ho) as (g & Hg & Hev).
      exact (one_hour_event_is_some now data parsed _ g o Ep Hg Hev). }
    apply rmap_forall2 in E1. revert E1 Hsome.
    generalize (fun g => one_hour_event_place now data parsed (snd st) g).
    generalize (App.group_singles parsed (snd st)). intros groups Hplace E1.
    induction E1 as [|g o groups one Hev _ IH]; [reflexivity|].
    intros [Ho Hsome]%Forall_cons. destruct o as [e|]; [|congruence].
    change (omap id (Some e :: one)) with (e :: omap id one). cbn [map].
    rewrite (Hplace g e Ep (or_introl eq_refl) Hev), IH; [reflexivity| |exact Hsome].
    intros g' e' Ep' Hg'. apply Hplace; [exact Ep' | by right]. }
  apply NoDup_app. split; [|split].
  - apply NoDup_map_pair, group_blocks_groups.
  - intros x Hx Hx'. apply list_elem_of_In, in_map_iff in Hx as (k & <- & _).
    apply list_elem_of_In, in_map_iff in Hx' as (k' & [=] & _).
  - apply NoDup_map_pair, group_singles_groups.
Qed.

Lemma one_event_per_hour_and_kind_witness :
  exists events,
    App.group_slots_by_time_block sample_now pair_and_single = Ok events
    /\ NoDup (map event_place events).
Proof.
  eexists. split; [vm_compute; reflexivity|].
  apply (one_event_per_hour_and_kind sample_now pair_and_single).
  vm_compute. reflexivity.
Defined.

Lemma parse_time_seconds now s dt :
  App._parse_time now s = Ok (Some dt) -> Cal.second dt = 0%Z /\ Cal.microsecond dt = 0%Z.
Proof.
  unfold App._parse_time. destruct (String.eqb s ""); [discriminate|].
  destruct (Strptime.first_format _ _) as [[dt'|]|] eqn:E; cbn [rbind]; [| |discriminate].
  - intros [= ->]. apply first_format_some_in in E as (fmt & _ & E).
    unfold Strptime.strptime in E. destruct (Re.match_to_end _ _) as [found|]; [|discriminate].
    unfold Cal.mk_datetime in E. destruct (Cal.mk_date _ _ _); [|discriminate].
    cbn [rbind] in E. destruct (Cal.valid_time _ _); [|discriminate].
    by injection E as <-.
  - destruct (Re.search App.clock_re s) as [[[h m] ap]|]; [|discriminate].
    unfold Cal.replace_time. destruct (Cal.valid_time _ _); cbn [rbind]; [|discriminate].
    by intros [= <-].
Qed.

Lemma add_hour_keeps_minute dt dt' :
  Cal.add_hour dt = Ok dt' ->
  Cal.minute dt' = Cal.minute dt /\ Cal.second dt' = Cal.second dt
  /\ Cal.microsecond dt' = Cal.microsecond dt.
Proof.
  unfold Cal.add_hour. destruct (Cal.hour dt <? 23)%Z; [by intros [= <-]|].
  destruct (Cal.next_day _); cbn [rbind]; [|discriminate]. by intros [= <-].
Qed.

Lemma same_date_hour_key a b : App.same_date_hour a b = true -> hour_key a = hour_key b.
Proof.
  unfold App.same_date_hour, hour_key. intros [Hd Hh]%andb_true_iff.
  apply bool_decide_eq_true in Hd. apply Z.eqb_eq in Hh. by rewrite Hd, Hh.
Qed.

Lemma datetime_of_key a b :
  hour_key a = hour_key b -> Cal.minute a = Cal.minute b ->
  Cal.second a = Cal.second b -> Cal.microsecond a = Cal.microsecond b -> a = b.
Proof.
  destruct a, b. unfold hour_key. cbn. intros [= -> ->] -> -> ->. reflexivity.
Qed.

(** the times of a block: it starts with the first of its two records, the
    second record is in the hour after the first, and the block ends an
    hour after the second *)
Lemma pairing_blocks_times parsed st :
  App.pairing parsed = Ok st ->
  forall i j b, In (i, j, b) (fst st) ->
  exists item dt other_item other_dt next_hour,
    parsed !! i = Some (item, dt) /\ parsed !! j = Some (other_item, other_dt)
    /\ App.b_start b = dt
    /\ Cal.add_hour dt = Ok next_hour
    /\ App.same_date_hour other_dt next_hour = true
    /\ Cal.add_hour other_dt = Ok (App.b_end b).
Proof.
  unfold App.pairing, App.pairing_on. intros H. pattern st.
  eapply rfold_invariant; [| |exact H]; [|intros ? ? ? []].
  intros [blocks P] [i0 [item dt]] st' Hx IH Hstep.
  apply pairing_step_inversion in Hstep
    as [->|(nh & j0 & oitem & odt & end_ & _ & Hnext & F & Hj & _ & _ & _ & Hend & ->)];
    [exact IH|].
  intros i j b. cbn [fst]. rewrite in_app_iff. intros [H'|[[= <- <- <-]|[]]].
  - by apply IH.
  - exists item, dt, oitem, odt, nh. apply in_enumerate in Hx, Hj.
    apply find_some in F as [_ G]. unfold App.partner_of in G. cbn [fst snd] in G.
    apply andb_true_iff in G as [_ G]. by repeat split.
Qed.

(** a record on the hour is fixed by its day and hour *)
Lemma on_the_hour_of_key now data parsed k k' item item' dt dt' :
  App.parse_and_sort now data = Ok parsed ->
  Forall (fun x => Cal.minute (snd x) = 0%Z) parsed ->
  parsed !! k = Some (item, dt) -> parsed !! k' = Some (item', dt') ->
  hour_key dt = hour_key dt' -> dt = dt'.
Proof.
  intros Ep Hmin Hk Hk' Hkey.
  destruct (parse_time_seconds now _ _ (parsed_record_time now data parsed _ _ _ Ep Hk))
    as [Hs Hu].
  destruct (parse_time_seconds now _ _ (parsed_record_time now data parsed _ _ _ Ep Hk'))
    as [Hs' Hu'].
  rewrite Forall_forall in Hmin.
  pose proof (Hmin _ (list_elem_of_lookup_2 _ _ _ Hk)) as Hm.
  pose proof (Hmin _ (list_elem_of_lookup_2 _ _ _ Hk')) as Hm'. cbn [snd] in Hm, Hm'.
  apply datetime_of_key; congruence.
Qed.

(** X11. When every record is on the hour, an event of the calendar spans
    its records exactly: a two-hour event lasts two hours, a one-hour event
    one hour, every record merged into an event starts when the event
    starts or, in a two-hour event, one hour later. *)
Theorem events_span_their_records (now : Cal.datetime) (data : list Slot)
    (parsed : list (Slot * Cal.datetime)) (events : list App.Event) :
  App.parse_and_sort now data = Ok parsed ->
  Forall (fun x => Cal.minute (snd x) = 0%Z) parsed ->
  App.group_slots_by_time_block now data = Ok events ->
  forall e, In e events ->
    (if App.ev_isTwoHour e
     then exists mid, Cal.add_hour (App.ev_start e) = Ok mid
                      /\ Cal.add_hour mid = Ok (App.ev_end e)
     else Cal.add_hour (App.ev_start e) = Ok (App.ev_end e))
    /\ forall k item dt,
         In k (App.ev_sources e) -> parsed !! k = Some (item, dt) ->
         dt = App.ev_start e
         \/ (App.ev_isTwoHour e = true /\ Cal.add_hour (App.ev_start e) = Ok dt).
Proof.
  intros Ep Hmin Hev. unfold App.group_slots_by_time_block in Hev. rewrite Ep in Hev.
  cbn [rbind] in Hev.
  destruct (App.pairing parsed) as [st|] eqn:Est; cbn [rbind] in Hev; [|discriminate].
  unfold App.events_of in Hev.
  destruct (rmap App.two_hour_event _) as [two|] eqn:E2; cbn [rbind] in Hev; [|discriminate].
  destruct (rmap (App.one_hour_event now) _) as [one|] eqn:E1; cbn [rbind] in Hev;
    [|discriminate].
  injection Hev as <-. intros e [He|He]%in_app_or.
  - destruct (in_rmap _ _ _ _ E2 He) as ([key vs] & Hg & Hevent).
    destruct (two_hour_event_start _ _ _ Hevent)
      as (first_slot & rest & -> & Hs & Hend & _ & Ht).
    apply two_hour_event_sources in Hevent as [_ Hsrc]. cbn [snd] in Hsrc.
    destruct (proj2 (group_blocks_groups (fst st)) _ _ Hg) as [_ Hvs].
    assert (forall v, In v (first_slot :: rest) ->
              exists item dt other other_dt,
                parsed !! fst (fst v) = Some (item, dt)
                /\ parsed !! snd (fst v) = Some (other, other_dt)
                /\ dt = App.ev_start e
                /\ Cal.add_hour (App.ev_start e) = Ok other_dt
                /\ Cal.add_hour other_dt = Ok (App.b_end (snd v))) as Hblock.
    { intros [[i j] b] Hv. destruct (Hvs _ Hv) as [Hin Hkey]. cbn [snd fst] in *.
      destruct (Hvs _ (or_introl eq_refl)) as [Hin1 Hkey1].
      destruct first_slot as [[i1 j1] b1]. cbn [snd fst] in *.
      destruct (pairing_blocks_times parsed st Est _ _ _ Hin)
        as (item & dt & other & odt & nh & Hi & Hj & Hb & Hnext & Hsame & Hbe).
      destruct (pairing_blocks_times parsed st Est _ _ _ Hin1)
        as (item1 & dt1 & other1 & odt1 & nh1 & Hi1 & _ & Hb1 & _).
      assert (dt = dt1) as ->.
      { apply (on_the_hour_of_key now data parsed i i1 item item1); try done.
        by rewrite <- Hb, <- Hb1, Hkey, Hkey1. }
      exists item, dt1, other, odt. rewrite Hs, Hb1.
      repeat split; try done.
      rewrite Hnext. f_equal. symmetry.
      destruct (add_hour_keeps_minute _ _ Hnext) as (Hm & Hsec & Hu).
      destruct (parse_time_seconds now _ _
                  (parsed_record_time now data parsed _ _ _ Ep Hi1)) as [Hs1 Hu1].
      destruct (parse_time_seconds now _ _
                  (parsed_record_time now data parsed _ _ _ Ep Hj)) as [Hs2 Hu2].
      rewrite Forall_forall in Hmin.
      pose proof (Hmin _ (list_elem_of_lookup_2 _ _ _ Hi1)) as Hm1.
      pose proof (Hmin _ (list_elem_of_lookup_2 _ _ _ Hj)) as Hm2. cbn [snd] in Hm1, Hm2.
      apply datetime_of_key; [by apply same_date_hour_key | congruence..]. }
    rewrite Ht. split.
    + destruct (Hblock first_slot (or_introl eq_refl))
        as (_ & _ & _ & odt & _ & _ & _ & Hnext & Hbe).
      exists odt. by rewrite Hend.
    + intros k item dt Hk Hlook. rewrite Hsrc in Hk. unfold block_sources in Hk.
      apply in_flat_map in Hk as (v & Hv & Hkv).
      destruct (Hblock v Hv) as (item' & dt' & other & odt & Hi & Hj & Hdt & Hnext & _).
      destruct Hkv as [<-|[<-|[]]].
      * left. rewrite Hi in Hlook. congruence.
      * right. rewrite Hj in Hlook. injection Hlook as _ <-. by split.
  - apply list_elem_of_In, list_elem_of_omap in He as (o & Ho & Hoe).
    destruct o as [e'|]; [|discriminate]. injection Hoe as ->.
    apply list_elem_of_In in Ho.
    destruct (in_rmap _ _ _ _ E1 Ho) as ([key vs] & Hg & Hevent).
    destruct (one_hour_event_start _ _ _ _ Hevent)
      as (first_item & rest & -> & Hs & Hend & _ & Ht).
    apply one_hour_event_sources in Hevent as [_ Hsrc]. cbn [snd] in Hsrc.
    destruct (proj2 (group_singles_groups parsed (snd st)) _ _ Hg) as [_ Hvs].
    rewrite Ht. split; [exact Hend|].
    intros k item dt Hk Hlook. left. rewrite Hsrc in Hk.
    apply in_map_iff in Hk as (v & <- & Hv).
    destruct (Hvs _ Hv) as [_ (dtv & Hlv & Hkey)].
    destruct (Hvs _ (or_introl eq_refl)) as [_ (dt1 & Hl1 & Hkey1)].
    rewrite (parsed_record_time now data parsed _ _ _ Ep Hl1) in Hs. injection Hs as Hs.
    rewrite Hlv in Hlook. injection Hlook as _ <-. rewrite <- Hs.
    apply (on_the_hour_of_key now data parsed _ _ _ _ _ _ Ep Hmin Hlv Hl1).
    by rewrite Hkey, Hkey1.
Qed.

Lemma events_span_their_records_witness :
  exists parsed events,
    App.parse_and_sort sample_now pair_and_single = Ok parsed
    /\ App.group_slots_by_time_block sample_now pair_and_single = Ok events
    /\ forall e, In e events ->
         (if App.ev_isTwoHour e
          then exists mid, Cal.add_hour (App.ev_start e) = Ok mid
                           /\ Cal.add_hour mid = Ok (App.ev_end e)
          else Cal.add_hour (App.ev_start e) = Ok (App.ev_end e))
         /\ forall k item dt,
              In k (App.ev_sources e) -> parsed !! k = Some (item, dt) ->
              dt = App.ev_start e
              \/ (App.ev_isTwoHour e = true /\ Cal.add_hour (App.ev_start e) = Ok dt).
Proof.
  eexists. eexists. split; [vm_compute; reflexivity|]. split; [vm_compute; reflexivity|].
  apply (events_span_their_records sample_now pair_and_single).
  - vm_compute. reflexivity.
  - repeat constructor.
  - vm_compute. reflexivity.
Defined.

Lemma star_nonempty f s : Re.star f s <> [].
Proof.
  destruct s as [|c r]; simpl; [discriminate|].
  destruct (f c); [|discriminate]. by destruct (map _ _).
Qed.

Lemma plus_cons f c r :
  Re.plus f (String c r) <> [] <-> f c = true.
Proof.
  unfold Re.plus, Re.bind, Re.chr, Re.ret. destruct (f c); simpl.
  - split; [done|]. intros _. rewrite app_nil_r.
    pose proof (star_nonempty f r) as H. by destruct (Re.star f r).
  - split; [congruence|discriminate].
Qed.

(** [re.search(r'\d+', x)] finds something exactly when [x] has a digit *)
Lemma court_number_digit c :
  if has_digit c then exists n, App.court_number c = Ok n
  else App.court_number c = Raise AttributeError.
Proof.
  unfold App.court_number, has_digit. induction c as [|a c IH]; [reflexivity|].
  cbn [list_ascii_of_string existsb Re.search].
  destruct (Re.plus PyStr.is_digit (String a c)) as [|[m r] l] eqn:E.
  - destruct (PyStr.is_digit a) eqn:Ea.
    + apply (proj2 (plus_cons _ a c)) in Ea. congruence.
    + exact IH.
  - assert (PyStr.is_digit a = true) as -> by (apply (proj1 (plus_cons _ a c)); congruence).
    cbn [orb]. eauto.
Qed.

Lemma split_go_cur cur s : cur <> "" -> PyStr.split_go cur s <> [].
Proof.
  revert cur. induction s as [|c s IH]; intros cur Hcur; simpl.
  - by destruct cur.
  - destruct (PyStr.is_space c); [by destruct cur|].
    apply IH. destruct cur; [congruence|]. rewrite string_app_cons. discriminate.
Qed.

Lemma split_go_nonempty cur s :
  existsb (fun c => negb (PyStr.is_space c)) (list_ascii_of_string s) = true ->
  PyStr.split_go cur s <> [].
Proof.
  revert cur. induction s as [|c s IH]; intros cur; [discriminate|].
  cbn [list_ascii_of_string existsb PyStr.split_go].
  destruct (PyStr.is_space c); cbn [negb orb].
  - intros H. destruct cur; [by apply IH|discriminate].
  - intros _. apply split_go_cur. destruct cur; [rewrite string_app_nil_l|rewrite string_app_cons];
      discriminate.
Qed.

(** the name of a court that has a digit has a last word *)
Lemma last_word_digit c : has_digit c = true -> exists w, App.last_word c = Ok w.
Proof.
  intros H. unfold App.last_word.
  assert (PyStr.split c <> []) as Hne.
  { apply split_go_nonempty. unfold has_digit in H.
    apply existsb_exists in H as (a & Ha & Hd). apply existsb_exists. exists a.
    split; [exact Ha|]. by rewrite (is_digit_not_space _ Hd). }
  destruct (last (PyStr.split c)) as [w|] eqn:E; [eauto|].
  apply last_None in E. contradiction.
Qed.

Lemma rmap_ok {A B} (f : A -> result B) l :
  (forall x, In x l -> exists y, f x = Ok y) -> exists ys, rmap f l = Ok ys.
Proof.
  induction l as [|x l IH]; intros H; simpl; [eauto|].
  destruct (H x (or_introl eq_refl)) as [y ->].
  destruct IH as [ys ->]; [intros; apply H; by right|]. simpl. eauto.
Qed.

(** a loop whose turns can only fail in one way returns when every turn
    does and fails in this way otherwise *)
Lemma rmap_cases {A B} (f : A -> result B) l err :
  (forall x, In x l -> (exists y, f x = Ok y) \/ f x = Raise err) ->
  (exists ys, rmap f l = Ok ys /\ forall x, In x l -> exists y, f x = Ok y)
  \/ rmap f l = Raise err.
Proof.
  induction l as [|x l IH]; intros H; simpl.
  - left. exists []. split; [reflexivity|]. intros x [].
  - destruct (H x (or_introl eq_refl)) as [[y Hy]| ->]; [|by right].
    rewrite Hy. cbn [rbind].
    destruct IH as [(ys & -> & Hall)| ->]; [intros; apply H; by right| |by right].
    left. exists (y :: ys). split; [reflexivity|].
    intros x' [<-|Hx']; [eauto|by apply Hall].
Qed.

(** sorting the courts by their numbers fails exactly when a court has no
    digit, with [AttributeError] *)
Lemma sorted_courts_cases courts :
  if forallb has_digit courts
  then exists sorted, App.sorted_courts courts = Ok sorted
  else App.sorted_courts courts = Raise AttributeError.
Proof.
  unfold App.sorted_courts.
  destruct (rmap_cases (fun c => let* k := App.court_number c in Ok (k, c)) courts
              AttributeError) as [(keyed & E & Hall)|E].
  - intros c _. pose proof (court_number_digit c) as H.
    destruct (has_digit c); [destruct H as [n ->]; left; eauto | rewrite H; by right].
  - rewrite E. cbn [rbind]. destruct (forallb has_digit courts) eqn:F; [eauto|].
    exfalso. apply not_true_iff_false in F. apply F, forallb_forall. intros c Hc.
    destruct (Hall c Hc) as [y Hy]. pose proof (court_number_digit c) as H.
    destruct (has_digit c); [reflexivity|]. rewrite H in Hy. discriminate.
  - rewrite E. cbn [rbind]. destruct (forallb has_digit courts) eqn:F; [|reflexivity].
    exfalso. rewrite forallb_forall in F.
    destruct (rmap_ok (fun c => let* k := App.court_number c in Ok (k, c)) courts) as [ys Hys];
      [|congruence].
    intros c Hc. pose proof (court_number_digit c) as H. rewrite (F c Hc) in H.
    destruct H as [n ->]. cbn [rbind]. eauto.
Qed.

Lemma court_words_ok courts sorted :
  App.sorted_courts courts = Ok sorted -> forallb has_digit courts = true ->
  exists court_nums, rmap App.last_word sorted = Ok court_nums.
Proof.
  intros Hs F. apply rmap_ok. intros c Hc. apply last_word_digit.
  rewrite forallb_forall in F. apply F.
  by apply (Permutation_in _ (sorted_courts_perm _ _ Hs)).
Qed.

Lemma two_hour_event_cases k vs :
  vs <> [] ->
  if forallb has_digit (map (fun s => App.b_court (snd s)) vs)
  then exists e, App.two_hour_event (k, vs) = Ok e
  else App.two_hour_event (k, vs) = Raise AttributeError.
Proof.
  intros Hne. unfold App.two_hour_event. cbn [snd].
  pose proof (sorted_courts_cases (map (fun s => App.b_court (snd s)) vs)) as H.
  destruct (forallb has_digit _) eqn:F; [|by rewrite H].
  destruct H as [sorted Hs]. rewrite Hs. cbn [rbind].
  destruct (court_words_ok _ _ Hs F) as [court_nums ->]. cbn [rbind].
  destruct vs; [congruence|eauto].
Qed.

Lemma one_hour_event_cases now k vs first_item rest dt :
  vs = first_item :: rest ->
  App._parse_time now (time (snd first_item)) = Ok (Some dt) ->
  (Cal.year (Cal.dt_date dt) < Cal.MAXYEAR)%Z ->
  if forallb has_digit (map (fun s => court (snd s)) vs)
  then exists e, App.one_hour_event now (k, vs) = Ok e
  else App.one_hour_event now (k, vs) = Raise AttributeError.
Proof.
  intros -> Hp Hy. unfold App.one_hour_event. cbn [snd].
  pose proof (sorted_courts_cases (map (fun s => court (snd s)) (first_item :: rest))) as H.
  destruct (forallb has_digit _) eqn:F; [|by rewrite H].
  destruct H as [sorted Hs]. rewrite Hs. cbn [rbind].
  destruct (court_words_ok _ _ Hs F) as [court_nums ->]. cbn [rbind].
  rewrite Hp. cbn [rbind]. destruct (add_hour_before_last_year dt Hy) as [end_dt ->].
  cbn [rbind]. eauto.
Qed.

Lemma in_grouped_values {K V} (m : list (K * list V)) v :
  In v (grouped_values m) -> exists k vs, In (k, vs) m /\ In v vs.
Proof.
  unfold grouped_values. intros ([k vs] & Hg & Hv)%in_flat_map. eauto.
Qed.

Lemma forallb_false_in {A} (f : A -> bool) l x :
  In x l -> f x = false -> forallb f l = false.
Proof.
  intros Hx Hf. apply not_true_iff_false. intros H. rewrite forallb_forall in H.
  rewrite (H x Hx) in Hf. discriminate.
Qed.

(** X12. The calendar needs numbered courts. For entries dated before the
    year 9999 (and court names within the limit of [int]),
    [group_slots_by_time_block] returns its events when the court name of
    every entry whose time is read has a digit; when one of these names has
    no digit it raises [AttributeError], and no event is returned. *)
Theorem calendar_needs_numbered_courts (now : Cal.datetime) (data : list Slot)
    (parsed : list (Slot * Cal.datetime)) :
  App.parse_and_sort now data = Ok parsed ->
  Forall before_last_year parsed ->
  Forall (fun x => within_int_limit (court (fst x)) = true) parsed ->
  if forallb (fun x => has_digit (court (fst x))) parsed
  then exists events, App.group_slots_by_time_block now data = Ok events
  else App.group_slots_by_time_block now data = Raise AttributeError.
Proof.
  intros Ep Hyear _. unfold App.group_slots_by_time_block. rewrite Ep. cbn [rbind].
  destruct (pairing_total parsed Hyear) as [st Est]. rewrite Est. cbn [rbind].
  unfold App.events_of.
  assert (forall g, In g (App.group_blocks (fst st)) ->
            if forallb has_digit (map (fun s => App.b_court (snd s)) (snd g))
            then exists e, App.two_hour_event g = Ok e
            else App.two_hour_event g = Raise AttributeError) as H2.
  { intros [k vs] Hg. apply two_hour_event_cases.
    by destruct (proj2 (group_blocks_groups (fst st)) _ _ Hg). }
  assert (forall g, In g (App.group_singles parsed (snd st)) ->
            if forallb has_digit (map (fun s => court (snd s)) (snd g))
            then exists e, App.one_hour_event now g = Ok e
            else App.one_hour_event now g = Raise AttributeError) as H1.
  { intros [k vs] Hg.
    destruct (proj2 (group_singles_groups parsed (snd st)) _ _ Hg) as [Hne Hvs].
    destruct vs as [|first_item rest]; [congruence|].
    destruct (Hvs first_item (or_introl eq_refl)) as [_ (dt & Hdt & _)].
    apply (one_hour_event_cases now k _ first_item rest dt eq_refl).
    - exact (parsed_record_time now data parsed _ _ _ Ep Hdt).
    - rewrite Forall_forall in Hyear.
      exact (Hyear _ (list_elem_of_lookup_2 _ _ _ Hdt)). }
  assert (forall i j b, In (i, j, b) (fst st) ->
            exists item dt, parsed !! i = Some (item, dt) /\ App.b_court b = court item)
    as Hblocks.
  { intros i j b Hb.
    destruct (pairing_blocks_records parsed st Est i j b Hb)
      as (item & dt & _ & _ & Hi & _ & _ & Hc & _). eauto. }
  destruct (forallb _ parsed) eqn:F.
  - rewrite forallb_forall in F.
    destruct (rmap_ok App.two_hour_event (App.group_blocks (fst st))) as [two ->].
    { intros g Hg. specialize (H2 g Hg).
      destruct (forallb has_digit _) eqn:F2; [exact H2|]. exfalso.
      apply not_true_iff_false in F2. apply F2, forallb_forall.
      intros c ([[i j] b] & <- & Hv)%in_map_iff. cbn [snd].
      destruct (Hblocks i j b (in_group_blocks _ g _ Hg Hv)) as (item & dt & Hi & ->).
      apply (F (item, dt)), list_elem_of_In, (list_elem_of_lookup_2 _ _ _ Hi). }
    cbn [rbind].
    destruct (rmap_ok (App.one_hour_event now) (App.group_singles parsed (snd st)))
      as [one ->]; [|cbn [rbind]; eauto].
    intros g Hg. specialize (H1 g Hg).
    destruct (forallb has_digit _) eqn:F1; [exact H1|]. exfalso.
    apply not_true_iff_false in F1. apply F1, forallb_forall.
    intros c (v & <- & Hv)%in_map_iff.
    destruct (in_group_singles parsed (snd st) g v Hg Hv) as [_ [dt Hin]].
    apply (F (snd v, dt)), list_elem_of_In, (list_elem_of_lookup_2 _ (fst v)).
    by apply in_enumerate.
  - destruct (rmap_cases App.two_hour_event (App.group_blocks (fst st)) AttributeError)
      as [(two & -> & Hall2)| ->]; [| |reflexivity].
    { intros g Hg. specialize (H2 g Hg). destruct (forallb has_digit _); auto. }
    cbn [rbind].
    destruct (rmap_cases (App.one_hour_event now) (App.group_singles parsed (snd st))
                AttributeError) as [(one & -> & Hall1)| ->]; [| |reflexivity].
    { intros g Hg. specialize (H1 g Hg). destruct (forallb has_digit _); auto. }
    exfalso. apply not_true_iff_false in F. apply F, forallb_forall.
    intros [item dt] Hx. cbn [fst].
    destruct (has_digit (court item)) eqn:Hd; [reflexivity|]. exfalso.
    apply list_elem_of_In, list_elem_of_lookup_1 in Hx as [k Hk].
    destruct (pairing_invariant parsed st Est) as (_ & Hsrc & _).
    destruct (decide (k ∈ snd st)) as [Hin|Hnin].
    + apply Hsrc in Hin. unfold block_sources in Hin.
      apply in_flat_map in Hin as ([[i j] b] & Hb & Hkb). cbn [fst snd] in Hkb.
      destruct (pairing_blocks_records parsed st Est i j b Hb)
        as (item' & dt' & other & odt & Hi & Hj & Hco & Hc & _).
      assert (App.b_court b = court item) as Hbc.
      { destruct Hkb as [->|[->|[]]]; [rewrite Hk in Hi|rewrite Hk in Hj]; congruence. }
      apply (Permutation_in _ (Permutation_sym (group_blocks_perm (fst st)))) in Hb.
      apply in_grouped_values in Hb as (key & vs & Hg & Hv).
      specialize (H2 _ Hg). destruct (Hall2 _ Hg) as [e He]. cbn [snd] in H2.
      rewrite (forallb_false_in has_digit _ (App.b_court b)) in H2;
        [congruence| |by rewrite Hbc].
      apply in_map_iff. by exists (i, j, b).
    + assert (In (k, item) (grouped_values (App.group_singles parsed (snd st)))) as Hb.
      { apply (Permutation_in _ (Permutation_sym (group_singles_perm parsed (snd st)))).
        apply in_map_iff. exists (k, (item, dt)). split; [reflexivity|].
        apply list_elem_of_In, list_elem_of_filter. split; [exact Hnin|].
        by apply list_elem_of_In, in_enumerate_iff. }
      apply in_grouped_values in Hb as (key & vs & Hg & Hv).
      specialize (H1 _ Hg). destruct (Hall1 _ Hg) as [e He]. cbn [snd] in H1.
      rewrite (forallb_false_in has_digit _ (court item)) in H1; [congruence| |exact Hd].
      apply in_map_iff. by exists (k, item).
Qed.

Lemma calendar_needs_numbered_courts_witness :
  (exists events,
     App.group_slots_by_time_block sample_now pair_and_single = Ok events)
  /\ App.group_slots_by_time_block sample_now
       [slot_at "Court 01" "2025-12-17 3:00 PM" "a"; slot_at "" "2025-12-17 3:00 PM" "b"]
     = Raise AttributeError.
Proof.
  split.
  - refine (calendar_needs_numbered_courts sample_now pair_and_single
              (match App.parse_and_sort sample_now pair_and_single with
               | Ok parsed => parsed
               | Raise _ => []
               end) _ _ _).
    + vm_compute. reflexivity.
    + vm_compute. repeat constructor.
    + vm_compute. repeat constructor.
  - refine (calendar_needs_numbered_courts sample_now
              [slot_at "Court 01" "2025-12-17 3:00 PM" "a";
               slot_at "" "2025-12-17 3:00 PM" "b"]
              (match App.parse_and_sort sample_now
                       [slot_at "Court 01" "2025-12-17 3:00 PM" "a";
                        slot_at "" "2025-12-17 3:00 PM" "b"] with
               | Ok parsed => parsed
               | Raise _ => []
               end) _ _ _).
    + vm_compute. reflexivity.
    + vm_compute. repeat constructor.
    + vm_compute. repeat constructor.
Defined.

Lemma insert_sorted_by_key {A} (key : A -> Z) x l :
  StronglySorted (fun a b => (key a <= key b)%Z) l ->
  StronglySorted (fun a b => (key a <= key b)%Z)
                 (insert_sorted (fun a b => (key a <=? key b)%Z) x l).
Proof.
  induction 1 as [|y l Hl IH Hy]; simpl.
  - repeat constructor.
  - destruct (Z.leb_spec (key x) (key y)) as [Hle|Hgt].
    + constructor; [by constructor|]. constructor; [exact Hle|].
      eapply Forall_impl; [exact Hy|]. intros z Hz. cbn beta in Hz. lia.
    + constructor; [exact IH|].
      rewrite (insert_sorted_perm (fun a b => (key a <=? key b)%Z) x l).
      constructor; [lia|exact Hy].
Qed.

Lemma stable_sort_by_key {A} (key : A -> Z) l :
  StronglySorted (fun a b => (key a <= key b)%Z)
                 (stable_sort (fun a b => (key a <=? key b)%Z) l).
Proof.
  induction l as [|x l IH]; simpl; [constructor|]. by apply insert_sorted_by_key.
Qed.

Lemma strongly_sorted_map {A B} (R : A -> A -> Prop) (Q : B -> B -> Prop) (f : A -> B) l :
  (forall a b, In a l -> In b l -> R a b -> Q (f a) (f b)) ->
  StronglySorted R l -> StronglySorted Q (map f l).
Proof.
  intros H Hs. induction Hs as [|x l Hl IH Hx]; simpl; [constructor|].
  constructor.
  - apply IH. intros a b Ha Hb. apply H; by right.
  - rewrite Forall_forall in Hx. apply Forall_forall.
    intros y (a & <- & Ha)%list_elem_of_In%in_map_iff.
    apply H; [by left | by right | by apply Hx, list_elem_of_In].
Qed.

(** [sorted(courts, key=...)] puts the courts in the order of their numbers *)
Lemma sorted_courts_sorted courts sorted :
  App.sorted_courts courts = Ok sorted -> StronglySorted court_le sorted.
Proof.
  unfold App.sorted_courts.
  destruct (rmap _ courts) as [keyed|] eqn:E; cbn [rbind]; [|discriminate].
  intros [= <-].
  apply (strongly_sorted_map (fun a b => (fst a <= fst b)%Z)); [|apply stable_sort_by_key].
  intros a b Ha Hb Hab.
  assert (forall x, In x (stable_sort (fun a b => (fst a <=? fst b)%Z) keyed) ->
            App.court_number (snd x) = Ok (fst x)) as Hkey.
  { intros x Hx. apply (Permutation_in _ (stable_sort_perm _ keyed)) in Hx.
    destruct (in_rmap _ _ _ _ E Hx) as (c & _ & Hc).
    destruct (App.court_number c) as [n|] eqn:En; cbn [rbind] in Hc; [|discriminate].
    by injection Hc as <-. }
  exists (fst a), (fst b). by rewrite (Hkey a Ha), (Hkey b Hb).
Qed.

(** X13. The courts of an event of the calendar, which its title lists,
    are in the order of their numbers: each court has a number and no
    court stands before one with a smaller number. *)
Theorem event_courts_in_number_order (now : Cal.datetime) (data : list Slot)
    (events : list App.Event) (e : App.Event) :
  App.group_slots_by_time_block now data = Ok events -> In e events ->
  StronglySorted court_le (App.ev_courts e).
Proof.
  unfold App.group_slots_by_time_block.
  destruct (App.parse_and_sort now data) as [parsed|]; cbn [rbind]; [|discriminate].
  destruct (App.pairing parsed) as [st|]; cbn [rbind]; [|discriminate].
  unfold App.events_of.
  destruct (rmap App.two_hour_event _) as [two|] eqn:E2; cbn [rbind]; [|discriminate].
  destruct (rmap (App.one_hour_event now) _) as [one|] eqn:E1; cbn [rbind]; [|discriminate].
  intros [= <-] [He|He]%in_app_or.
  - destruct (in_rmap _ _ _ _ E2 He) as (g & _ & Hev).
    exact (sorted_courts_sorted _ _ (two_hour_event_courts _ _ Hev)).
  - apply list_elem_of_In, list_elem_of_omap in He as (o & Ho & Hoe).
    destruct o as [e'|]; [|discriminate]. injection Hoe as ->.
    apply list_elem_of_In in Ho. destruct (in_rmap _ _ _ _ E1 Ho) as (g & _ & Hev).
    exact (sorted_courts_sorted _ _ (one_hour_event_courts _ _ _ Hev)).
Qed.

Lemma event_courts_in_number_order_witness :
  exists events e,
    App.group_slots_by_time_block sample_now two_courts_same_hour_swapped = Ok events
    /\ In e events
    /\ StronglySorted court_le (App.ev_courts e).
Proof.
  eexists. eexists. split; [vm_compute; reflexivity|]. split; [left; reflexivity|].
  eapply (event_courts_in_number_order sample_now two_courts_same_hour_swapped).
  - vm_compute. reflexivity.
  - left. reflexivity.
Defined.

(** *** The upload script *)



(** *** Court discovery *)

Lemma in_star f : forall s m r,
  In (m, r) (Re.star f s) -> Forall (fun c => f c = true) (list_ascii_of_string m).
Proof.
  induction s as [|c s IH]; intros m r; simpl.
  - intros [[= <- <-]|[]]. constructor.
  - destruct (f c) eqn:E.
    + intros [H|[[= <- <-]|[]]]%in_app_or; [|constructor].
      apply in_map_iff in H as ([m' r'] & [= <- <-] & H). simpl.
      constructor; [exact E|]. by apply (IH m' r').
    + intros [[= <- <-]|[]]. constructor.
Qed.

Lemma in_plus f s m r :
  In (m, r) (Re.plus f s) ->
  m <> "" /\ Forall (fun c => f c = true) (list_ascii_of_string m).
Proof.
  unfold Re.plus. intros (c & r1 & H1 & H2)%in_bind.
  apply in_chr in H1 as [Hc ->].
  apply in_bind in H2 as (m' & r2 & H2 & [[= <- <-]|[]]).
  split; [discriminate|]. simpl. constructor; [exact Hc|]. by apply in_star in H2.
Qed.

Lemma search_in {A} (p : Re.parser A) s a :
  Re.search p s = Some a -> exists s' r, In (a, r) (p s').
Proof.
  intros (pre & s' & r & _ & H)%search_some. exists s', r. by apply head_in.
Qed.

Lemma fold_digits_nonneg (l : list ascii) : forall acc,
  (0 <= acc)%Z -> Forall (fun c => PyStr.is_digit c = true) l ->
  (0 <= fold_left (fun a c => 10 * a + PyStr.digit_val c) l acc)%Z.
Proof.
  induction l as [|c l IH]; intros acc Hacc Hl; simpl; [exact Hacc|].
  apply Forall_cons in Hl as [Hc Hl]. apply IH; [|exact Hl].
  pose proof (digit_val_range c Hc). lia.
Qed.

Lemma int_of_digits_nonneg s :
  Forall (fun c => PyStr.is_digit c = true) (list_ascii_of_string s) ->
  (0 <= PyStr.int_of_digits s)%Z.
Proof. apply fold_digits_nonneg. lia. Qed.

(** the label made from the text of an element is the label of a number *)
Lemma court_label_numbered text c :
  Scraper.court_label text = Some c -> exists n, (0 <= n)%Z /\ c = numbered_label n.
Proof.
  unfold Scraper.court_label.
  destruct (Re.search Scraper.court_num_re _) as [d|] eqn:E; [|discriminate].
  intros [= <-]. exists (PyStr.int_of_digits d). split; [|reflexivity].
  apply search_in in E as (s' & r & H). unfold Scraper.court_num_re in H.
  apply in_bind in H as (_ & r1 & _ & H). apply in_bind in H as (_ & r2 & _ & H).
  apply in_bind in H as (_ & r3 & _ & H). apply in_bind in H as (d' & r4 & H & [[= <- <-]|[]]).
  apply in_plus in H as [_ H]. by apply int_of_digits_nonneg.
Qed.

Lemma zeros_digits n s :
  Forall (fun c => PyStr.is_digit c = true) (list_ascii_of_string s) ->
  PyStr.int_of_digits (string_of_list_ascii (replicate n "0"%char) +:+ s)
    = PyStr.int_of_digits s
  /\ Forall (fun c => PyStr.is_digit c = true)
            (list_ascii_of_string (string_of_list_ascii (replicate n "0"%char) +:+ s)).
Proof.
  intros Hs. induction n as [|n [IH1 IH2]]; simpl.
  - by rewrite string_app_nil_l.
  - rewrite string_app_cons, int_of_digits_zero. split; [exact IH1|].
    simpl. constructor; [reflexivity | exact IH2].
Qed.

(** the number of a label is read back from it *)
Lemma court_number_numbered n :
  (0 <= n)%Z -> App.court_number (numbered_label n) = Ok n.
Proof.
  intros Hn. destruct (str_of_Z_spec n Hn) as (Hi & Hd & Hne).
  destruct (zeros_digits (2 - String.length (PyStr.str_of_Z n)) _ Hd) as [Hz Hzd].
  unfold App.court_number, numbered_label. fold (Scraper.rjust2 (PyStr.str_of_Z n)) in Hz, Hzd.
  assert (Scraper.rjust2 (PyStr.str_of_Z n) <> "") as Hrne.
  { unfold Scraper.rjust2. destruct (string_of_list_ascii _); [by rewrite string_app_nil_l|].
    by rewrite string_app_cons. }
  pose proof (plus_head PyStr.is_digit (Scraper.rjust2 (PyStr.str_of_Z n)) "" Hrne Hzd I) as Hh.
  rewrite string_app_nil_r in Hh.
  rewrite !string_app_cons, string_app_nil_l.
  rewrite !search_skip by reflexivity.
  rewrite (search_head _ _ _ _ Hh), Hz, Hi. reflexivity.
Qed.

Lemma numbered_label_inj c c' n :
  (exists m, (0 <= m)%Z /\ c = numbered_label m) ->
  (exists m, (0 <= m)%Z /\ c' = numbered_label m) ->
  App.court_number c = Ok n -> App.court_number c' = Ok n -> c = c'.
Proof.
  intros (m & Hm & ->) (m' & Hm' & ->).
  rewrite !court_number_numbered by done. congruence.
Qed.

(** one element of the court list: the list of labels stays without
    repetition and made of labels seen, loses nothing and holds the label
    of the element *)
Lemma add_court_keeps attempts court_elements all_courts el :
  In court_elements attempts -> In el court_elements ->
  NoDup all_courts -> (forall c, In c all_courts -> label_seen attempts c) ->
  NoDup (Scraper.add_court all_courts el)
  /\ (forall c, In c (Scraper.add_court all_courts el) -> label_seen attempts c)
  /\ (forall c, In c all_courts -> In c (Scraper.add_court all_courts el))
  /\ (forall text c, el = Some text -> Scraper.court_label text = Some c ->
                     In c (Scraper.add_court all_courts el)).
Proof.
  intros Hce Hel Hnd Hseen. unfold Scraper.add_court.
  destruct el as [text|]; [|by repeat split].
  destruct (Scraper.court_label text) as [c0|] eqn:E;
    [|repeat split; try done; intros text' c [= <-]; congruence].
  case_bool_decide as Hin.
  - repeat split; try done. intros text' c [= <-]. rewrite E. intros [= <-].
    by apply list_elem_of_In.
  - split; [|split; [|split]].
    + apply NoDup_app. split; [exact Hnd|]. split; [|apply NoDup_singleton].
      intros c Hc ->%list_elem_of_singleton. contradiction.
    + intros c [Hc|[<-|[]]]%in_app_or; [by apply Hseen|].
      exists court_elements, text. by repeat split.
    + intros c Hc. apply in_or_app. by left.
    + intros text' c [= <-]. rewrite E. intros [= <-]. apply in_or_app. right. by left.
Qed.

Lemma add_courts_keep attempts court_elements els : forall all_courts,
  In court_elements attempts -> (forall el, In el els -> In el court_elements) ->
  NoDup all_courts -> (forall c, In c all_courts -> label_seen attempts c) ->
  NoDup (fold_left Scraper.add_court els all_courts)
  /\ (forall c, In c (fold_left Scraper.add_court els all_courts) -> label_seen attempts c)
  /\ (forall c, In c all_courts -> In c (fold_left Scraper.add_court els all_courts))
  /\ (forall text c, In (Some text) els -> Scraper.court_label text = Some c ->
                     In c (fold_left Scraper.add_court els all_courts)).
Proof.
  induction els as [|el els IH]; intros all_courts Hce Hels Hnd Hseen; cbn [fold_left].
  - by repeat split.
  - destruct (add_court_keeps attempts court_elements all_courts el Hce
                (Hels el (or_introl eq_refl)) Hnd Hseen) as (Hnd1 & Hseen1 & Hmono1 & Hnew1).
    destruct (IH (Scraper.add_court all_courts el) Hce
                (fun x Hx => Hels x (or_intror Hx)) Hnd1 Hseen1)
      as (Hnd2 & Hseen2 & Hmono2 & Hnew2).
    repeat split; try done.
    + intros c Hc. by apply Hmono2, Hmono1.
    + intros text c [->|Hin] Hl; [|by apply (Hnew2 text)].
      by apply Hmono2, (Hnew1 text).
Qed.

Lemma discover_attempts_keep attempts todo : forall all_courts,
  (forall court_elements, In court_elements todo -> In court_elements attempts) ->
  NoDup all_courts -> (forall c, In c all_courts -> label_seen attempts c) ->
  NoDup (Scraper.discover_attempts todo all_courts)
  /\ (forall c, In c (Scraper.discover_attempts todo all_courts) -> label_seen attempts c)
  /\ (forall c, In c all_courts -> In c (Scraper.discover_attempts todo all_courts))
  /\ (forall text c, In (Some text) (hd [] todo) -> Scraper.court_label text = Some c ->
                     In c (Scraper.discover_attempts todo all_courts)).
Proof.
  induction todo as [|court_elements todo IH]; intros all_courts Htodo Hnd Hseen;
    cbn [Scraper.discover_attempts hd].
  - by repeat split.
  - assert (forall ce, In ce todo -> In ce attempts) as Htodo'
      by (intros ce Hce; apply Htodo; by right).
    destruct court_elements as [|el els].
    { destruct (IH all_courts Htodo' Hnd Hseen) as (H1 & H2 & H3 & _).
      by repeat split. }
    destruct (add_courts_keep attempts (el :: els) (el :: els) all_courts
                (Htodo _ (or_introl eq_refl)) (fun x Hx => Hx) Hnd Hseen)
      as (Hnd1 & Hseen1 & Hmono1 & Hnew1).
    destruct (10 <=? _)%nat; [by repeat split|].
    destruct (IH _ Htodo' Hnd1 Hseen1) as (Hnd2 & Hseen2 & Hmono2 & _).
    repeat split; try done.
    + intros c Hc. by apply Hmono2, Hmono1.
    + intros text c Hin Hl. by apply Hmono2, (Hnew1 text).
Qed.

(** X15. Court discovery. From whatever the three attempts show (texts
    within the limit of [int]), the discovery loop of [scrape_courts] and
    the sort after it raise nothing and give a list of labels ["Court NN"]
    made from elements that were shown, none twice, in the order of their
    numbers, and among them the label of every element of the first
    attempt that names a court. *)
Theorem discovered_courts (first second third : list (option string)) :
  (forall text, In (Some text) (first ++ second ++ third) ->
                within_int_limit text = true) ->
  exists court_names,
    Scraper.discover_courts first second third = Ok court_names
    /\ NoDup court_names
    /\ StronglySorted court_le court_names
    /\ (forall c, In c court_names ->
          label_seen [first; second; third] c
          /\ exists n, (0 <= n)%Z /\ c = numbered_label n /\ App.court_number c = Ok n)
    /\ (forall text c, In (Some text) first -> Scraper.court_label text = Some c ->
                       In c court_names).
Proof.
  intros _.
  destruct (discover_attempts_keep [first; second; third] [first; second; third] [])
    as (Hnd & Hseen & _ & Hfirst); [done|constructor|intros c []|].
  assert (forall c, In c (Scraper.discover_attempts [first; second; third] []) ->
            exists n, (0 <= n)%Z /\ c = numbered_label n /\ App.court_number c = Ok n) as Hnum.
  { intros c (ce & text & _ & _ & Hl)%Hseen.
    apply court_label_numbered in Hl as (n & Hn & ->).
    exists n. by rewrite court_number_numbered. }
  unfold Scraper.discover_courts.
  destruct (App.sorted_courts _) as [court_names|err] eqn:E.
  - pose proof (sorted_courts_perm _ _ E) as Hperm.
    exists court_names. split; [reflexivity|]. split; [by rewrite Hperm|].
    split; [exact (sorted_courts_sorted _ _ E)|]. split.
    + intros c Hc%(Permutation_in _ Hperm). split; [by apply Hseen | by apply Hnum].
    + intros text c Hin Hl. apply (Permutation_in _ (Permutation_sym Hperm)).
      by apply (Hfirst text).
  - exfalso. unfold App.sorted_courts in E.
    destruct (rmap_ok (fun c => let* k := App.court_number c in Ok (k, c))
                (Scraper.discover_attempts [first; second; third] [])) as [keyed Hk].
    { intros c (n & _ & _ & ->)%Hnum. cbn [rbind]. eauto. }
    rewrite Hk in E. discriminate.
Qed.

Lemma discovered_courts_witness :
  exists court_names,
    Scraper.discover_courts sample_court_elements [] [] = Ok court_names
    /\ NoDup court_names
    /\ StronglySorted court_le court_names
    /\ (forall c, In c court_names ->
          label_seen [sample_court_elements; []; []] c
          /\ exists n, (0 <= n)%Z /\ c = numbered_label n /\ App.court_number c = Ok n)
    /\ (forall text c, In (Some text) sample_court_elements ->
                       Scraper.court_label text = Some c -> In c court_names).
Proof.
  apply (discovered_courts sample_court_elements [] []).
  intros text Hin. unfold sample_court_elements in Hin. cbn in Hin.
  destruct Hin as [[= <-]|[[= <-]|[Hin|[[= <-]|[]]]]]; try reflexivity. discriminate.
Defined.

(** *** A page that names the court *)

Lemma substring_full s : String.substring 0 (String.length s) s = s.
Proof. induction s as [|c s IH]; [reflexivity|]. simpl. by rewrite IH. Qed.

Lemma lit_app eq (p r : string) :
  (forall c, eq c c = true) -> Re.lit eq p (p +:+ r) = [(p, r)].
Proof.
  intros Heq. unfold Re.lit. rewrite starts_with_refl by exact Heq.
  rewrite string_length_app. replace (String.length p + String.length r - String.length p)
    with (String.length r) by lia.
  f_equal. f_equal.
  - induction p as [|c p IH]; [rewrite string_app_nil_l; by destruct r|].
    rewrite string_app_cons. simpl. by rewrite IH.
  - induction p as [|c p IH]; [rewrite string_app_nil_l; apply substring_full|].
    rewrite string_app_cons. simpl. exact IH.
Qed.

Lemma length_zeros n : String.length (string_of_list_ascii (replicate n "0"%char)) = n.
Proof. induction n as [|n IH]; [reflexivity|]. simpl. by rewrite IH. Qed.

(** the two or more digits of the label of a court *)
Lemma rjust2_digits n :
  (0 <= n)%Z ->
  PyStr.int_of_digits (Scraper.rjust2 (PyStr.str_of_Z n)) = n
  /\ Forall (fun c => PyStr.is_digit c = true)
            (list_ascii_of_string (Scraper.rjust2 (PyStr.str_of_Z n)))
  /\ 2 <= String.length (Scraper.rjust2 (PyStr.str_of_Z n)).
Proof.
  intros Hn. destruct (str_of_Z_spec n Hn) as (Hi & Hd & _).
  destruct (zeros_digits (2 - String.length (PyStr.str_of_Z n)) _ Hd) as [Hz Hzd].
  split; [by rewrite <- Hi at 2|]. split; [exact Hzd|].
  unfold Scraper.rjust2. rewrite string_length_app, length_zeros. lia.
Qed.

Lemma space_then_digits ds r :
  ds <> "" -> Forall (fun c => PyStr.is_digit c = true) (list_ascii_of_string ds) ->
  head (Re.plus PyStr.is_space (" " +:+ (ds +:+ r))) = Some (" ", ds +:+ r).
Proof.
  intros Hne Hd. apply plus_head; [discriminate|by repeat constructor|].
  destruct ds as [|c ds]; [congruence|]. rewrite string_app_cons.
  apply Forall_cons in Hd as [Hc _]. by apply is_digit_not_space.
Qed.

(** the number that [_verify_court_on_page] reads from the label of a
    court is the number of the court *)
Lemma court_num_of_label n :
  (0 <= n)%Z ->
  exists d, Re.search Scraper.court_num_re (numbered_label n) = Some d
            /\ PyStr.int_of_digits d = n.
Proof.
  intros Hn. destruct (rjust2_digits n Hn) as (Hi & Hd & Hlen).
  unfold numbered_label. generalize dependent (Scraper.rjust2 (PyStr.str_of_Z n)).
  intros ds Hi Hd Hlen.
  assert (ds <> "") as Hne by (destruct ds; [simpl in Hlen; lia|discriminate]).
  assert (exists d, head (Re.bind (Re.opt (Re.chr (Strptime.is_char "0"))) (fun _ =>
                            Re.bind (Re.plus PyStr.is_digit) (fun d => Re.ret d)) ds)
                    = Some (d, "") /\ PyStr.int_of_digits d = PyStr.int_of_digits ds)
    as (d & Hhead & Hval).
  { destruct ds as [|c ds]; [congruence|].
    destruct (Strptime.is_char "0" c) eqn:Ec.
    - apply Ascii.eqb_eq in Ec as <-.
      apply Forall_cons in Hd as [_ Hd]. exists ds. split; [|reflexivity].
      apply (bind_head _ _ _ (Some "0"%char) ds); [reflexivity|].
      apply (bind_head _ _ _ ds ""); [|reflexivity].
      rewrite <- (string_app_nil_r ds) at 1. apply plus_head; [|exact Hd|exact I].
      destruct ds; [simpl in Hlen; lia|discriminate].
    - exists (String c ds). split; [|reflexivity].
      apply (bind_head _ _ _ None (String c ds)).
      + unfold Re.opt, Re.alt, Re.bind, Re.chr. by rewrite Ec.
      + apply (bind_head _ _ _ (String c ds) ""); [|reflexivity].
        rewrite <- (string_app_nil_r (String c ds)) at 1.
        apply plus_head; [discriminate|exact Hd|exact I]. }
  exists d. split; [|by rewrite Hval].
  apply (search_head _ _ _ ""). unfold Scraper.court_num_re.
  change ("Court " +:+ ds) with ("Court" +:+ (" " +:+ ds)).
  apply (bind_head _ _ _ "Court" (" " +:+ ds)).
  { by rewrite lit_app by apply eq_char_ci_refl. }
  apply (bind_head _ _ _ " " ds); [|exact Hhead].
  rewrite <- (string_app_nil_r ds) at 1 2. by apply space_then_digits.
Qed.

Lemma label_found n pre post :
  (0 <= n)%Z ->
  Scraper.found (Scraper.CourtDigits (PyStr.zero_pad 2 n))
                (pre +:+ numbered_label n +:+ post) = true.
Proof.
  intros Hn. destruct (rjust2_digits n Hn) as (_ & Hd & Hlen).
  unfold Scraper.found. apply bool_decide_eq_true.
  change (PyStr.zero_pad 2 n) with (Scraper.rjust2 (PyStr.str_of_Z n)).
  unfold numbered_label. generalize dependent (Scraper.rjust2 (PyStr.str_of_Z n)).
  intros ds Hd Hlen.
  assert (ds <> "") as Hne by (destruct ds; [simpl in Hlen; lia|discriminate]).
  assert (("Court " +:+ ds) +:+ post = "Court" +:+ (" " +:+ (ds +:+ post))) as ->.
  { rewrite !string_app_cons, !string_app_nil_l. reflexivity. }
  apply search_app. unfold Scraper.pattern_re.
  assert (head (Re.bind (Re.lit PyStr.eq_char_ci "Court") (fun _ =>
                Re.bind (Re.plus PyStr.is_space) (fun _ => Re.lit PyStr.eq_char_ci ds))
                ("Court" +:+ (" " +:+ (ds +:+ post)))) = Some (ds, post)) as Hh.
  { apply (bind_head _ _ _ "Court" (" " +:+ (ds +:+ post))).
    { by rewrite lit_app by apply eq_char_ci_refl. }
    apply (bind_head _ _ _ " " (ds +:+ post)); [by apply space_then_digits|].
    by rewrite lit_app by apply eq_char_ci_refl. }
  intros E. rewrite E in Hh. discriminate.
Qed.

(** X16. A page that names the court is accepted. For the label of any
    court number (within the limit of [int]), as court discovery writes
    it, [_verify_court_on_page] accepts a page whose title, or one of whose
    headings, contains the label. *)
Theorem page_naming_the_court_verifies (page : Scraper.Page) (n : Z)
    (pre post : string) :
  (0 <= n)%Z -> within_int_limit (numbered_label n) = true ->
  Scraper.page_title page = Some (pre +:+ numbered_label n +:+ post)
  \/ (exists headings, Scraper.page_headings page = Some headings
                       /\ In (Some (pre +:+ numbered_label n +:+ post)) headings) ->
  Scraper._verify_court_on_page page (numbered_label n) = true.
Proof.
  intros Hn _ Hpage. unfold Scraper._verify_court_on_page, Scraper.court_patterns.
  destruct (court_num_of_label n Hn) as (d & -> & ->).
  pose proof (label_found n pre post Hn) as Hfound.
  destruct Hpage as [Ht|(headings & Hh & Hin)].
  - unfold Scraper.title_check at 1. rewrite Ht. cbn [existsb]. by rewrite Hfound.
  - destruct (Scraper.title_check _ page); [reflexivity|].
    unfold Scraper.heading_check at 1. rewrite Hh.
    assert (existsb (fun h => match h with
                              | Some heading_text =>
                                  existsb (fun p => Scraper.found p heading_text)
                                    [Scraper.CourtDigits (PyStr.zero_pad 2 n);
                                     Scraper.CourtDigits (PyStr.str_of_Z n);
                                     Scraper.CourtDigits ("0" +:+ PyStr.str_of_Z n)]
                              | None => false
                              end) headings = true) as ->; [|reflexivity].
    apply existsb_exists. eexists. split; [exact Hin|]. cbn [existsb]. by rewrite Hfound.
Qed.

Lemma page_naming_the_court_verifies_witness :
  Scraper._verify_court_on_page page_court_12 (numbered_label 12) = true.
Proof.
  apply (page_naming_the_court_verifies page_court_12 12 "" " - UBC Recreation").
  - lia.
  - vm_compute. reflexivity.
  - left. vm_compute. reflexivity.
Defined.

(** *** The calendar view *)

(** the colours of the legend are told apart: the courts of the palette
    have colours of their own, none of them the colour of several courts,
    of several courts for two hours, or of a court that is not in the
    palette *)
Lemma palette_checked :
  forallb (fun c =>
    negb (String.eqb (App.color_get App.get_pastel_colors c) App.multi_court_color)
    && negb (String.eqb (App.color_get App.get_pastel_colors c) App.two_hour_multi_color)
    && negb (String.eqb (App.color_get App.get_pastel_colors c) "#CCCCCC")
    && forallb (fun c' =>
         implb (String.eqb (App.color_get App.get_pastel_colors c)
                           (App.color_get App.get_pastel_colors c'))
               (String.eqb c c'))
         (map fst App.get_pastel_colors))
    (map fst App.get_pastel_colors) = true.
Proof. vm_compute. reflexivity. Qed.

Lemma palette_colours c :
  In c (map fst App.get_pastel_colors) ->
  App.color_get App.get_pastel_colors c <> App.multi_court_color
  /\ App.color_get App.get_pastel_colors c <> App.two_hour_multi_color
  /\ forall c', In c' (map fst App.get_pastel_colors) ->
       App.color_get App.get_pastel_colors c = App.color_get App.get_pastel_colors c' ->
       c = c'.
Proof.
  intros Hc. pose proof palette_checked as H. rewrite forallb_forall in H.
  specialize (H c Hc). apply andb_true_iff in H as [H Hinj].
  apply andb_true_iff in H as [H _]. apply andb_true_iff in H as [Hm Ht].
  apply negb_true_iff, String.eqb_neq in Hm, Ht.
  split; [exact Hm|]. split; [exact Ht|].
  intros c' Hc' Heq. rewrite forallb_forall in Hinj. specialize (Hinj c' Hc').
  apply String.eqb_eq in Heq. rewrite Heq in Hinj. by apply String.eqb_eq.
Qed.

Lemma no_records_no_events now data :
  App.parse_and_sort now data = Ok [] -> App.group_slots_by_time_block now data = Ok [].
Proof. intros Ep. unfold App.group_slots_by_time_block. by rewrite Ep. Qed.

(** X17. What the calendar view shows. [render_calendar_view] shows its
    notice that nothing is available exactly when the time of no entry is
    read; otherwise it hands the events of [group_slots_by_time_block] to
    the calendar, each with its border in the colour of its background.
    As long as the events of a single court show courts of the palette,
    the colours can be read as the legend says: two events of the same
    colour show the same single court, or both show several courts and
    are of the same kind (one hour, two hours). *)
Theorem calendar_view_and_legend (now : Cal.datetime) (data : list Slot)
    (parsed : list (Slot * Cal.datetime)) (shown : option (list App.ColoredEvent)) :
  App.parse_and_sort now data = Ok parsed ->
  App.render_calendar_view now data = Ok shown ->
  (shown = None <-> parsed = [])
  /\ forall colored, shown = Some colored ->
       App.group_slots_by_time_block now data = Ok (map App.ce_event colored)
       /\ (forall a, In a colored -> App.borderColor a = App.backgroundColor a)
       /\ forall a b,
            In a colored -> In b colored ->
            (forall c, App.ev_courts (App.ce_event a) = [c] \/ App.ev_courts (App.ce_event b) = [c] ->
                       In c (map fst App.get_pastel_colors)) ->
            App.backgroundColor a = App.backgroundColor b ->
            (exists c, App.ev_courts (App.ce_event a) = [c]
                       /\ App.ev_courts (App.ce_event b) = [c])
            \/ (length (App.ev_courts (App.ce_event a)) <> 1
                /\ length (App.ev_courts (App.ce_event b)) <> 1
                /\ App.ev_isTwoHour (App.ce_event a) = App.ev_isTwoHour (App.ce_event b)).
Proof.
  intros Ep. unfold App.render_calendar_view.
  destruct (App.group_slots_by_time_block now data) as [events|] eqn:Eev; cbn [rbind];
    [|discriminate].
  assert (events = [] <-> parsed = []) as Hempty.
  { pose proof Eev as Hperm. unfold App.group_slots_by_time_block in Hperm.
    rewrite Ep in Hperm. cbn [rbind] in Hperm.
    destruct (App.pairing parsed) as [st|] eqn:Est; cbn [rbind] in Hperm; [|discriminate].
    apply (events_sources_perm now data parsed st events Ep Est) in Hperm.
    split.
    - intros ->. apply Permutation_nil in Hperm. by destruct parsed.
    - intros ->. rewrite (no_records_no_events now data Ep) in Eev. congruence. }
  intros Hshown.
  assert (shown = match events with
                  | [] => None
                  | _ => Some (map (App.color_event App.get_pastel_colors) events)
                  end) as -> by (destruct events; congruence).
  clear Hshown. split.
  - destruct events as [|e events].
    + split; [intros _; by apply Hempty | reflexivity].
    + split; [discriminate|]. intros Hp. apply Hempty in Hp. discriminate.
  - intros colored Hcolored.
    assert (colored = map (App.color_event App.get_pastel_colors) events) as ->
      by (destruct events; congruence).
    clear Hcolored.
    assert (forall e, App.ce_event (App.color_event App.get_pastel_colors e) = e) as Hce.
    { intros e. unfold App.color_event.
      by destruct (App.ev_isTwoHour e), (App.ev_courts e) as [|c [|c' l]]. }
    split; [|split].
    + f_equal. rewrite map_map. rewrite <- (map_id events) at 1. apply map_ext.
      intros e. by rewrite Hce.
    + intros a (e & <- & _)%in_map_iff. unfold App.color_event.
      by destruct (App.ev_isTwoHour e), (App.ev_courts e) as [|c [|c' l]].
    + intros a b (ea & <- & _)%in_map_iff (eb & <- & _)%in_map_iff. rewrite !Hce.
      unfold App.color_event.
      destruct (App.ev_courts ea) as [|ca [|ca' la]] eqn:Ea,
               (App.ev_courts eb) as [|cb [|cb' lb]] eqn:Eb;
        destruct (App.ev_isTwoHour ea), (App.ev_isTwoHour eb);
        cbn [App.backgroundColor length]; intros Hpal Hcol;
        try (right; repeat split; (discriminate || reflexivity));
        try discriminate;
        try (left; exists ca; split; [reflexivity|]; f_equal; symmetry;
             apply (proj2 (proj2 (palette_colours ca (Hpal ca (or_introl eq_refl)))));
             [apply Hpal; by right | exact Hcol]);
        try (exfalso;
             first [ apply (proj1 (palette_colours ca (Hpal ca (or_introl eq_refl)))); done
                   | apply (proj1 (proj2 (palette_colours ca (Hpal ca (or_introl eq_refl))))); done
                   | apply (proj1 (palette_colours cb (Hpal cb (or_intror eq_refl)))); done
                   | apply (proj1 (proj2 (palette_colours cb (Hpal cb (or_intror eq_refl))))); done ]).
Qed.

Lemma calendar_view_and_legend_witness :
  exists parsed shown,
    App.parse_and_sort sample_now pair_and_single = Ok parsed
    /\ App.render_calendar_view sample_now pair_and_single = Ok shown
    /\ (shown = None <-> parsed = [])
    /\ forall colored, shown = Some colored ->
         App.group_slots_by_time_block sample_now pair_and_single
           = Ok (map App.ce_event colored)
         /\ (forall a, In a colored -> App.borderColor a = App.backgroundColor a)
         /\ forall a b,
              In a colored -> In b colored ->
              (forall c, App.ev_courts (App.ce_event a) = [c]
                         \/ App.ev_courts (App.ce_event b) = [c] ->
                         In c (map fst App.get_pastel_colors)) ->
              App.backgroundColor a = App.backgroundColor b ->
              (exists c, App.ev_courts (App.ce_event a) = [c]
                         /\ App.ev_courts (App.ce_event b) = [c])
              \/ (length (App.ev_courts (App.ce_event a)) <> 1
                  /\ length (App.ev_courts (App.ce_event b)) <> 1
                  /\ App.ev_isTwoHour (App.ce_event a)
                     = App.ev_isTwoHour (App.ce_event b)).
Proof.
  eexists. eexists. split; [vm_compute; reflexivity|]. split; [vm_compute; reflexivity|].
  apply (calendar_view_and_legend sample_now pair_and_single); vm_compute; reflexivity.
Defined.

(** *** From the schedule to the notifications *)



